(** * Mixer broadcaster: the command-line client and the end-to-end test oracle

    A shallow embedding of [broadcaster/cli.py] and of
    [tests/mixer_testcase.py].  Python methods become functions in a small
    state-and-exception monad; every call that leaves the module (the
    transport base class, [print], [logging], [time.sleep], the test
    collaborators) is recorded in a trace, so that statements about what is
    invoked, and in which order, are statements about that trace. *)

From Stdlib Require Import ZArith QArith String Ascii Strings.Byte List Bool Lia.
From Stdlib Require HexString.
From stdpp Require Import base option list strings gmap sorting pretty.
Import ListNotations.
Local Open Scope string_scope.
Local Open Scope list_scope.

(** ** Python exceptions, results and the monad *)

Module Py.

(** The exception classes that occur in the two files, and the ones the
    interpreter raises for the operations they use. *)
Inductive exn_class :=
| ServerError          (* cli.py:17, class ServerError(RuntimeError) *)
| RuntimeError
| AssertionError       (* unittest.TestCase.failureException *)
| AttributeError
| IndexError
| OSError
| ConnectError         (* the spec's name for a failed connect *)
| UnicodeEncodeError   (* raised by str.encode() *)
| KeyboardInterrupt.   (* a BaseException that is not an Exception *)

Record exn := Exn { exn_type : exn_class; exn_args : list string }.

Definition exn_class_eqb (a b : exn_class) : bool :=
  match a, b with
  | ServerError, ServerError | RuntimeError, RuntimeError
  | AssertionError, AssertionError | AttributeError, AttributeError
  | IndexError, IndexError | OSError, OSError
  | ConnectError, ConnectError
  | UnicodeEncodeError, UnicodeEncodeError
  | KeyboardInterrupt, KeyboardInterrupt => true
  | _, _ => false
  end.

(** [issubclass c base], for the classes above. *)
Definition issubclass (c base : exn_class) : bool :=
  exn_class_eqb c base ||
  match c, base with
  | ServerError, RuntimeError => true
  | _, _ => false
  end.

(** [except base as e] catches [e]. *)
Definition isinstance (e : exn) (base : exn_class) : bool :=
  issubclass (exn_type e) base.

(** [except Exception] catches everything but the BaseException-only
    classes. *)
Definition is_Exception (e : exn) : bool :=
  negb (exn_class_eqb (exn_type e) KeyboardInterrupt).

Inductive outcome (A : Type) :=
| Return (a : A)
| Raise (e : exn).
Arguments Return {A} a.
Arguments Raise {A} e.

Section Monad.
Context {S : Type}.

Definition M (A : Type) : Type := S -> S * outcome A.

Definition ret {A} (a : A) : M A := fun s => (s, Return a).
Definition raise {A} (e : exn) : M A := fun s => (s, Raise e).
Definition bind {A B} (m : M A) (k : A -> M B) : M B :=
  fun s =>
    match m s with
    | (s', Return a) => k a s'
    | (s', Raise e) => (s', Raise e)
    end.
Definition get : M S := fun s => (s, Return s).
Definition modify (f : S -> S) : M unit := fun s => (f s, Return tt).

(** [try: body except <catches> as e: handler e] *)
Definition try_except {A} (body : M A) (catches : exn -> bool)
    (handler : exn -> M A) : M A :=
  fun s =>
    match body s with
    | (s', Return a) => (s', Return a)
    | (s', Raise e) => if catches e then handler e s' else (s', Raise e)
    end.

(** [try: body finally: fin]: [fin] always runs; an exception of [fin]
    replaces the pending result. *)
Definition try_finally {A} (body : M A) (fin : M unit) : M A :=
  fun s =>
    match body s with
    | (s', r) =>
        match fin s' with
        | (s'', Return _) => (s'', r)
        | (s'', Raise e) => (s'', Raise e)
        end
    end.

(** [for x in xs: body x] *)
Fixpoint for_each {X} (xs : list X) (body : X -> M unit) : M unit :=
  match xs with
  | [] => ret tt
  | x :: xs' => bind (body x) (fun _ => for_each xs' body)
  end.
End Monad.

Arguments M S A : clear implicits.

End Py.
Import Py.

Declare Scope py_scope.
Delimit Scope py_scope with py.
Notation "'do' x <- m ; k" := (bind m (fun x => k))
  (at level 10, x name, m at level 100, k at level 200) : py_scope.
Notation "m ;; k" := (bind m (fun _ => k))
  (at level 100, k at level 200, right associativity) : py_scope.
Local Open Scope py_scope.

(** ** common.py: message types and commands *)

Module Common.

(** Modelled from the spec: [common.MessageType] is declared in common.py,
    which is not part of the two files.  The spec lists the room and roster
    queries and the lifecycle signal, "plus domain-specific
    substream-tagged broadcast types". *)
Inductive MessageType :=
| LIST_ROOMS
| DELETE_ROOM
| CLEAR_ROOM
| LIST_ROOM_CLIENTS
| LIST_CLIENTS
| LIST_ALL_CLIENTS
| CONNECTION_LOST
| BROADCAST (tag : N).

Definition MessageType_eqb (a b : MessageType) : bool :=
  match a, b with
  | LIST_ROOMS, LIST_ROOMS | DELETE_ROOM, DELETE_ROOM
  | CLEAR_ROOM, CLEAR_ROOM | LIST_ROOM_CLIENTS, LIST_ROOM_CLIENTS
  | LIST_CLIENTS, LIST_CLIENTS | LIST_ALL_CLIENTS, LIST_ALL_CLIENTS
  | CONNECTION_LOST, CONNECTION_LOST => true
  | BROADCAST t, BROADCAST u => N.eqb t u
  | _, _ => false
  end.

Definition bytes := list byte.

(** Modelled from the spec: [common.Command], "{type: MessageType,
    payload: bytes}". *)
Record Command := mkCommand { type : MessageType; data : bytes }.

(** [common.Command(type)] and [common.Command(type, data)]: the payload
    is optional in the constructor; cli.py leaves it out for the queries
    that take no name, and the command then carries no payload bytes. *)
Definition Command_new (t : MessageType) (payload : option bytes) : Command :=
  mkCommand t (default [] payload).

(** *** Python strings

    A [str] is modelled by the bytes it was decoded from.  The command
    line is decoded as UTF-8 with the [surrogateescape] handler: a
    well-formed UTF-8 sequence becomes the character it encodes, and every
    byte that is part of none becomes a lone surrogate (the argument byte
    0xFF is the string ['\udcff']). *)

Definition byte_in (lo hi : N) (c : ascii) : bool :=
  (lo <=? N_of_ascii c)%N && (N_of_ascii c <=? hi)%N.

(** The length of the well-formed UTF-8 sequence at the head of [s], if
    there is one (the Unicode Standard, table 3-7). *)
Definition sequence_length (s : string) : option nat :=
  match s with
  | EmptyString => None
  | String b1 rest =>
      if byte_in 0 127 b1 then Some 1 else
      match rest with
      | EmptyString => None
      | String b2 rest2 =>
          if byte_in 194 223 b1 && byte_in 128 191 b2 then Some 2 else
          match rest2 with
          | EmptyString => None
          | String b3 rest3 =>
              if (byte_in 224 224 b1 && byte_in 160 191 b2
                  || byte_in 225 236 b1 && byte_in 128 191 b2
                  || byte_in 237 237 b1 && byte_in 128 159 b2
                  || byte_in 238 239 b1 && byte_in 128 191 b2)
                 && byte_in 128 191 b3
              then Some 3 else
              match rest3 with
              | EmptyString => None
              | String b4 _ =>
                  if (byte_in 240 240 b1 && byte_in 144 191 b2
                      || byte_in 241 243 b1 && byte_in 128 191 b2
                      || byte_in 244 244 b1 && byte_in 128 143 b2)
                     && byte_in 128 191 b3 && byte_in 128 191 b4
                  then Some 4 else None
              end
          end
      end
  end.

(** The characters of a [str], one boolean each: whether the character is
    a lone surrogate.  [skip] counts the bytes still to pass of the
    sequence being read. *)
Fixpoint surrogates (skip : nat) (s : string) : list bool :=
  match s with
  | EmptyString => []
  | String _ rest =>
      match skip with
      | S k => surrogates k rest
      | O =>
          match sequence_length s with
          | Some n => false :: surrogates (pred n) rest
          | None => true :: surrogates 0 rest
          end
      end
  end.

(** The length of the longest prefix of [l] whose elements satisfy [p]. *)
Fixpoint run_length {A} (p : A -> bool) (l : list A) : nat :=
  match l with
  | x :: rest => if p x then S (run_length p rest) else 0
  | [] => 0
  end.

(** The text of a string literal of the program, as bytes. *)
Definition utf8 (text : string) : bytes := list_byte_of_string text.

(** [name.encode()], to UTF-8 and strict: the bytes of the string, unless
    it holds a lone surrogate; then [UnicodeEncodeError] is raised with
    the encoding, the string, the position of the first surrogate and the
    end of the run of surrogates that starts there (in decimal) and the
    reason. *)
Definition encode (name : string) : outcome bytes :=
  let characters := surrogates 0 name in
  if existsb id characters then
    let start := run_length negb characters in
    let run := run_length id (drop start characters) in
    Raise (Exn UnicodeEncodeError
             ["utf-8"; name; pretty start; pretty (start + run);
              "surrogates not allowed"])
  else Return (utf8 name).

End Common.
Import Common.

(** ** broadcaster/cli.py *)

Module Cli.

(** [argparse.Namespace] as built by the parsers at the end of cli.py. *)
Record Namespace := {
  host : string;
  port : Z;
  timeout : Z;
  command : string;
  name : list string
}.

(** The base class [client.Client] lives in client.py, which is not part
    of the two files.  Its methods are parameters of the development:
    whatever the transport does, it does to its own state [T]; the
    attributes that [CliClient] adds (cli.py:25-28) are not its business.
    The constructor, [connect], [addCommand] and the room calls may raise.
    [disconnect] and [consume_one] have no failure in the contract of the
    transport: [disconnect] is idempotent, [consume_one] hands back the next
    received command or [None] without blocking (the second component of
    the pair it returns is dropped by cli.py at once and is left out).
    The methods being arbitrary functions of [T], a statement proved for
    every transport also holds when the consumer thread or the network
    changes the transport between two calls of the caller. *)
Class ClientBase (T : Type) := {
  Client_init : string -> Z -> outcome T;
  Client_connect : T -> T * outcome unit;
  Client_disconnect : T -> T;
  Client_isConnected : T -> bool;
  Client_addCommand : Command -> T -> T * outcome unit;
  Client_consume_one : T -> T * option Command;
  Client_joinRoom : string -> T -> T * outcome unit;
  Client_leaveRoom : string -> T -> T * outcome unit;
  Client_setClientName : string -> T -> T * outcome unit
}.

(** What is handed to [print]: literal text, the [repr] of a list of
    strings, [str(e)] of an exception, or a command rendered by
    [common.CommandFormatter]. *)
Inductive piece :=
| Text (s : string)
| ReprList (l : list string)
| StrExn (e : exn)
| Formatted (c : Command).

(** The calls that leave cli.py. *)
Inductive call :=
| Init (h : string) (p : Z)          (* client.Client.__init__ *)
| ThreadStart                        (* threading.Thread(None, self.consume).start() *)
| Connect
| Disconnect
| AddCommand (c : Command)
| ConsumeOne (received : option Command)
| JoinRoom (room : string)
| LeaveRoom (room : string)
| SetClientName (n : string)
| Sleep (seconds : Q)
| Print (text : list piece) (newline : bool)
| LoggingError (e : exn).

(** A call together with the exception it raised, if any. *)
Record event := Ev { ev_call : call; ev_raised : option exn }.

(** Control points of [CliClient.consume] (cli.py:57-69). *)
Inductive pc :=
| at_while                         (* l.59  while not self.terminate *)
| at_consume_one                   (* l.60  received, _ = super().consume_one() *)
| at_sleep                         (* l.62  time.sleep(0.1) *)
| at_if_lost (received : Command)  (* l.64  if received.type == CONNECTION_LOST *)
| at_print (received : Command)    (* l.67  print(self.formatter.format(received)) *)
| at_prompt                        (* l.69  print('> ') *)
| finished.                        (* the loop test failed, consume returned *)

Section Model.
Context {T : Type} {Tr : ClientBase T}.

(** A [CliClient] object: the state of its base class, the [terminate]
    attribute of cli.py:26 and the consumer thread started at cli.py:28. *)
Record CliClient := {
  super : T;
  terminate : bool;
  consumer : pc
}.

Definition set_super (b : T) (c : CliClient) : CliClient :=
  {| super := b; terminate := terminate c; consumer := consumer c |}.
Definition set_terminate (v : bool) (c : CliClient) : CliClient :=
  {| super := super c; terminate := v; consumer := consumer c |}.
Definition set_consumer (p : pc) (c : CliClient) : CliClient :=
  {| super := super c; terminate := terminate c; consumer := p |}.

(** The local variable [client] of the functions of cli.py, holding
    [None] or the object, and the trace of calls so far. *)
Record state := {
  client : option CliClient;
  trace : list event
}.

Definition set_client (c : option CliClient) (s : state) : state :=
  {| client := c; trace := trace s |}.
Definition add_event (e : event) (s : state) : state :=
  {| client := client s; trace := trace s ++ [e] |}.

Definition raised {A} (r : outcome A) : option exn :=
  match r with Return _ => None | Raise e => Some e end.

Definition log (c : call) (r : option exn) : M state unit :=
  modify (add_event (Ev c r)).

Definition print (text : list piece) : M state unit := log (Print text true) None.

Definition NoneType_has_no (attr : string) : exn :=
  Exn AttributeError ["'NoneType' object has no attribute '" +:+ attr +:+ "'"].

(** [client.<attr>] where [client] may be [None]. *)
Definition the_client (attr : string) : M state CliClient :=
  fun s =>
    match client s with
    | Some c => (s, Return c)
    | None => (s, Raise (NoneType_has_no attr))
    end.

(** A method inherited from [client.Client], called on [client]. *)
Definition super_call {A} (attr : string) (c : call) (f : T -> T * outcome A)
    : M state A :=
  do me <- the_client attr;
  let '(b, r) := f (super me) in
  modify (set_client (Some (set_super b me))) ;;
  log c (raised r) ;;
  (fun s => (s, r)).

Definition connect : M state unit := super_call "connect" Connect Client_connect.
Definition disconnect : M state unit :=
  super_call "disconnect" Disconnect (fun b => (Client_disconnect b, Return tt)).
Definition isConnected : M state bool :=
  do me <- the_client "isConnected"; ret (Client_isConnected (super me)).
Definition addCommand (c : Command) : M state unit :=
  super_call "addCommand" (AddCommand c) (Client_addCommand c).
Definition joinRoom (r : string) : M state unit :=
  super_call "joinRoom" (JoinRoom r) (Client_joinRoom r).
Definition leaveRoom (r : string) : M state unit :=
  super_call "leaveRoom" (LeaveRoom r) (Client_leaveRoom r).
Definition setClientName (n : string) : M state unit :=
  super_call "setClientName" (SetClientName n) (Client_setClientName n).

(** cli.py:23-28 *)
Definition CliClient_init (args : Namespace) : M state CliClient :=
  fun s =>
    match Client_init (host args) (port args) with
    | Raise e => (add_event (Ev (Init (host args) (port args)) (Some e)) s, Raise e)
    | Return b =>
        (add_event (Ev ThreadStart None)
           (add_event (Ev (Init (host args) (port args)) None) s),
         Return {| super := b; terminate := false; consumer := at_while |})
    end.

(** [client = CliClient(args)] *)
Definition client_assign_new (args : Namespace) : M state unit :=
  do c <- CliClient_init args; modify (set_client (Some c)).

(** cli.py:54-55 *)
Definition post_command (command : Command) : M state unit :=
  addCommand command.

(** [name.encode()], which is evaluated before the command is built and
    may raise. *)
Definition name_encode (name : string) : M state bytes :=
  fun s => (s, encode name).

(** cli.py:30-52 *)
Definition listRooms : M state unit :=
  let command := Command_new LIST_ROOMS None in
  post_command command.
Definition deleteRoom (name : string) : M state unit :=
  do payload <- name_encode name;
  let command := Command_new DELETE_ROOM (Some payload) in
  post_command command.
Definition clearRoom (name : string) : M state unit :=
  do payload <- name_encode name;
  let command := Command_new CLEAR_ROOM (Some payload) in
  post_command command.
Definition listRoomClients (name : string) : M state unit :=
  do payload <- name_encode name;
  let command := Command_new LIST_ROOM_CLIENTS (Some payload) in
  post_command command.
Definition listClients : M state unit :=
  let command := Command_new LIST_CLIENTS None in
  post_command command.
Definition listAllClients : M state unit :=
  let command := Command_new LIST_ALL_CLIENTS None in
  post_command command.

(** The [finally] clauses: [if client:] (l.113) and [if client is not
    None:] (l.128) agree, an object being true unless its class says
    otherwise. *)
Definition disconnect_if_client : M state unit :=
  do s <- get;
  match client s with
  | Some _ => disconnect
  | None => ret tt
  end.

(** One of the three batch branches, cli.py:81-109. *)
Definition batch (args : Namespace) (operation : string -> M state unit)
    : M state unit :=
  let count := length (name args) in
  if negb (Nat.eqb count 0) then
    client_assign_new args ;;
    connect ;;
    for_each (name args) operation
  else
    print [Text "Expected one or more room names"].

(** The [try] block of [process_room_command], cli.py:76-109. *)
Definition room_command (args : Namespace) : M state unit :=
  if String.eqb (command args) "list" then
    client_assign_new args ;;
    connect ;;
    listRooms
  else if String.eqb (command args) "delete" then
    batch args deleteRoom
  else if String.eqb (command args) "clear" then
    batch args clearRoom
  else if String.eqb (command args) "clients" then
    batch args listRoomClients
  else ret tt.

(** cli.py:72-114 *)
Definition process_room_command (args : Namespace) : M state unit :=
  modify (set_client None) ;;
  try_finally
    (try_except
       (room_command args)
       (fun e => isinstance e ServerError)
       (fun e => log (LoggingError e) None))
    disconnect_if_client.

(** The [try] block of [process_client_command], cli.py:121-124. *)
Definition client_command (args : Namespace) : M state unit :=
  if String.eqb (command args) "list" then
    client_assign_new args ;;
    connect ;;
    listClients
  else ret tt.

(** cli.py:117-129 *)
Definition process_client_command (args : Namespace) : M state unit :=
  modify (set_client None) ;;
  try_finally
    (try_except
       (client_command args)
       (fun e => isinstance e ServerError)
       (fun e => log (LoggingError e) None))
    disconnect_if_client.

(** *** The consumer thread, cli.py:57-69

    [consume] runs on its own thread and shares the object with the
    caller, so it is given step by step: one step per statement of the
    loop.  The calls it makes go to the same trace. *)
Definition consume_step (me : CliClient) : CliClient * list event :=
  match consumer me with
  | at_while =>
      if terminate me then (set_consumer finished me, [])
      else (set_consumer at_consume_one me, [])
  | at_consume_one =>
      let '(b, received) := Client_consume_one (super me) in
      (set_consumer
         (match received with
          | None => at_sleep
          | Some c => at_if_lost c
          end)
         (set_super b me),
       [Ev (ConsumeOne received) None])
  | at_sleep =>
      (set_consumer at_while me, [Ev (Sleep (1 # 10)) None])
  | at_if_lost received =>
      if MessageType_eqb (type received) CONNECTION_LOST then
        (set_consumer (at_print received)
           (set_super (Client_disconnect (super me)) me),
         [Ev Disconnect None])
      else (set_consumer (at_print received) me, [])
  | at_print received =>
      (set_consumer at_prompt me, [Ev (Print [Formatted received] true) None])
  | at_prompt =>
      (set_consumer at_while me, [Ev (Print [Text "> "] true) None])
  | finished => (me, [])
  end.

(** What can happen to the object while the consumer runs: the consumer
    takes its next step; the caller sets the flag (cli.py:190, the only
    assignment after the constructor's); or something happens to the
    transport (a method called by the main thread, network traffic). *)
Inductive action :=
| Consumer
| SetTerminate
| Transport (f : T -> T).

Definition act (a : action) (me : CliClient) : CliClient * list event :=
  match a with
  | Consumer => consume_step me
  | SetTerminate => (set_terminate true me, [])
  | Transport f => (set_super (f (super me)) me, [])
  end.

Fixpoint run (schedule : list action) (me : CliClient)
    : CliClient * list event :=
  match schedule with
  | [] => (me, [])
  | a :: rest =>
      let '(me1, t1) := act a me in
      let '(me2, t2) := run rest me1 in
      (me2, t1 ++ t2)
  end.

(** [consume], left alone for a number of steps. *)
Definition consume (steps : nat) (me : CliClient) : CliClient * list event :=
  run (repeat Consumer steps) me.

Definition is_Consumer (a : action) : bool :=
  match a with Consumer => true | _ => false end.
Definition is_SetTerminate (a : action) : bool :=
  match a with SetTerminate => true | _ => false end.

(** The thread has been started and [consume] has not returned. *)
Definition consumer_running (me : CliClient) : bool :=
  match consumer me with finished => false | _ => true end.

Definition is_ConsumeOne (e : event) : bool :=
  match ev_call e with ConsumeOne _ => true | _ => false end.
Definition is_Sleep (e : event) : bool :=
  match ev_call e with Sleep _ => true | _ => false end.
Definition is_lost (e : event) : bool :=
  match ev_call e with
  | ConsumeOne (Some c) => MessageType_eqb (type c) CONNECTION_LOST
  | _ => false
  end.

(** The trace shows a [consume_one] after one that returned
    [CONNECTION_LOST]. *)
Fixpoint polls_after_loss (t : list event) : bool :=
  match t with
  | [] => false
  | e :: rest =>
      (is_lost e && existsb is_ConsumeOne rest) || polls_after_loss rest
  end.

(** *** Reading a trace *)

Definition is_ThreadStart (e : event) : bool :=
  match ev_call e with ThreadStart => true | _ => false end.

(** A [CliClient] was constructed: its constructor ran to the end, where
    it starts the thread. *)
Definition constructed (t : list event) : bool := existsb is_ThreadStart t.

(** The commands handed to [addCommand], in order. *)
Fixpoint posted (t : list event) : list Command :=
  match t with
  | [] => []
  | e :: rest =>
      match ev_call e with
      | AddCommand c => c :: posted rest
      | _ => posted rest
      end
  end.

(** No call of the trace raised. *)
Definition all_returned (t : list event) : bool :=
  forallb (fun e => match ev_raised e with None => true | Some _ => false end) t.


(** The trace of a one-shot command that went through: the object is
    constructed, connected, the commands [cs] are handed to
    [addCommand] in this order, and the object is disconnected. *)
Definition session (args : Namespace) (cs : list Command) : list event :=
  [Ev (Init (host args) (port args)) None; Ev ThreadStart None;
   Ev Connect None]
  ++ map (fun c => Ev (AddCommand c) None) cs
  ++ [Ev Disconnect None].

(** The state in which a function of cli.py is entered. *)
Definition entry (c : option CliClient) : state :=
  {| client := c; trace := [] |}.

(** How many events of a kind a trace holds, and how many steps of the
    consumer a schedule holds. *)
Definition count {X} (p : X -> bool) (l : list X) : nat :=
  length (List.filter p l).

(** What is left of the current round of the loop once the flag is set:
    the steps to the end of [consume], and the calls of [consume_one] and
    of [time.sleep] still ahead. *)
Definition steps_left (p : pc) : nat :=
  match p with
  | finished => 0
  | at_while => 1
  | at_prompt => 2
  | at_sleep => 2
  | at_print _ => 3
  | at_if_lost _ => 4
  | at_consume_one => 5
  end.
Definition polls_left (p : pc) : nat :=
  match p with at_consume_one => 1 | _ => 0 end.
Definition sleeps_left (p : pc) : nat :=
  match p with at_consume_one | at_sleep => 1 | _ => 0 end.

Definition sleeps_a_tenth (e : event) : bool :=
  match ev_call e with
  | Sleep d => Qeq_bool d (1 # 10)
  | _ => true
  end.

(** [operation], called on the object [me], is refused: it raises a
    [RuntimeError], and nothing changes but the trace, which gets the
    refused call. *)
Definition refused (me : CliClient) (t : list event)
    (operation : M state unit) : Prop :=
  exists c e,
    operation {| client := Some me; trace := t |}
    = ({| client := Some me; trace := t ++ [Ev (AddCommand c) (Some e)] |},
       Raise e)
    /\ exn_type e = RuntimeError.

(** The same for an operation that encodes [name] first: it is refused
    in this way when the name can be encoded; otherwise the encoding
    raises, and nothing changes at all. *)
Definition refused_once_encoded (name : string) (me : CliClient)
    (t : list event) (operation : M state unit) : Prop :=
  match encode name with
  | Return _ => refused me t operation
  | Raise e =>
      operation {| client := Some me; trace := t |}
      = ({| client := Some me; trace := t |}, Raise e)
      /\ exn_type e = UnicodeEncodeError
  end.

(** *** The interactive shell, cli.py:132-217 *)

(** ["help" "exit"] at l.146-147 are adjacent literals: one string. *)
Definition commands : list string :=
  [ "connect"; "disconnect";
    "listrooms"; "join <roomname>"; "leave <roomname>";
    "listjoinedclients"; "listallclients"; "setclientname <clientname>";
    "listroomclients <roomname>";
    "helpexit" ].

(** cli.py:151-155 *)
Definition help : M state unit :=
  print [Text "Allowed commands : "] ;;
  for_each commands (fun c => print [Text " "; Text " "; Text c]) ;;
  print [].

(** [l[0]] *)
Definition index0 (l : list string) : M state string :=
  match l with
  | x :: _ => ret x
  | [] => raise (Exn IndexError ["list index out of range"])
  end.

(** [client is None or not client.isConnected()] *)
Definition none_or_not_connected : M state bool :=
  do s <- get;
  match client s with
  | None => ret true
  | Some me => ret (negb (Client_isConnected (super me)))
  end.

Definition not_connected_message : string :=
  "Not connected, use " +:+ String "034"%char "connect"
    +:+ String "034"%char " first".

(** cli.py:184-215; the result is the new value of [done]. *)
Definition dispatch (args : Namespace) (command : string)
    (command_args : list string) : M state bool :=
  if String.eqb command "connect" then
    do nc <- none_or_not_connected;
    (if nc : bool then client_assign_new args
     else print [Text "Error : already connected. Use disconnect first"]) ;;
    ret false
  else if String.eqb command "exit" then
    do me <- the_client "terminate";
    modify (set_client (Some (set_terminate true me))) ;;
    ret true
  else if String.eqb command "help" then
    help ;; ret false
  else
    do nc <- none_or_not_connected;
    (if nc : bool then raise (Exn RuntimeError [not_connected_message])
     else ret tt) ;;
    (if String.eqb command "listrooms" then listRooms
     else if String.eqb command "listroomclients" then
       do a <- index0 command_args; listRoomClients a
     else if String.eqb command "listjoinedclients" then listClients
     else if String.eqb command "listallclients" then listAllClients
     else if String.eqb command "join" then
       do a <- index0 command_args; joinRoom a
     else if String.eqb command "leave" then
       do a <- index0 command_args; leaveRoom a
     else if String.eqb command "setclientname" then
       do a <- index0 command_args; setClientName a
     else if String.eqb command "disconnect" then
       disconnect ;; modify (set_client None)
     else ret tt) ;;
    ret false.

(** [str.isspace] for the character at the head of [s]: the number of
    bytes of its UTF-8 sequence if it is white space, and 0 otherwise.
    White space is U+0009-000D, U+001C-0020, U+0085, U+00A0, U+1680,
    U+2000-200A, U+2028, U+2029, U+202F, U+205F and U+3000. *)
Definition is_space (s : string) : nat :=
  match s with
  | EmptyString => 0
  | String b1 rest =>
      if byte_in 9 13 b1 || byte_in 28 32 b1 then 1 else
      match rest with
      | EmptyString => 0
      | String b2 rest2 =>
          if byte_in 194 194 b1 && (byte_in 133 133 b2 || byte_in 160 160 b2)
          then 2 else
          match rest2 with
          | EmptyString => 0
          | String b3 _ =>
              if byte_in 225 225 b1 && byte_in 154 154 b2 && byte_in 128 128 b3
                 || byte_in 226 226 b1 && byte_in 128 128 b2
                    && (byte_in 128 138 b3 || byte_in 168 169 b3
                        || byte_in 175 175 b3)
                 || byte_in 226 226 b1 && byte_in 129 129 b2 && byte_in 159 159 b3
                 || byte_in 227 227 b1 && byte_in 128 128 b2 && byte_in 128 128 b3
              then 3 else 0
          end
      end
  end.

(** [str.split()]: the maximal runs of characters that are not white
    space.  [skip] counts the bytes still to pass of the white-space
    character being read. *)
Fixpoint split_from (skip : nat) (word : option string) (s : string)
    : list string :=
  match s with
  | EmptyString =>
      match word with
      | Some w => [w]
      | None => []
      end
  | String c rest =>
      match skip with
      | S k => split_from k word rest
      | O =>
          match is_space s with
          | S k =>
              match word with
              | Some w => w :: split_from k None rest
              | None => split_from k None rest
              end
          | O => split_from 0 (Some (default "" word +:+ String c "")) rest
          end
      end
  end.
Definition split (s : string) : list string := split_from 0 None s.

(** The body of the [while not done] loop for one line of input,
    cli.py:163-217; the result is the new value of [done]. *)
Definition interactive_iteration (args : Namespace) (user_input : string)
    : M state bool :=
  try_except
    (log (Print [Text "> "] false) None ;;
     let items := split user_input in
     match items with
     | [] => ret false
     | input_command :: command_args =>
         let candidates :=
           List.filter (fun c => String.prefix input_command c) commands in
         match candidates with
         | [] =>
             print [Text "Command not recognised : "; Text input_command;
                    Text "."] ;;
             help ;;
             ret false
         | _ :: _ :: _ =>
             print [Text "ambigous command "; Text input_command;
                    Text " : found "; ReprList candidates; Text "."] ;;
             ret false
         | [candidate] =>
             do command <- index0 (split candidate);
             (if negb (String.eqb input_command command)
              then print [Text command; Text " "; ReprList command_args]
              else ret tt) ;;
             dispatch args command command_args
         end
     end)
    is_Exception
    (fun e => print [Text "Exception: "; StrExn e] ;; ret false).

(** A line typed at the prompt is refused before any call is made: the
    shell prints the exception of l.196 and goes on. *)
Definition refused_at_the_prompt (args : Namespace)
    (c0 : option CliClient) (t : list event) (user_input : string) : Prop :=
  interactive_iteration args user_input {| client := c0; trace := t |}
  = ({| client := c0;
        trace := t ++ [Ev (Print [Text "> "] false) None;
                       Ev (Print [Text "Exception: ";
                                  StrExn (Exn RuntimeError
                                            [not_connected_message])]
                             true) None] |},
     Return false).

(** cli.py:158-162, for the lines typed by the user. *)
Fixpoint interactive_rounds (args : Namespace) (inputs : list string)
    : M state unit :=
  match inputs with
  | [] => ret tt
  | user_input :: rest =>
      do done <- interactive_iteration args user_input;
      if done : bool then ret tt else interactive_rounds args rest
  end.

Definition interactive_loop (args : Namespace) (inputs : list string)
    : M state unit :=
  client_assign_new args ;;
  connect ;;
  interactive_rounds args inputs.

End Model.

Arguments CliClient T : clear implicits.
Arguments state T : clear implicits.

End Cli.

(** ** client.py, as the spec describes it *)

Module SpecClient.

(** Modelled from the spec: [client.Client], the transport-level Client of
    spec sections 3 and 4.2; client.py is not part of the two files.  "Holds
    connection state (connected: bool), an outbound queue of pending
    commands awaiting transmission, an inbound delivery sink, and a
    background consumption task."  [server_up] stands for the network: a
    server accepts the connection or it does not. *)
Record Client := {
  host : string;
  port : Z;
  server_up : bool;
  connected : bool;
  pendingCommands : list Command;
  receivedCommands : list Command;
  task_running : bool
}.

(** Modelled from the spec: the constructor of [client.Client]; a Client
    starts out not connected, with empty queues. *)
Definition init (up : bool) (h : string) (p : Z) : outcome Client :=
  Return {| host := h; port := p; server_up := up; connected := false;
            pendingCommands := []; receivedCommands := [];
            task_running := false |}.

(** Modelled from the spec: [client.Client.connect], "establishes the
    connection; fails with ConnectError on refused/unreachable/timeout.
    Side effect: starts the background consumption task." *)
Definition connect (c : Client) : Client * outcome unit :=
  if server_up c then
    ({| host := host c; port := port c; server_up := server_up c;
        connected := true;
        pendingCommands := pendingCommands c;
        receivedCommands := receivedCommands c;
        task_running := true |}, Return tt)
  else (c, Raise (Exn ConnectError ["connection refused"])).

(** Modelled from the spec: [client.Client.disconnect], "closes the
    connection, stops the background task, marks connected = false.
    Idempotent." *)
Definition disconnect (c : Client) : Client :=
  {| host := host c; port := port c; server_up := server_up c;
     connected := false;
     pendingCommands := pendingCommands c;
     receivedCommands := receivedCommands c;
     task_running := false |}.

(** Modelled from the spec: [client.Client.isConnected], "is_connected()
    -> bool". *)
Definition isConnected (c : Client) : bool := connected c.

(** Modelled from the spec: [client.Client.addCommand], the spec's
    [post]: "enqueues a command for transmission ... single outbound
    queue, FIFO", and "invoking on a disconnected Client is a caller error
    (must be rejected, not silently dropped)", "after disconnect(), any
    subsequent post or room/roster operation fails fast (rejected)". *)
Definition addCommand (cmd : Command) (c : Client) : Client * outcome unit :=
  if connected c then
    ({| host := host c; port := port c; server_up := server_up c;
        connected := connected c;
        pendingCommands := pendingCommands c ++ [cmd];
        receivedCommands := receivedCommands c;
        task_running := task_running c |}, Return tt)
  else (c, Raise (Exn RuntimeError ["not connected"])).

(** Modelled from the spec: [client.Client.consume_one], "non-blocking;
    returns the next inbound command if one is buffered, else None". *)
Definition consume_one (c : Client) : Client * option Command :=
  match receivedCommands c with
  | [] => (c, None)
  | received :: rest =>
      ({| host := host c; port := port c; server_up := server_up c;
          connected := connected c;
          pendingCommands := pendingCommands c;
          receivedCommands := rest;
          task_running := task_running c |}, Some received)
  end.

(** Modelled from the spec: [joinRoom], [leaveRoom] and [setClientName]
    of [client.Client]; the spec gives them no transport-level effect
    beyond requiring a connection. *)
Definition room_call (_ : string) (c : Client) : Client * outcome unit :=
  if connected c then (c, Return tt)
  else (c, Raise (Exn RuntimeError ["not connected"])).

Definition transport (up : bool) : Cli.ClientBase Client :=
  {| Cli.Client_init := init up;
     Cli.Client_connect := connect;
     Cli.Client_disconnect := disconnect;
     Cli.Client_isConnected := isConnected;
     Cli.Client_addCommand := addCommand;
     Cli.Client_consume_one := consume_one;
     Cli.Client_joinRoom := room_call;
     Cli.Client_leaveRoom := room_call;
     Cli.Client_setClientName := room_call |}.

(** The server delivers a command to the Client. *)
Definition deliver (cmd : Command) (c : Client) : Client :=
  {| host := host c; port := port c; server_up := server_up c;
     connected := connected c;
     pendingCommands := pendingCommands c;
     receivedCommands := receivedCommands c ++ [cmd];
     task_running := task_running c |}.

End SpecClient.

(** ** Concrete runs on the transport of the spec *)

Module Scenario.
Import Cli.

Definition localhost (c : string) (names : list string) : Namespace :=
  {| host := "localhost"; port := 12800; timeout := 10;
     command := c; name := names |}.

(** A transport, connected or not, with the given commands received and
    not yet consumed. *)
Definition transport_with (is_connected : bool) (received : list Command)
    : SpecClient.Client :=
  {| SpecClient.host := "localhost"; SpecClient.port := 12800;
     SpecClient.server_up := true;
     SpecClient.connected := is_connected;
     SpecClient.pendingCommands := [];
     SpecClient.receivedCommands := received;
     SpecClient.task_running := is_connected |}.

(** A connected client whose server has just gone away: the lifecycle
    signal is waiting in the inbound buffer. *)
Definition client_losing_connection : CliClient SpecClient.Client :=
  {| super := transport_with true [mkCommand CONNECTION_LOST []];
     terminate := false;
     consumer := at_while |}.

(** A client that is not connected. *)
Definition client_not_connected : CliClient SpecClient.Client :=
  {| super := transport_with false [];
     terminate := false;
     consumer := at_while |}.

Definition lost : Command := mkCommand CONNECTION_LOST [].

(** The same client two steps later: the consumer has taken the signal
    out of the buffer and is about to look at its type. *)
Definition client_holding_the_signal : CliClient SpecClient.Client :=
  {| super := transport_with true [];
     terminate := false;
     consumer := at_if_lost lost |}.

(** A client told to stop while its consumer is about to poll, with a
    reply waiting. *)
Definition client_told_to_stop : CliClient SpecClient.Client :=
  {| super := transport_with true [mkCommand LIST_ROOMS (utf8 "lobby")];
     terminate := true;
     consumer := at_consume_one |}.

(** A name given on the command line as the single byte 0xFF, which is
    the string ['\udcff'], between two names that can be encoded. *)
Definition unencodable_name : string := String "255"%char EmptyString.
Definition delete_a_0xFF_b : Namespace :=
  localhost "delete" ["a"; unencodable_name; "b"].

(** The transport of the spec, with a server that accepts connections. *)
Definition on_spec : ClientBase SpecClient.Client := SpecClient.transport true.

(** A transport whose [connect] raises the [ServerError] of cli.py. *)
Definition refusing : ClientBase SpecClient.Client :=
  {| Client_init := SpecClient.init true;
     Client_connect := fun c => (c, Raise (Exn ServerError ["room server busy"]));
     Client_disconnect := SpecClient.disconnect;
     Client_isConnected := SpecClient.isConnected;
     Client_addCommand := SpecClient.addCommand;
     Client_consume_one := SpecClient.consume_one;
     Client_joinRoom := SpecClient.room_call;
     Client_leaveRoom := SpecClient.room_call;
     Client_setClientName := SpecClient.room_call |}.

End Scenario.

(** ** tests/grabber.py, as the spec describes it *)

Module Grabber.

(** Modelled from the spec: the Capture Log of [tests.grabber.Grabber]
    (tests/grabber.py is not part of the two files), a "mapping from
    substream identifier to an ordered sequence of Commands". *)
Record Grabber := { streams : gmap N (list Command) }.

(** [Grabber()] *)
Definition new : Grabber := {| streams := ∅ |}.

(** Modelled from the spec: the "content-based ordering key" of
    [Grabber.sort].  The content of a command is its type tag and its
    payload bytes; the key lists them in that order. *)
Definition type_code (t : MessageType) : N :=
  match t with
  | LIST_ROOMS => 0
  | DELETE_ROOM => 1
  | CLEAR_ROOM => 2
  | LIST_ROOM_CLIENTS => 3
  | LIST_CLIENTS => 4
  | LIST_ALL_CLIENTS => 5
  | CONNECTION_LOST => 6
  | BROADCAST tag => 7 + tag
  end%N.

Definition sort_key (c : Command) : list N :=
  type_code (type c) :: map Byte.to_N (data c).

(** Keys compare as Python sequences do: at the first position where they
    differ, and a proper prefix comes first. *)
Fixpoint key_leb (a b : list N) : bool :=
  match a, b with
  | [], _ => true
  | _ :: _, [] => false
  | x :: a', y :: b' =>
      if (x <? y)%N then true
      else if (x =? y)%N then key_leb a' b'
      else false
  end.

Definition command_le (a b : Command) : Prop :=
  key_leb (sort_key a) (sort_key b) = true.

#[global] Instance command_le_dec : RelDecision command_le.
Proof. intros a b. unfold command_le. apply _. Defined.

(** Modelled from the spec: [Grabber.sort], which "normalizes every
    substream's sequence using a stable, content-based ordering key (not
    arrival time)".  The key determines the command, so commands with equal
    keys are equal and every sort by this key is stable. *)
Definition sort (g : Grabber) : Grabber :=
  {| streams := merge_sort command_le <$> streams g |}.

(** Two capture logs hold the same commands in every substream, up to
    the order of arrival. *)
Definition same_commands (a b : gmap N (list Command)) : Prop :=
  forall id, option_Forall2 Permutation (a !! id) (b !! id).

End Grabber.

(** ** tests/mixer_testcase.py *)

Module MixerTestCase.

(** Handles on the processes the test drives: a Blender instance
    ([tests.blender_app.BlenderApp]) and a broadcaster server
    ([tests.process.ServerProcess]) with the address it listens on. *)
Definition BlenderApp := nat.
Record ServerProcess := { pid : nat; host : string; port : Z }.

(** The calls that leave mixer_testcase.py. *)
Inductive call :=
| disconnect_mixer (blender : BlenderApp)
| connect_and_join_mixer (blender : BlenderApp) (room_name : string)
    (keep_room_open experimental_sync : bool)
| sleep (seconds : Q)
| ServerProcess_new
| start (p : ServerProcess)
| kill (p : ServerProcess)
| grab (h : string) (p : Z) (room_name : string)
| assert_stream_equals (s r : gmap N (list Command)).

Record event := Ev { ev_call : call; ev_raised : option exn }.

(** Reading a trace: a Blender instance joins [room_name] in upload mode,
    and later that room is grabbed. *)
Definition joins_room (room_name : string) (e : event) : bool :=
  match ev_call e with
  | connect_and_join_mixer _ r true _ => String.eqb r room_name
  | _ => false
  end.
Definition grabs_room (room_name : string) (e : event) : bool :=
  match ev_call e with
  | grab _ _ r => String.eqb r room_name
  | _ => false
  end.
Fixpoint deposited_then_grabbed (room_name : string) (t : list event) : bool :=
  match t with
  | [] => false
  | e :: rest =>
      (joins_room room_name e && existsb (grabs_room room_name) rest)
      || deposited_then_grabbed room_name rest
  end.

(** The collaborators are not part of the two files; what they do to the
    world [W] of processes and sockets is a parameter.  [spawn] is
    [ServerProcess()], [capture] is what [Grabber.grab] downloads from a
    room, [perform] is every other call. *)
Class Collaborators (W : Type) := {
  perform : call -> W -> W * outcome unit;
  spawn : W -> W * outcome ServerProcess;
  capture : string -> Z -> string -> W -> W * outcome (gmap N (list Command))
}.

(** The attributes of the test case that [assert_matches] reads. *)
Record TestCase := {
  _blenders : list BlenderApp;
  _server_process : ServerProcess;
  experimental_sync : bool
}.

Section Model.
Context {W : Type} `{Collaborators W}.

Record state := { world : W; trace : list event }.

Definition raised {A} (r : outcome A) : option exn :=
  match r with Return _ => None | Raise e => Some e end.

Definition called {A} (c : call) (f : W -> W * outcome A) : M state A :=
  fun s =>
    let '(w, r) := f (world s) in
    ({| world := w; trace := trace s ++ [Ev c (raised r)] |}, r).

Definition extern (c : call) : M state unit := called c (perform c).

Definition list_index_out_of_range : exn :=
  Exn IndexError ["list index out of range"].

(** mixer_testcase.py:53-59 *)
Definition _sender (self : TestCase) : M state BlenderApp :=
  match _blenders self with
  | b :: _ => ret b
  | _ => raise list_index_out_of_range
  end.
Definition _receiver (self : TestCase) : M state BlenderApp :=
  match _blenders self with
  | _ :: b :: _ => ret b
  | _ => raise list_index_out_of_range
  end.

(** [unittest.TestCase.failureException] *)
Definition failureException (args : list string) : exn :=
  Exn AssertionError args.

(** [grabber.grab(host, port, room_name)] fills [grabber.streams]. *)
Definition Grabber_grab (g : Grabber.Grabber) (h : string) (p : Z)
    (room_name : string) : M state Grabber.Grabber :=
  do captured <- called (grab h p room_name) (capture h p room_name);
  ret {| Grabber.streams := captured |}.

(** mixer_testcase.py:146-153 and 163-168 *)
Definition grab_and_sort (h : string) (p : Z) (room_name : string)
    : M state Grabber.Grabber :=
  let grabber := Grabber.new in
  do grabber <-
    try_except
      (Grabber_grab grabber h p room_name)
      (fun e => isinstance e RuntimeError)
      (fun e => raise (failureException (exn_args e)));
  ret (Grabber.sort grabber).

(** mixer_testcase.py:119-177 *)
Definition assert_matches (self : TestCase) : M state unit :=
  do sender <- _sender self;
  extern (disconnect_mixer sender) ;;
  do receiver <- _receiver self;
  extern (disconnect_mixer receiver) ;;
  extern (sleep (1 # 2)) ;;
  extern (kill (_server_process self)) ;;
  do server_process <- called ServerProcess_new spawn;
  extern (start server_process) ;;
  do grabbers <-
    try_finally
      (let host := host server_process in
       let port := port server_process in
       do sender <- _sender self;
       extern (connect_and_join_mixer sender "mixer_grab_sender" true
                 (experimental_sync self)) ;;
       extern (sleep 1) ;;
       do sender <- _sender self;
       extern (disconnect_mixer sender) ;;
       do sender_grabber <- grab_and_sort host port "mixer_grab_sender";
       do receiver <- _receiver self;
       extern (connect_and_join_mixer receiver "mixer_grab_receiver" true
                 (experimental_sync self)) ;;
       extern (sleep 1) ;;
       do receiver <- _receiver self;
       extern (disconnect_mixer receiver) ;;
       do receiver_grabber <- grab_and_sort host port "mixer_grab_receiver";
       ret (sender_grabber, receiver_grabber))
      (extern (kill server_process));
  let s := Grabber.streams (fst grabbers) in
  let r := Grabber.streams (snd grabbers) in
  extern (assert_stream_equals s r).

(** The state in which a test method is entered. *)
Definition entry (w : W) : state := {| world := w; trace := [] |}.

(** What a collaborator gave back: nothing of interest, the new server,
    or the log that [grab] downloaded. *)
Inductive answer :=
| Done
| Spawned (p : ServerProcess)
| Captured (log : gmap N (list Command)).

Definition answered {A} (v : A -> answer) (r : outcome A) : outcome answer :=
  match r with
  | Return a => Return (v a)
  | Raise e => Raise e
  end.

(** The answer of the collaborators to the call [c] in the world [w]. *)
Definition respond (c : call) (w : W) : W * outcome answer :=
  match c with
  | ServerProcess_new => ((spawn w).1, answered Spawned (spawn w).2)
  | grab h p room_name =>
      ((capture h p room_name w).1,
       answered Captured (capture h p room_name w).2)
  | _ => ((perform c w).1, answered (fun _ => Done) (perform c w).2)
  end.

(** The calls of [run], made one after the other from the world [w] on,
    get the answers that [run] gives. *)
Fixpoint replays (w : W) (run : list (call * outcome answer)) : Prop :=
  match run with
  | [] => True
  | (c, r) :: rest => exists w', respond c w = (w', r) /\ replays w' rest
  end.

(** The trace that a run leaves. *)
Definition events (run : list (call * outcome answer)) : list event :=
  map (fun step => Ev (fst step) (raised (snd step))) run.

(** The run of [assert_matches] that reaches the comparison, for the two
    instances, the server started for the grab, the logs [a] and [b] that
    the two grabs download, and the verdict of the comparison. *)
Definition upload_grab_and_compare (self : TestCase)
    (sender receiver : BlenderApp) (server : ServerProcess)
    (a b : gmap N (list Command)) (verdict : outcome unit)
    : list (call * outcome answer) :=
  [ (disconnect_mixer sender, Return Done);
    (disconnect_mixer receiver, Return Done);
    (sleep (1 # 2), Return Done);
    (kill (_server_process self), Return Done);
    (ServerProcess_new, Return (Spawned server));
    (start server, Return Done);
    (connect_and_join_mixer sender "mixer_grab_sender" true
       (experimental_sync self), Return Done);
    (sleep 1, Return Done);
    (disconnect_mixer sender, Return Done);
    (grab (host server) (port server) "mixer_grab_sender",
     Return (Captured a));
    (connect_and_join_mixer receiver "mixer_grab_receiver" true
       (experimental_sync self), Return Done);
    (sleep 1, Return Done);
    (disconnect_mixer receiver, Return Done);
    (grab (host server) (port server) "mixer_grab_receiver",
     Return (Captured b));
    (kill server, Return Done);
    (assert_stream_equals
       (Grabber.streams (Grabber.sort {| Grabber.streams := a |}))
       (Grabber.streams (Grabber.sort {| Grabber.streams := b |})),
     answered (fun _ => Done) verdict) ].

(** mixer_testcase.py:116-117 *)
Definition end_test (self : TestCase) : M state unit := assert_matches self.

End Model.

Arguments state W : clear implicits.

End MixerTestCase.

(** ** A rehearsal of the end-to-end test *)

Module Stage.
Import MixerTestCase.

(** A world for concrete runs of [assert_matches]: every Blender instance
    has a history; joining a room in upload mode deposits the history in
    the room if the server keeps that room open; a fresh server has no
    room; grabbing a room that does not exist fails. *)
Record world := {
  history : BlenderApp -> gmap N (list Command);
  rooms : gmap string (gmap N (list Command));
  keeps_open : string -> bool
}.

Definition with_rooms (r : gmap string (gmap N (list Command))) (w : world)
    : world :=
  {| history := history w; rooms := r; keeps_open := keeps_open w |}.

Definition stage_perform (c : call) (w : world) : world * outcome unit :=
  match c with
  | start _ => (with_rooms ∅ w, Return tt)
  | connect_and_join_mixer blender room_name keep_room_open _ =>
      if keep_room_open && keeps_open w room_name
      then (with_rooms (<[room_name := history w blender]> (rooms w)) w, Return tt)
      else (w, Return tt)
  | _ => (w, Return tt)
  end.

Definition stage_spawn (w : world) : world * outcome ServerProcess :=
  (w, Return {| pid := 1; host := "localhost"; port := 12800 |}).

Definition stage_capture (h : string) (p : Z) (room_name : string) (w : world)
    : world * outcome (gmap N (list Command)) :=
  match rooms w !! room_name with
  | Some log => (w, Return log)
  | None => (w, Raise (Exn RuntimeError ["Grabber: no such room"; room_name]))
  end.

#[global] Instance stage : Collaborators world :=
  {| perform := stage_perform; spawn := stage_spawn; capture := stage_capture |}.

Definition A : Command := mkCommand (BROADCAST 1) (utf8 "A").
Definition B : Command := mkCommand (BROADCAST 1) (utf8 "B").
Definition X : Command := mkCommand (BROADCAST 2) (utf8 "X").

(** The sender saw [A] then [B] on substream 1; the receiver saw them the
    other way round; both saw [X] on substream 2. *)
Definition histories (blender : BlenderApp) : gmap N (list Command) :=
  match blender with
  | O => {[ 1%N := [A; B]; 2%N := [X] ]}
  | _ => {[ 1%N := [B; A]; 2%N := [X] ]}
  end.

Definition opening (keeps : string -> bool) : world :=
  {| history := histories; rooms := ∅; keeps_open := keeps |}.

Definition test_case : TestCase :=
  {| _blenders := [0; 1];
     _server_process := {| pid := 0; host := "localhost"; port := 12800 |};
     experimental_sync := false |}.

End Stage.

(** ** tests/mixer_testcase.py: starting and stopping the processes *)

Module Lifecycle.

Definition BlenderApp := MixerTestCase.BlenderApp.
Definition ServerProcess := MixerTestCase.ServerProcess.

(** mixer_testcase.py:16-19 *)
Record BlenderDesc := {
  load_file : option string;
  wait_for_debugger : bool
}.
Definition BlenderDesc_new : BlenderDesc :=
  {| load_file := None; wait_for_debugger := false |}.

(** The calls that leave the methods of this part: to
    [unittest.TestCase], to the server process, to the Blender instances
    and to [time].  Keyword arguments are kept with their keyword. *)
Inductive call :=
| TestCase_setUp
| TestCase_tearDown
| start (p : ServerProcess) (server_args : option (list string))
| ServerProcess_kill (p : ServerProcess)
| BlenderApp_new (python_port ptvsd_port : Z) (wait_for_debugger : bool)
| set_log_level (blender : BlenderApp) (log_level : Z)
| setup (blender : BlenderApp) (args : list string)
| connect_and_join_mixer (blender : BlenderApp) (kwargs : list (string * bool))
| disconnect_mixer (blender : BlenderApp)
| quit (blender : BlenderApp)
| wait (blender : BlenderApp) (timeout : option Q)
| close (blender : BlenderApp)
| kill (blender : BlenderApp)
| send_string (blender : BlenderApp) (s : string)
| sleep (seconds : Q).

(** What a call gave back: nothing of interest, the new instance, or the
    return code of a process ([None] while it runs). *)
Inductive value :=
| NoValue
| Started (blender : BlenderApp)
| ReturnCode (rc : option Z).

Record event := Ev { ev_call : call; ev_result : outcome value }.

(** The collaborators: [launch] is [BlenderApp(...)], [poll] is
    [blender.wait(timeout)], [perform] is every other call. *)
Class Processes (W : Type) := {
  perform : call -> W -> W * outcome unit;
  launch : Z -> Z -> bool -> W -> W * outcome BlenderApp;
  poll : BlenderApp -> option Q -> W -> W * outcome (option Z)
}.

(** What these methods can raise: an exception of a collaborator or of
    [unittest], or one of the interpreter's own for the division, the
    dictionary lookup and the list index they make. *)
Inductive error :=
| Known (e : exn)
| ZeroDivisionError
| KeyError (key : string)
| TypeError (message : string).

(** [except Exception] *)
Definition is_Exception (e : error) : bool :=
  match e with
  | Known e => Py.is_Exception e
  | _ => true
  end.

Inductive result (A : Type) :=
| Returns (a : A)
| Raises (e : error).
Arguments Returns {A} a.
Arguments Raises {A} e.

Section Monad.
Context {S : Type}.

Definition M (A : Type) : Type := S -> S * result A.

Definition ret {A} (a : A) : M A := fun s => (s, Returns a).
Definition raise {A} (e : error) : M A := fun s => (s, Raises e).
Definition bind {A B} (m : M A) (k : A -> M B) : M B :=
  fun s =>
    match m s with
    | (s', Returns a) => k a s'
    | (s', Raises e) => (s', Raises e)
    end.
Definition get : M S := fun s => (s, Returns s).
Definition modify (f : S -> S) : M unit := fun s => (f s, Returns tt).

(** [try: body except Exception: handler; raise] and the like: the handler
    is given the exception it caught. *)
Definition try_except {A} (body : M A) (catches : error -> bool)
    (handler : error -> M A) : M A :=
  fun s =>
    match body s with
    | (s', Returns a) => (s', Returns a)
    | (s', Raises e) => if catches e then handler e s' else (s', Raises e)
    end.

(** [for x in xs: body x] *)
Fixpoint for_each {X} (xs : list X) (body : X -> M unit) : M unit :=
  match xs with
  | [] => ret tt
  | x :: xs' => bind (body x) (fun _ => for_each xs' body)
  end.
End Monad.

Arguments M S A : clear implicits.

Declare Scope lifecycle_scope.
Notation "'do' x <- m ; k" := (bind m (fun x => k))
  (at level 10, x name, m at level 100, k at level 200) : lifecycle_scope.
Notation "m ;; k" := (bind m (fun _ => k))
  (at level 100, k at level 200, right associativity) : lifecycle_scope.
Local Open Scope lifecycle_scope.

(** [l[i]] for a Python list and an [int]: negative indices count from the
    end. *)
Definition getitem {A} (l : list A) (i : Z) : option A :=
  if (0 <=? i)%Z then l !! Z.to_nat i
  else if (- Z.of_nat (length l) <=? i)%Z
       then l !! Z.to_nat (Z.of_nat (length l) + i)
       else None.

(** [str(b)] for a [bool] *)
Definition str_bool (b : bool) : string := if b then "True" else "False".

(** The values a parameter of [parameterized_class] may take here. *)
Inductive param :=
| PBool (b : bool)
| PInt (n : Z)
| PStr (s : string)
| PNone.

Definition str (v : param) : string :=
  match v with
  | PBool b => str_bool b
  | PInt n => pretty n
  | PStr s => s
  | PNone => "None"
  end.

(** mixer_testcase.py:45-51; [test_class] is given by its [__name__]. *)
Definition get_class_name (test_class : string) (num : Z)
    (params_dict : gmap string param) : result string :=
  match params_dict !! "experimental_sync" with
  | None => Raises (KeyError "experimental_sync")
  | Some v =>
      let experimental := str v in
      Returns (test_class +:+ "_Experimental_" +:+ experimental)
  end.

(** [logging.INFO] *)
Definition INFO : Z := 20.

Definition newline : string := String "010"%char EmptyString.

Section Model.
Context {W : Type} `{Processes W}.

(** The attributes of the test case that these methods read and write,
    the world of processes, and the calls made so far. *)
Record state := {
  _log_level : Z;
  _server_process : ServerProcess;
  _blenders : list BlenderApp;
  experimental_sync : bool;
  world : W;
  trace : list event
}.

(** The object the constructor leaves (mixer_testcase.py:35-40), for the
    handle [server] that [ServerProcess()] returned and the class
    attribute set by [parameterized_class]. *)
Definition new (server : ServerProcess) (experimental : bool) (w : W)
    : state :=
  {| _log_level := INFO; _server_process := server; _blenders := [];
     experimental_sync := experimental; world := w; trace := [] |}.

Definition lift {A} (r : outcome A) : result A :=
  match r with
  | Return a => Returns a
  | Raise e => Raises (Known e)
  end.

Definition returned_value {A} (v : A -> value) (r : outcome A)
    : outcome value :=
  match r with
  | Return a => Return (v a)
  | Raise e => Raise e
  end.

Definition called {A} (c : call) (f : W -> W * outcome A) (v : A -> value)
    : M state A :=
  fun s =>
    let '(w, r) := f (world s) in
    ({| _log_level := _log_level s; _server_process := _server_process s;
        _blenders := _blenders s; experimental_sync := experimental_sync s;
        world := w; trace := trace s ++ [Ev c (returned_value v r)] |},
     lift r).

Definition extern (c : call) : M state unit :=
  called c (perform c) (fun _ => NoValue).

Definition BlenderApp_ (python_port ptvsd_port : Z) (debugger : bool)
    : M state BlenderApp :=
  called (BlenderApp_new python_port ptvsd_port debugger)
    (launch python_port ptvsd_port debugger) Started.

Definition wait_ (blender : BlenderApp) (timeout : option Q)
    : M state (option Z) :=
  called (wait blender timeout) (poll blender timeout) ReturnCode.

(** [self._blenders.append(blender)] *)
Definition append (blender : BlenderApp) : M state unit :=
  modify (fun s =>
    {| _log_level := _log_level s; _server_process := _server_process s;
       _blenders := _blenders s ++ [blender];
       experimental_sync := experimental_sync s;
       world := world s; trace := trace s |}).

(** mixer_testcase.py:42-43 *)
Definition set_log_level_ (log_level : Z) : M state unit :=
  modify (fun s =>
    {| _log_level := log_level; _server_process := _server_process s;
       _blenders := _blenders s;
       experimental_sync := experimental_sync s;
       world := world s; trace := trace s |}).

Definition list_index_out_of_range : error :=
  Known (Exn IndexError ["list index out of range"]).

(** [self._blenders[i]] *)
Definition blender_at (i : Z) : M state BlenderApp :=
  do self <- get;
  match getitem (_blenders self) i with
  | Some blender => ret blender
  | None => raise list_index_out_of_range
  end.

(** mixer_testcase.py:53-59 *)
Definition _sender : M state BlenderApp := blender_at 0.
Definition _receiver : M state BlenderApp := blender_at 1.

(** mixer_testcase.py:104-114 *)
Definition shutdown : M state unit :=
  do self <- get;
  for_each (_blenders self) (fun blender => extern (quit blender)) ;;
  do self <- get;
  for_each (_blenders self)
    (fun blender => do _ <- wait_ blender None; ret tt) ;;
  do self <- get;
  for_each (_blenders self) (fun blender => extern (close blender)) ;;
  do self <- get;
  extern (ServerProcess_kill (_server_process self)) ;;
  extern TestCase_tearDown.

(** mixer_testcase.py:100-102 *)
Definition tearDown : M state unit :=
  shutdown ;;
  extern TestCase_tearDown.

Definition python_port : Z := 8081.
Definition ptvsd_port : Z := 5688.

(** mixer_testcase.py:85-88 *)
Definition window_args (i window_width : Z) (blenderdesc : BlenderDesc)
    : list string :=
  let window_x := pretty (i * window_width)%Z in
  let args := ["--window-geometry"; window_x; "0"; "960"; "1080"] in
  match load_file blenderdesc with
  | Some file => args ++ [file]
  | None => args
  end.

(** mixer_testcase.py:84-94, the loop from index [i] on *)
Fixpoint start_blenders (i window_width : Z) (join : bool)
    (blenderdescs : list BlenderDesc) : M state unit :=
  match blenderdescs with
  | [] => ret tt
  | blenderdesc :: rest =>
      let args := window_args i window_width blenderdesc in
      do blender <- BlenderApp_ (python_port + i) (ptvsd_port + i)
                      (wait_for_debugger blenderdesc);
      do self <- get;
      extern (set_log_level blender (_log_level self)) ;;
      extern (setup blender args) ;;
      (if join
       then do self <- get;
            extern (connect_and_join_mixer blender
                      [("experimental_sync", experimental_sync self)])
       else ret tt) ;;
      append blender ;;
      start_blenders (i + 1) window_width join rest
  end.

(** [int(1920 / len(blenderdescs))]: the division raises for an empty
    sequence; otherwise the float quotient truncated is the integer
    quotient. *)
Definition window_width_for (blenderdescs : list BlenderDesc) : M state Z :=
  match blenderdescs with
  | [] => raise ZeroDivisionError
  | _ => ret (1920 / Z.of_nat (length blenderdescs))%Z
  end.

(** mixer_testcase.py:61-98; [join_delay] is not used by the body. *)
Definition setUp (blenderdescs : list BlenderDesc)
    (server_args : option (list string)) (join : bool) : M state unit :=
  extern TestCase_setUp ;;
  try_except
    (do self <- get;
     extern (start (_server_process self) server_args) ;;
     do window_width <- window_width_for blenderdescs;
     start_blenders 0 window_width join blenderdescs)
    is_Exception
    (fun e => shutdown ;; raise e).

(** The default arguments of [setUp]. *)
Definition setUp_default : M state unit :=
  setUp [BlenderDesc_new; BlenderDesc_new] None true.

(** [self.fail(msg)] *)
Definition fail {A} (msg : string) : M state A :=
  raise (Known (Exn AssertionError [msg])).

Definition return_code_message (who : string) (rc : Z) : string :=
  who +:+ " return code " +:+ pretty rc +:+ " (" +:+ HexString.of_Z rc +:+ ")".

(** mixer_testcase.py:179-200; [fuel] bounds the rounds of the
    [while True] loop, and [None] is returned when they are used up with
    the loop still running. *)
Fixpoint assert_user_success (fuel : nat) : M state (option unit) :=
  match fuel with
  | O => ret None
  | S fuel' =>
      let timeout := Some (2 # 10) in
      do sender <- _sender;
      do rc <- wait_ sender timeout;
      match rc with
      | Some rc =>
          do receiver <- _receiver;
          extern (kill receiver) ;;
          if negb (rc =? 0)%Z
          then fail (return_code_message "sender" rc)
          else ret (Some tt)
      | None =>
          do receiver <- _receiver;
          do rc <- wait_ receiver timeout;
          match rc with
          | Some rc =>
              do sender <- _sender;
              extern (kill sender) ;;
              if negb (rc =? 0)%Z
              then fail (return_code_message "receiver" rc)
              else ret (Some tt)
          | None => assert_user_success fuel'
          end
      end
  end.

(** mixer_testcase.py:202-206, the loop from index [i] on *)
Fixpoint connect_from (i : Z) (blenders : list BlenderApp) : M state unit :=
  match blenders with
  | [] => ret tt
  | blender :: rest =>
      (if (0 <? i)%Z then extern (sleep 1) else ret tt) ;;
      do self <- get;
      extern (connect_and_join_mixer blender
                [("experimental", experimental_sync self)]) ;;
      connect_from (i + 1) rest
  end.

Definition connect : M state unit :=
  do self <- get;
  connect_from 0 (_blenders self).

(** mixer_testcase.py:208-210 *)
Definition disconnect : M state unit :=
  do self <- get;
  for_each (_blenders self) (fun blender => extern (disconnect_mixer blender)).

(** mixer_testcase.py:212-213; [to] is [None] when the caller passes
    [None], which a list index refuses. *)
Definition send_string_ (s : string) (to : option Z) : M state unit :=
  match to with
  | None => raise (TypeError "list indices must be integers or slices, not NoneType")
  | Some i =>
      do blender <- blender_at i;
      extern (send_string blender s)
  end.

(** mixer_testcase.py:215-216 *)
Definition send_strings (strings : list string) (to : option Z)
    : M state unit :=
  send_string_ (String.concat newline strings) to.

(** The attributes are the same in [s] and [s']. *)
Definition same_attributes (s s' : state) : Prop :=
  _log_level s' = _log_level s
  /\ _server_process s' = _server_process s
  /\ _blenders s' = _blenders s
  /\ experimental_sync s' = experimental_sync s.

End Model.

Arguments state W : clear implicits.

(** *** Reading the traces *)

Definition returned (e : event) : bool :=
  match ev_result e with
  | Return _ => true
  | Raise _ => false
  end.

Definition calls (t : list event) : list call := map ev_call t.

(** A run that made the calls of [plan], all of which returned. *)
Definition went_through (plan : list call) (t : list event) : Prop :=
  calls t = plan /\ forallb returned t = true.

(** A run that followed [plan] up to a call that raised [e], and stopped
    there. *)
Definition stopped_at (plan : list call) (t : list event) (e : exn) : Prop :=
  exists before c,
    t = before ++ [Ev c (Raise e)]
    /\ forallb returned before = true
    /\ (calls before ++ [c]) `prefix_of` plan.

Definition follows (plan : list call) (t : list event) (r : result unit)
    : Prop :=
  match r with
  | Returns _ => went_through plan t
  | Raises e => exists x, e = Known x /\ stopped_at plan t x
  end.

(** The calls of [shutdown] for the instances [blenders] and the server
    [server]. *)
Definition shutdown_plan (blenders : list BlenderApp) (server : ServerProcess)
    : list call :=
  map quit blenders
  ++ map (fun blender => wait blender None) blenders
  ++ map close blenders
  ++ [ServerProcess_kill server; TestCase_tearDown].

(** The calls that start the [i]-th instance out of [n], when the
    constructor returned [blender]. *)
Definition start_plan (log_level : Z) (experimental join : bool) (n : nat)
    (i : nat) (started : BlenderDesc * BlenderApp) : list call :=
  let '(blenderdesc, blender) := started in
  [ BlenderApp_new (8081 + Z.of_nat i) (5688 + Z.of_nat i)
      (wait_for_debugger blenderdesc);
    set_log_level blender log_level;
    setup blender
      (["--window-geometry";
        pretty (Z.of_nat i * (1920 / Z.of_nat n))%Z; "0"; "960"; "1080"]
       ++ option_list (load_file blenderdesc)) ]
  ++ (if join
      then [connect_and_join_mixer blender [("experimental_sync", experimental)]]
      else []).

(** The calls of [connect] for the instances [blenders]. *)
Definition connect_plan (experimental : bool) (blenders : list BlenderApp)
    : list call :=
  match blenders with
  | [] => []
  | first :: others =>
      connect_and_join_mixer first [("experimental", experimental)]
      :: concat (map (fun blender =>
                        [sleep 1;
                         connect_and_join_mixer blender
                           [("experimental", experimental)]])
                   others)
  end.

(** From [s], [m] makes the calls of [plan] in order, up to the first one
    that raises, and leaves the attributes as they are. *)
Definition runs {W : Type} (s : state W) (plan : list call)
    (m : M (state W) unit) : Prop :=
  exists t,
    trace (m s).1 = trace s ++ t
    /\ same_attributes s (m s).1
    /\ follows plan t (m s).2.

Definition is_blender_call (c : call) : bool :=
  match c with
  | quit _ | wait _ _ | close _ => true
  | _ => false
  end.
Definition is_ServerProcess_kill (c : call) : bool :=
  match c with ServerProcess_kill _ => true | _ => false end.
Definition is_TestCase_tearDown (c : call) : bool :=
  match c with TestCase_tearDown => true | _ => false end.

(** The instances whose start was completed in [t]: the last call of the
    start ([connect_and_join_mixer] when joining, [setup] otherwise)
    returned. *)
Definition completed_start (join : bool) (e : event) : option BlenderApp :=
  match ev_call e, ev_result e with
  | setup blender _, Return _ => if join then None else Some blender
  | connect_and_join_mixer blender _, Return _ =>
      if join then Some blender else None
  | _, _ => None
  end.
Definition completed (join : bool) (t : list event) : list BlenderApp :=
  omap (completed_start join) t.

Definition is_sleep (c : call) : bool :=
  match c with sleep _ => true | _ => false end.
Definition is_join (c : call) : bool :=
  match c with connect_and_join_mixer _ _ => true | _ => false end.
Definition is_launch (c : call) : bool :=
  match c with BlenderApp_new _ _ _ => true | _ => false end.

(** The polls of [assert_user_success] that found both processes
    running: [k] of them, the sender first. *)
Fixpoint polls (sender receiver : BlenderApp) (k : nat) : list event :=
  match k with
  | O => []
  | S k' =>
      Ev (wait sender (Some (2 # 10))) (Return (ReturnCode None))
      :: polls receiver sender k'
  end.

(** Who is polled after [k] polls, and who is not. *)
Definition polled (sender receiver : BlenderApp) (k : nat) : BlenderApp :=
  if Nat.even k then sender else receiver.
Definition role (k : nat) : string :=
  if Nat.even k then "sender" else "receiver".

(** [wait] found that [blender] has exited with the code [rc]. *)
Definition exit_seen (blender : BlenderApp) (rc : Z) : event :=
  Ev (wait blender (Some (2 # 10))) (Return (ReturnCode (Some rc))).

(** How a run of [assert_user_success] ends after [k] polls that found
    the processes running. *)
Definition ending_of (sender receiver : BlenderApp) (fuel k : nat)
    (ending : list event) (r : result (option unit)) : Prop :=
  let polled_one := polled sender receiver k in
  let other := polled sender receiver (S k) in
  match r with
  | Returns None => k = 2 * fuel /\ ending = []
  | Returns (Some _) =>
      ending = [exit_seen polled_one 0; Ev (kill other) (Return NoValue)]
  | Raises e =>
      (exists x,
         e = Known x
         /\ ending = [Ev (wait polled_one (Some (2 # 10))) (Raise x)])
      \/ (exists rc x,
            e = Known x
            /\ ending = [exit_seen polled_one rc; Ev (kill other) (Raise x)])
      \/ (exists rc,
            rc <> 0%Z
            /\ e = Known (Exn AssertionError [return_code_message (role k) rc])
            /\ ending = [exit_seen polled_one rc;
                         Ev (kill other) (Return NoValue)])
  end.

(** The [try] block of [setUp] made the calls of [body] and raised
    [cause]: a call raised it, or the division did. *)
Definition raised_in (body : list event) (cause : error) : Prop :=
  (exists before c x,
     cause = Known x
     /\ body = before ++ [Ev c (Raise x)]
     /\ forallb returned before = true)
  \/ (cause = ZeroDivisionError /\ forallb returned body = true).

End Lifecycle.

(** ** A scripted world for the test case *)

Module Backstage.
Import Lifecycle.

(** A scripted world for concrete runs of the test case: the calls of
    [failing] raise [OSError]; the instances are numbered from [next] on
    in the order of their creation; [wait] reads the return codes off
    [codes], and finds the process running when the list is used up. *)
Record script := {
  failing : call -> bool;
  next : nat;
  codes : list (option Z)
}.

Definition refused : exn := Exn OSError ["refused"].

Definition backstage_perform (c : call) (w : script) : script * outcome unit :=
  if failing w c then (w, Raise refused) else (w, Return tt).

Definition backstage_launch (python_port ptvsd_port : Z) (debugger : bool)
    (w : script) : script * outcome BlenderApp :=
  if failing w (BlenderApp_new python_port ptvsd_port debugger)
  then (w, Raise refused)
  else ({| failing := failing w; next := S (next w); codes := codes w |},
        Return (next w)).

Definition backstage_poll (blender : BlenderApp) (timeout : option Q)
    (w : script) : script * outcome (option Z) :=
  if failing w (wait blender timeout) then (w, Raise refused)
  else match codes w with
       | [] => (w, Return None)
       | rc :: rest =>
           ({| failing := failing w; next := next w; codes := rest |},
            Return rc)
       end.

#[global] Instance scripted : Processes script :=
  {| perform := backstage_perform; launch := backstage_launch;
     poll := backstage_poll |}.

Definition server : ServerProcess :=
  {| MixerTestCase.pid := 0; MixerTestCase.host := "localhost";
     MixerTestCase.port := 12800 |}.

Definition nothing_fails (c : call) : bool := false.
Definition quit_fails (blender : BlenderApp) (c : call) : bool :=
  match c with
  | quit b => Nat.eqb b blender
  | _ => false
  end.
Definition setup_fails (blender : BlenderApp) (c : call) : bool :=
  match c with
  | setup b _ => Nat.eqb b blender
  | _ => false
  end.

(** A test case that was constructed and not set up yet. *)
Definition constructed (fails : call -> bool) : state script :=
  new server false {| failing := fails; next := 0; codes := [] |}.

(** A test case with two instances running, which [wait] will find with
    the return codes [rcs], in the order of the calls. *)
Definition running (fails : call -> bool) (rcs : list (option Z))
    : state script :=
  {| _log_level := INFO; _server_process := server; _blenders := [0; 1];
     experimental_sync := false;
     world := {| failing := fails; next := 2; codes := rcs |};
     trace := [] |}.

End Backstage.

(** ** Reading the traces of cli.py *)

Module CliTraces.
Import Cli.

Definition is_Print (e : event) : bool :=
  match ev_call e with Print _ _ => true | _ => false end.
Definition is_LoggingError (e : event) : bool :=
  match ev_call e with LoggingError _ => true | _ => false end.
Definition is_Connect (e : event) : bool :=
  match ev_call e with Connect => true | _ => false end.
Definition is_Disconnect (e : event) : bool :=
  match ev_call e with Disconnect => true | _ => false end.

(** The construction of a [CliClient]: the base constructor and the start
    of the thread. *)
Definition is_construction (e : event) : bool :=
  match ev_call e with Init _ _ | ThreadStart => true | _ => false end.

(** The exceptions raised by the calls of a trace, in order. *)
Definition raises (t : list event) : list exn := omap ev_raised t.

(** The commands that [consume_one] handed to the consumer, and the
    commands that the consumer printed, in order. *)
Definition received (t : list event) : list Command :=
  omap (fun e => match ev_call e with ConsumeOne r => r | _ => None end) t.
Definition printed (t : list event) : list Command :=
  omap (fun e => match ev_call e with
                 | Print [Formatted c] true => Some c
                 | _ => None
                 end) t.

(** The calls [consume] can make. *)
Definition is_consumer_call (e : event) : bool :=
  match ev_call e with
  | ConsumeOne _ | Sleep _ | Disconnect | Print _ _ => true
  | _ => false
  end.

(** Every [disconnect] of the trace comes right after a [consume_one] that
    returned [CONNECTION_LOST]; [after_loss] says whether the trace starts
    right after such a call. *)
Fixpoint disconnects_follow_loss (after_loss : bool) (t : list event) : bool :=
  match t with
  | [] => true
  | e :: rest =>
      (if is_Disconnect e then after_loss else true)
      && disconnects_follow_loss (is_lost e) rest
  end.

(** Whether the trace [t] ends right after a [consume_one] that returned
    [CONNECTION_LOST]; [before] answers for the empty trace. *)
Definition loss_at_end (before : bool) (t : list event) : bool :=
  match last t with
  | Some e => is_lost e
  | None => before
  end.

(** What the consumer holds at a control point: the command it has
    received and not yet printed, and whether that command is the one it
    is about to test and is [CONNECTION_LOST]. *)
Definition in_hand (p : pc) : list Command :=
  match p with
  | at_if_lost c | at_print c => [c]
  | _ => []
  end.
Definition loss_in_hand (p : pc) : bool :=
  match p with
  | at_if_lost c => MessageType_eqb (type c) CONNECTION_LOST
  | _ => false
  end.
(** What the shell does when nothing can be asked of the server: it
    prints, and it may construct a client. *)
Definition is_quiet (e : event) : bool := is_Print e || is_construction e.

Definition is_ConsumeOne_None (e : event) : bool :=
  match ev_call e with ConsumeOne None => true | _ => false end.
Definition about_to_sleep (p : pc) : nat :=
  match p with at_sleep => 1 | _ => 0 end.

(** The encodings of the names that come before the first one that
    cannot be encoded, and the exception that this one raises. *)
Fixpoint encodings (names : list string) : list bytes :=
  match names with
  | [] => []
  | n :: rest =>
      match encode n with
      | Return payload => payload :: encodings rest
      | Raise _ => []
      end
  end.
Fixpoint encoding_error (names : list string) : option exn :=
  match names with
  | [] => None
  | n :: rest =>
      match encode n with
      | Return _ => encoding_error rest
      | Raise e => Some e
      end
  end.

(** The commands a room command asks to post, cli.py:76-109: for a batch
    command, one per name, up to the first name that cannot be
    encoded. *)
Definition requested (args : Namespace) : list Command :=
  if String.eqb (command args) "list" then [mkCommand LIST_ROOMS []]
  else if String.eqb (command args) "delete" then
    map (mkCommand DELETE_ROOM) (encodings (name args))
  else if String.eqb (command args) "clear" then
    map (mkCommand CLEAR_ROOM) (encodings (name args))
  else if String.eqb (command args) "clients" then
    map (mkCommand LIST_ROOM_CLIENTS) (encodings (name args))
  else [].

(** The exception of the first name of a batch command that cannot be
    encoded. *)
Definition unencodable (args : Namespace) : option exn :=
  if String.eqb (command args) "list" then None
  else if String.eqb (command args) "delete" then encoding_error (name args)
  else if String.eqb (command args) "clear" then encoding_error (name args)
  else if String.eqb (command args) "clients" then encoding_error (name args)
  else None.

(** The first words of the entries of [commands]: what the shell can
    resolve a line to. *)
Definition resolvable : list string :=
  [ "connect"; "disconnect"; "listrooms"; "join"; "leave";
    "listjoinedclients"; "listallclients"; "setclientname";
    "listroomclients"; "helpexit" ].

Definition is_AddCommand (e : event) : bool :=
  match ev_call e with AddCommand _ => true | _ => false end.

(** A piece of trace [t] with result [r] is an attempt to post [cs], the
    commands that come before a name that cannot be encoded when [pending]
    is the exception of that name.  If it returned, all of [cs] was handed
    to [addCommand], in order, no call raised and nothing was pending; if
    it raised, either the exception is that of its one failing call and
    what was handed over is a prefix of [cs], or no call raised, all of
    [cs] was handed over and the exception is the pending one. *)
Definition attempt {A} (pending : option exn) (cs : list Command)
    (t : list event) (r : outcome A) : Prop :=
  match r with
  | Return _ => posted t = cs /\ raises t = [] /\ pending = None
  | Raise e =>
      (posted t `prefix_of` cs /\ raises t = [e])
      \/ (posted t = cs /\ raises t = [] /\ pending = Some e)
  end.

(** How a one-shot command treats exceptions: at most one call raises; a
    [ServerError] is logged, once, and the function returns; anything else
    leaves the function; when no call raises, nothing is logged, and the
    function returns unless a name cannot be encoded, whose exception
    ([pending]) then leaves the function. *)
Definition swallows_only_ServerError (pending : option exn) (t : list event)
    (r : outcome unit) : Prop :=
  match raises t with
  | [] =>
      r = match pending with
          | None => Return tt
          | Some e => Raise e
          end
      /\ List.filter is_LoggingError t = []
  | [e] =>
      if isinstance e ServerError
      then r = Return tt
           /\ List.filter is_LoggingError t = [Ev (LoggingError e) None]
      else r = Raise e /\ List.filter is_LoggingError t = []
  | _ => False
  end.

(** A one-shot command is one session at most: one client, one
    [connect], one [disconnect]; and what it hands to [addCommand] is a
    prefix of [cs], all of it unless a call raised. *)
Definition one_session_at_most (cs : list Command) (t : list event) : Prop :=
  count is_ThreadStart t <= 1
  /\ count is_Connect t <= 1
  /\ count is_Disconnect t <= 1
  /\ posted t `prefix_of` cs
  /\ (raises t = [] -> posted t = cs).

(** What the [try] block of a one-shot command has done when it is left
    with result [r]: one construction and one [connect] at most, no
    [disconnect] and nothing logged yet, and an attempt to post [cs]. *)
Definition block_summary {A} (pending : option exn) (cs : list Command)
    (t : list event) (r : outcome A) : Prop :=
  count is_ThreadStart t <= 1
  /\ count is_Connect t <= 1
  /\ List.filter is_Disconnect t = []
  /\ List.filter is_LoggingError t = []
  /\ attempt pending cs t r.

Section Runs.
Context {T : Type} {Tr : ClientBase T}.

(** [m], run on an existing client, keeps the client and only calls
    [addCommand], attempting to post [cs]. *)
Definition posts {A} (pending : option exn) (cs : list Command)
    (m : M (state T) A) : Prop :=
  forall s me, client s = Some me ->
    exists t,
      trace (m s).1 = trace s ++ t
      /\ is_Some (client (m s).1)
      /\ forallb is_AddCommand t = true
      /\ attempt pending cs t (m s).2.

(** [m] keeps the property [I] of the variable [client] and only adds
    events that satisfy [allowed] to the trace. *)
Definition keeps {A} (I : option (CliClient T) -> Prop) (allowed : event -> bool)
    (m : M (state T) A) : Prop :=
  forall s, I (client s) ->
    I (client (m s).1)
    /\ exists t, trace (m s).1 = trace s ++ t /\ forallb allowed t = true.

(** The flag of the client, if there is one, is not set. *)
Definition not_told_to_stop (c : option (CliClient T)) : Prop :=
  forall me, c = Some me -> terminate me = false.

(** Entered with a [client] that satisfies [P], [m] only prints and
    constructs. *)
Definition quiet_when {A} (P : option (CliClient T) -> Prop)
    (m : M (state T) A) : Prop :=
  forall s, P (client s) ->
    exists t, trace (m s).1 = trace s ++ t /\ forallb is_quiet t = true.

(** [m] can only return [False]. *)
Definition returns_false (m : M (state T) bool) : Prop :=
  forall s a, (m s).2 = Return a -> a = false.

(** [client] is [None] or the client is not connected. *)
Definition not_connected (c : option (CliClient T)) : Prop :=
  match c with
  | None => True
  | Some me => Client_isConnected (super me) = false
  end.

End Runs.

End CliTraces.

(** * Facts about cli.py *)

Module CliFacts.
Import Cli.

Section Calls.
Context {T : Type} {Tr : ClientBase T}.

(** A call of an inherited method on an existing object: the transport
    acts on its own state, the call lands in the trace. *)
Lemma super_call_Some {A} attr c (f : T -> T * outcome A) (s : state T) me :
  client s = Some me ->
  super_call attr c f s =
    ({| client := Some (set_super (f (super me)).1 me);
        trace := trace s ++ [Ev c (raised (f (super me)).2)] |},
     (f (super me)).2).
Proof.
  intros Hc. unfold super_call, bind, the_client. rewrite Hc.
  destruct (f (super me)) as [b r]. reflexivity.
Qed.

Lemma super_call_None {A} attr c (f : T -> T * outcome A) (s : state T) :
  client s = None ->
  super_call attr c f s = (s, Raise (NoneType_has_no attr)).
Proof.
  intros Hc. unfold super_call, bind, the_client. rewrite Hc. reflexivity.
Qed.

Lemma disconnect_Some (s : state T) me :
  client s = Some me ->
  disconnect s =
    ({| client := Some (set_super (Client_disconnect (super me)) me);
        trace := trace s ++ [Ev Disconnect None] |}, Return tt).
Proof. intros Hc. unfold disconnect. rewrite (super_call_Some _ _ _ _ me Hc). reflexivity. Qed.

Lemma disconnect_if_client_Some (s : state T) me :
  client s = Some me ->
  disconnect_if_client s =
    ({| client := Some (set_super (Client_disconnect (super me)) me);
        trace := trace s ++ [Ev Disconnect None] |}, Return tt).
Proof.
  intros Hc. unfold disconnect_if_client, bind, get. rewrite Hc.
  by apply disconnect_Some.
Qed.

Lemma disconnect_if_client_None (s : state T) :
  client s = None -> disconnect_if_client s = (s, Return tt).
Proof. intros Hc. unfold disconnect_if_client, bind, get. by rewrite Hc. Qed.















Lemma all_returned_app (t1 t2 : list event) :
  all_returned (t1 ++ t2) = all_returned t1 && all_returned t2.
Proof. apply forallb_app. Qed.

(** Posting one command per element of a list: as long as no call
    raises, the calls are exactly the commands, in the order of the
    list. *)
Lemma post_command_Some (c : Command) (s : state T) me :
  client s = Some me ->
  post_command c s =
    ({| client := Some (set_super (Client_addCommand c (super me)).1 me);
        trace := trace s
                 ++ [Ev (AddCommand c) (raised (Client_addCommand c (super me)).2)] |},
     (Client_addCommand c (super me)).2).
Proof. intros Hc. unfold post_command, addCommand. by apply super_call_Some. Qed.

Lemma for_each_posts {X} (mk : X -> Command) (names : list X) :
  forall (s : state T) me, client s = Some me ->
    exists me' k r,
      for_each names (fun n => post_command (mk n)) s
        = ({| client := Some me'; trace := trace s ++ k |}, r) /\
      (all_returned k = true ->
         k = map (fun c => Ev (AddCommand c) None) (map mk names)
         /\ r = Return tt).
Proof.
  induction names as [|n names IH]; intros s me Hc.
  - exists me, [], (Return tt). simpl. rewrite app_nil_r.
    destruct s; simpl in *; subst. done.
  - simpl. unfold bind.
    rewrite (post_command_Some _ _ me Hc).
    destruct (Client_addCommand (mk n) (super me)) as [b [[]|e]]; simpl.
    + edestruct (IH {| client := Some (set_super b me);
                       trace := trace s ++ [Ev (AddCommand (mk n)) None] |})
        as (me' & k & r & E & Hk); [reflexivity|].
      rewrite E. simpl.
      exists me', (Ev (AddCommand (mk n)) None :: k), r.
      split; [by rewrite <- app_assoc|].
      simpl. intros Hall. destruct (Hk Hall) as [-> ->]. done.
    + eexists _, [_], _. split; [reflexivity|]. simpl. done.
Qed.

(** The frame around [client = CliClient(args); client.connect(); rest],
    entered with any [client]: if no call raised, the trace is a
    session. *)
Lemma framed_session (args : Namespace) (rest : M (state T) unit)
    (cs : list Command) :
  (forall s me, client s = Some me ->
     exists me' k r,
       rest s = ({| client := Some me'; trace := trace s ++ k |}, r) /\
       (all_returned k = true ->
          k = map (fun c => Ev (AddCommand c) None) cs /\ r = Return tt)) ->
  forall c0 s' r,
    (modify (set_client None) ;;
     try_finally
       (try_except (client_assign_new args ;; connect ;; rest)
          (fun e => isinstance e ServerError)
          (fun e => log (LoggingError e) None))
       disconnect_if_client) (entry c0) = (s', r) ->
    all_returned (trace s') = true ->
    trace s' = session args cs /\ r = Return tt.
Proof.
  intros Hrest c0 s' r.
  unfold bind at 1. unfold modify at 1. simpl.
  unfold try_finally, try_except, bind, client_assign_new, bind,
    CliClient_init, modify, connect.
  destruct (Client_init (host args) (port args)) as [b|e]; simpl.
  - set (me := {| super := b; terminate := false; consumer := at_while |}).
    erewrite super_call_Some by reflexivity. simpl.
    destruct (Client_connect b) as [b1 [[]|e]]; simpl.
    + edestruct (Hrest {| client := Some (set_super b1 me);
          trace := [Ev (Init (host args) (port args)) None;
                    Ev ThreadStart None; Ev Connect None] |})
        as (me' & k & r1 & E & Hk); [reflexivity|].
      rewrite E. simpl in *.
      destruct r1 as [[]|e1].
      * erewrite disconnect_if_client_Some by reflexivity. simpl.
        intros [= <- <-]. simpl.
        rewrite all_returned_app, andb_true_iff. intros [Hall _].
        destruct (Hk Hall) as [-> _]. done.
      * destruct (isinstance e1 ServerError);
          unfold log, modify, add_event; cbv beta iota;
          erewrite disconnect_if_client_Some by reflexivity; simpl;
          intros [= <- <-]; simpl;
          rewrite !all_returned_app, !andb_true_iff; intros Hall;
          destruct (Hk ltac:(tauto)) as [_ [=]].
    + destruct (isinstance e ServerError);
        unfold log, modify, add_event; cbv beta iota;
        erewrite disconnect_if_client_Some by reflexivity; simpl;
        intros [= <- <-]; simpl; done.
  - destruct (isinstance e ServerError);
      unfold log, modify, add_event; cbv beta iota;
      erewrite disconnect_if_client_None by reflexivity; simpl;
      intros [= <- <-]; simpl; done.
Qed.

Lemma posted_session (args : Namespace) (cs : list Command) :
  posted (session args cs) = cs.
Proof.
  unfold session. simpl. induction cs as [|c cs IH]; simpl; [done|].
  by rewrite IH.
Qed.

(** When every name can be encoded, the loop over the names is the loop
    over their encodings. *)
Lemma for_each_encoded (ty : MessageType) (names : list string)
    (payloads : list bytes) :
  Forall2 (fun n payload => encode n = Return payload) names payloads ->
  forall s : state T,
    for_each names
      (fun n => do payload <- name_encode n;
                post_command (Command_new ty (Some payload))) s
    = for_each payloads (fun payload => post_command (mkCommand ty payload)) s.
Proof.
  induction 1 as [|n payload names payloads Hn _ IH]; intros s; [done|].
  simpl. unfold bind at 1 2, name_encode. rewrite Hn.
  fold (bind (post_command (mkCommand ty payload))
          (fun _ => for_each payloads
                      (fun payload => post_command (mkCommand ty payload))) s).
  unfold bind. unfold Command_new. simpl.
  destruct (post_command (mkCommand ty payload) s) as [s1 [[]|e]]; [|done].
  apply IH.
Qed.

Lemma batch_session (args : Namespace) (c0 : option (CliClient T))
    (operation : string -> M (state T) unit) (ty : MessageType)
    (payloads : list bytes) s' r :
  (forall n, operation n
             = (do payload <- name_encode n;
                post_command (Command_new ty (Some payload)))) ->
  name args <> [] ->
  Forall2 (fun n payload => encode n = Return payload) (name args) payloads ->
  (modify (set_client None) ;;
   try_finally
     (try_except (batch args operation)
        (fun e => isinstance e ServerError)
        (fun e => log (LoggingError e) None))
     disconnect_if_client) (entry c0) = (s', r) ->
  all_returned (trace s') = true ->
  trace s' = session args (map (mkCommand ty) payloads)
  /\ r = Return tt.
Proof.
  intros Hop Hne Henc. unfold batch.
  destruct (name args) as [|n names] eqn:En; [done|]. simpl negb. cbv iota.
  apply framed_session. intros s me Hc.
  replace (for_each (n :: names) operation)
    with (for_each (n :: names)
            (fun n => do payload <- name_encode n;
                      post_command (Command_new ty (Some payload)))).
  - rewrite (for_each_encoded ty _ _ Henc).
    by apply for_each_posts with (me := me).
  - clear -Hop. generalize (n :: names). intros l.
    induction l as [|x l IH]; simpl; [done|]. by rewrite Hop, IH.
Qed.

(** C6.  For a non-empty list of room names, each of which can be
    encoded, given to the batch command [delete], [clear] or [clients], a
    run of [process_room_command] in which no call raises is one session
    on one client, in which exactly one command per name is handed to
    [addCommand], in the order of the names, of the type of the operation
    ([DELETE_ROOM], [CLEAR_ROOM], [LIST_ROOM_CLIENTS]) and with the
    encoded name, which is the bytes of the name, as payload.  The
    operations without a name ([listRooms], [listClients],
    [listAllClients]) hand over one command of their type with an empty
    payload. *)
Theorem batch_posts_one_command_per_name
    (args : Namespace) (c0 : option (CliClient T)) :
  (forall ty payloads,
     In (command args, ty)
        [("delete", DELETE_ROOM); ("clear", CLEAR_ROOM);
         ("clients", LIST_ROOM_CLIENTS)] ->
     name args <> [] ->
     Forall2 (fun n payload => encode n = Return payload)
       (name args) payloads ->
     all_returned (trace (process_room_command args (entry c0)).1) = true ->
     trace (process_room_command args (entry c0)).1
       = session args (map (mkCommand ty) payloads)
     /\ posted (trace (process_room_command args (entry c0)).1)
       = map (mkCommand ty) payloads
     /\ payloads = map utf8 (name args))
  /\ (forall s me, client s = Some me ->
        posted (trace (listRooms s).1)
          = posted (trace s) ++ [mkCommand LIST_ROOMS []]
        /\ posted (trace (listClients s).1)
          = posted (trace s) ++ [mkCommand LIST_CLIENTS []]
        /\ posted (trace (listAllClients s).1)
          = posted (trace s) ++ [mkCommand LIST_ALL_CLIENTS []]).
Proof.
  split.
  - intros ty payloads Hin Hne Henc Hall.
    assert (trace (process_room_command args (entry c0)).1
            = session args (map (mkCommand ty) payloads))
      as E.
    { destruct (process_room_command args (entry c0)) as [s' r] eqn:Erun.
      simpl in *. unfold process_room_command, room_command in Erun.
      simpl in Hin.
      destruct Hin as [[= Hc <-]|[[= Hc <-]|[[= Hc <-]|[]]]];
        rewrite <- Hc in Erun; simpl in Erun;
        eapply batch_session in Erun; try done; apply Erun. }
    split; [exact E|]. split; [rewrite E; apply posted_session|].
    clear -Henc. induction Henc as [|n payload names payloads Hn _ IH]; [done|].
    simpl. rewrite <- IH. f_equal. unfold encode in Hn.
    destruct (existsb id (surrogates 0 n)); congruence.
  - intros s me Hc. unfold listRooms, listClients, listAllClients.
    rewrite !(post_command_Some _ _ me Hc). simpl.
    assert (forall t e, posted (t ++ [e])
              = posted t ++ match ev_call e with
                            | AddCommand c => [c]
                            | _ => []
                            end) as Happ.
    { induction t as [|x t IH]; intros e; simpl.
      - destruct (ev_call e); done.
      - rewrite IH. destruct (ev_call x); done. }
    rewrite !Happ. done.
Qed.


(** C10.  For [delete], [clear] and [clients] with an empty list of
    names, [process_room_command] constructs no client, connects
    nothing and posts nothing: its only call prints that one or more
    room names were expected, and it returns with [client] still
    [None]. *)
Theorem empty_batch_only_prints (args : Namespace) (s : state T) :
  In (command args) ["delete"; "clear"; "clients"] ->
  name args = [] ->
  process_room_command args s =
    ({| client := None;
        trace := trace s
                 ++ [Ev (Print [Text "Expected one or more room names"] true)
                       None] |},
     Return tt).
Proof.
  intros Hin Hn. unfold process_room_command, room_command, batch.
  rewrite Hn. simpl in Hin.
  destruct Hin as [<-|[<-|[<-|[]]]]; reflexivity.
Qed.

End Calls.

Section Consumer.
Context {T : Type} {Tr : ClientBase T}.

Lemma count_app {X} (p : X -> bool) (l1 l2 : list X) :
  count p (l1 ++ l2) = count p l1 + count p l2.
Proof. unfold count. by rewrite List.filter_app, length_app. Qed.

Lemma run_cons (a : action) (schedule : list action) (me : CliClient T) :
  run (a :: schedule) me =
    ((run schedule (act a me).1).1, (act a me).2 ++ (run schedule (act a me).1).2).
Proof.
  simpl. destruct (act a me) as [me1 t1]. simpl.
  destruct (run schedule me1) as [me2 t2]. reflexivity.
Qed.

(** With the flag set, every step of the consumer brings it closer to
    the end of [consume], and what it still calls is bounded by where it
    stands. *)
Lemma consume_step_last_round (me : CliClient T) :
  terminate me = true ->
  terminate (consume_step me).1 = true
  /\ steps_left (consumer (consume_step me).1) <= pred (steps_left (consumer me))
  /\ count is_ConsumeOne (consume_step me).2
      + polls_left (consumer (consume_step me).1) <= polls_left (consumer me)
  /\ count is_Sleep (consume_step me).2
      + sleeps_left (consumer (consume_step me).1) <= sleeps_left (consumer me)
  /\ forallb sleeps_a_tenth (consume_step me).2 = true.
Proof.
  intros Ht. unfold consume_step.
  destruct (consumer me) as [| | |received|received| |] eqn:Epc; simpl.
  - rewrite Ht. simpl. rewrite Ht. repeat split; try done; simpl; lia.
  - destruct (Client_consume_one (super me)) as [b [c|]]; simpl;
      rewrite Ht; repeat split; try done; unfold count; simpl; lia.
  - rewrite Ht. repeat split; try done; unfold count; simpl; lia.
  - destruct (MessageType_eqb (type received) CONNECTION_LOST); simpl;
      rewrite Ht; repeat split; try done; unfold count; simpl; lia.
  - rewrite Ht. repeat split; try done; unfold count; simpl; lia.
  - rewrite Ht. repeat split; try done; unfold count; simpl; lia.
  - rewrite Ht, Epc. repeat split; try done; unfold count; simpl; lia.
Qed.

Lemma act_last_round (a : action) (me : CliClient T) :
  terminate me = true ->
  terminate (act a me).1 = true
  /\ steps_left (consumer (act a me).1)
      <= steps_left (consumer me) - (if is_Consumer a then 1 else 0)
  /\ count is_ConsumeOne (act a me).2
      + polls_left (consumer (act a me).1) <= polls_left (consumer me)
  /\ count is_Sleep (act a me).2
      + sleeps_left (consumer (act a me).1) <= sleeps_left (consumer me)
  /\ forallb sleeps_a_tenth (act a me).2 = true.
Proof.
  intros Ht. destruct a as [| |f]; simpl.
  - destruct (consume_step_last_round me Ht) as (? & ? & ? & ? & ?).
    repeat split; try done. lia.
  - repeat split; try done; unfold count; simpl; lia.
  - rewrite Ht. repeat split; try done; unfold count; simpl; lia.
Qed.

Lemma run_last_round (schedule : list action) :
  forall me : CliClient T,
    terminate me = true ->
    terminate (run schedule me).1 = true
    /\ steps_left (consumer (run schedule me).1)
        <= steps_left (consumer me) - count is_Consumer schedule
    /\ count is_ConsumeOne (run schedule me).2 <= polls_left (consumer me)
    /\ count is_Sleep (run schedule me).2 <= sleeps_left (consumer me)
    /\ forallb sleeps_a_tenth (run schedule me).2 = true.
Proof.
  induction schedule as [|a schedule IH]; intros me Ht.
  - simpl. repeat split; try done; unfold count; simpl; lia.
  - rewrite run_cons. simpl.
    destruct (act_last_round a me Ht) as (Ht1 & Hs1 & Hp1 & Hz1 & Hq1).
    destruct (IH _ Ht1) as (Ht2 & Hs2 & Hp2 & Hz2 & Hq2).
    rewrite !count_app, forallb_app, Hq1, Hq2.
    repeat split; try done; try lia.
    change (count is_Consumer (a :: schedule))
      with (length (if is_Consumer a
                    then a :: List.filter is_Consumer schedule
                    else List.filter is_Consumer schedule)).
    unfold count in *. destruct (is_Consumer a); simpl; lia.
Qed.

Lemma steps_left_0 (p : pc) : steps_left p = 0 -> p = finished.
Proof. destruct p; simpl; done. Qed.

(** C8.  Once [terminate] is true, in every schedule of the consumer
    with the rest of the program: the consumer calls [consume_one] at
    most once more and sleeps at most once more, for 0.1 second; and
    as soon as it has been given five steps (the length of one round of
    the loop) [consume] has returned. *)
Theorem terminate_observed_within_one_round
    (me : CliClient T) (schedule : list action) :
  terminate me = true ->
  count is_ConsumeOne (run schedule me).2 <= 1
  /\ count is_Sleep (run schedule me).2 <= 1
  /\ forallb sleeps_a_tenth (run schedule me).2 = true
  /\ (5 <= count is_Consumer schedule ->
      consumer (run schedule me).1 = finished).
Proof.
  intros Ht.
  destruct (run_last_round schedule me Ht) as (_ & Hs & Hp & Hz & Hq).
  repeat split; try done.
  - destruct (consumer me); simpl in Hp; lia.
  - destruct (consumer me); simpl in Hz; lia.
  - intros Hn. apply steps_left_0.
    destruct (consumer me); simpl in Hs; lia.
Qed.

(** While the flag is not set, [consume] does not return, whatever it
    receives. *)
Lemma consume_step_goes_on (me : CliClient T) :
  terminate me = false ->
  consumer_running me = true ->
  terminate (consume_step me).1 = false
  /\ consumer_running (consume_step me).1 = true.
Proof.
  intros Ht Hr. unfold consume_step, consumer_running in *.
  destruct (consumer me) as [| | |received|received| |]; simpl; try done.
  - rewrite Ht. done.
  - destruct (Client_consume_one (super me)) as [b [c|]]; done.
  - destruct (MessageType_eqb (type received) CONNECTION_LOST); done.
Qed.

Lemma run_goes_on (schedule : list action) :
  forall me : CliClient T,
    terminate me = false ->
    existsb is_SetTerminate schedule = false ->
    consumer_running me = true ->
    terminate (run schedule me).1 = false
    /\ consumer_running (run schedule me).1 = true.
Proof.
  induction schedule as [|a schedule IH]; intros me Ht Hs Hr; [done|].
  rewrite run_cons. simpl in *. apply orb_false_iff in Hs as [Ha Hs].
  destruct a as [| |f]; simpl in *; try done.
  - destruct (consume_step_goes_on me Ht Hr). by apply IH.
  - by apply IH.
Qed.

(** C2, as the code has it.  When the consumer has received
    [CONNECTION_LOST], its next step calls [disconnect] (so, for a
    transport whose [disconnect] marks it not connected, the client is
    then observably disconnected); it prints the command and the
    prompt, tests the flag and calls [consume_one] again; and as long
    as nothing sets [terminate], [consume] does not return. *)
Theorem connection_lost_disconnects_and_polling_goes_on
    (me : CliClient T) (received : Command) (schedule : list action) :
  consumer me = at_if_lost received ->
  type received = CONNECTION_LOST ->
  terminate me = false ->
  consume_step me =
    (set_consumer (at_print received)
       (set_super (Client_disconnect (super me)) me),
     [Ev Disconnect None])
  /\ ((forall b, Client_isConnected (Client_disconnect b) = false) ->
      Client_isConnected (super (consume_step me).1) = false)
  /\ (run [Consumer; Consumer; Consumer; Consumer; Consumer] me).2 =
      [Ev Disconnect None;
       Ev (Print [Formatted received] true) None;
       Ev (Print [Text "> "] true) None;
       Ev (ConsumeOne (Client_consume_one (Client_disconnect (super me))).2) None]
  /\ (existsb is_SetTerminate schedule = false ->
      consumer_running (run schedule me).1 = true).
Proof.
  intros Hpc Hty Ht.
  assert (consume_step me =
    (set_consumer (at_print received)
       (set_super (Client_disconnect (super me)) me),
     [Ev Disconnect None])) as E.
  { unfold consume_step. rewrite Hpc, Hty. reflexivity. }
  split; [exact E|]. split; [|split].
  - intros Hlaw. rewrite E. simpl. apply Hlaw.
  - rewrite !run_cons. simpl act. rewrite E.
    cbn [fst snd run app].
    unfold consume_step; cbn [consumer set_consumer set_super super terminate fst snd app].
    rewrite Ht. cbn [consumer set_consumer set_super super terminate fst snd app].
    destruct (Client_consume_one (Client_disconnect (super me))) as [b r].
    reflexivity.
  - intros Hs. apply run_goes_on; try done.
    unfold consumer_running. by rewrite Hpc.
Qed.

(** C3, as the code has it.  The constructor of [CliClient] starts the
    consumer: when it returns, the thread has been started (after the
    base class constructor and before any [connect]), it is running and
    [terminate] is false; if the base constructor raises, nothing else
    is done.  [connect] is a call of the base class and leaves the
    thread and the flag as they are. *)
Theorem consumer_started_by_constructor (args : Namespace) (s : state T) :
  match CliClient_init args s with
  | (s', Return me) =>
      trace s' = trace s ++ [Ev (Init (host args) (port args)) None;
                             Ev ThreadStart None]
      /\ consumer me = at_while
      /\ consumer_running me = true
      /\ terminate me = false
  | (s', Raise e) =>
      trace s' = trace s ++ [Ev (Init (host args) (port args)) (Some e)]
  end
  /\ forall me t,
       exists me',
         client (connect {| client := Some me; trace := t |}).1 = Some me'
         /\ consumer me' = consumer me
         /\ terminate me' = terminate me
         /\ trace (connect {| client := Some me; trace := t |}).1
            = t ++ [Ev Connect
                      (raised (connect {| client := Some me; trace := t |}).2)].
Proof.
  split.
  - unfold CliClient_init.
    destruct (Client_init (host args) (port args)) as [b|e]; simpl.
    + rewrite <- app_assoc. done.
    + done.
  - intros me t. unfold connect.
    rewrite (super_call_Some _ _ _ {| client := Some me; trace := t |} me eq_refl).
    simpl. eexists. done.
Qed.

End Consumer.
End CliFacts.

(** * Facts about cli.py on the transport of the spec *)

Module EncodeFacts.

Lemma encode_raises (name : string) (e : exn) :
  encode name = Raise e -> exn_type e = UnicodeEncodeError.
Proof.
  unfold encode. destruct (existsb id (surrogates 0 name)); [|done].
  by intros [= <-].
Qed.

Lemma encode_returns (name : string) (payload : bytes) :
  encode name = Return payload -> payload = utf8 name.
Proof.
  unfold encode. destruct (existsb id (surrogates 0 name)); [done|].
  by intros [= <-].
Qed.

End EncodeFacts.

Module SpecFacts.
Import Cli Scenario.

(** On the transport of the spec, a command handed to [addCommand] of a
    client that is not connected is refused and nothing changes but the
    trace. *)
Lemma post_refused (up : bool) (me : CliClient SpecClient.Client)
    (t : list event) (c : Command) :
  SpecClient.isConnected (super me) = false ->
  post_command (Tr := SpecClient.transport up) c {| client := Some me; trace := t |}
  = ({| client := Some me;
        trace := t ++ [Ev (AddCommand c) (Some (Exn RuntimeError ["not connected"]))] |},
     Raise (Exn RuntimeError ["not connected"])).
Proof.
  intros Hd.
  rewrite (CliFacts.post_command_Some (Tr := SpecClient.transport up) c
             {| client := Some me; trace := t |} me eq_refl).
  simpl. unfold SpecClient.addCommand. unfold SpecClient.isConnected in Hd.
  rewrite Hd. simpl. destruct me. reflexivity.
Qed.

(** C1.  On a [CliClient] that is not connected, each of the six room and
    roster operations is refused: the call raises a [RuntimeError], the
    object is unchanged (so its queue of pending commands holds no new
    command), and only the refused call is added to the trace; an
    operation given a name that cannot be encoded raises
    [UnicodeEncodeError] before it calls anything, and changes nothing.
    In the interactive shell the four operations it offers are refused
    before they are called, when [client] is [None] or not connected: the
    line prints the exception and no call reaches the transport. *)
Theorem operations_refused_when_not_connected
    (up : bool) (me : CliClient SpecClient.Client) (t : list event)
    (room : string) (args : Namespace) :
  SpecClient.isConnected (super me) = false ->
  Forall (refused me t)
    [ listRooms (Tr := SpecClient.transport up);
      listClients (Tr := SpecClient.transport up);
      listAllClients (Tr := SpecClient.transport up) ]
  /\ Forall (refused_once_encoded room me t)
       [ deleteRoom (Tr := SpecClient.transport up) room;
         clearRoom (Tr := SpecClient.transport up) room;
         listRoomClients (Tr := SpecClient.transport up) room ]
  /\ Forall
       (fun user_input =>
          refused_at_the_prompt (Tr := SpecClient.transport up) args None t
            user_input
          /\ refused_at_the_prompt (Tr := SpecClient.transport up) args
               (Some me) t user_input)
       [ "listrooms"; "listroomclients lobby"; "listjoinedclients";
         "listallclients" ].
Proof.
  intros Hd. split; [|split].
  - repeat apply Forall_cons_2; [..|apply Forall_nil_2];
      eexists _, _; (split; [apply post_refused; exact Hd | reflexivity]).
  - repeat apply Forall_cons_2; [..|apply Forall_nil_2];
      unfold refused_once_encoded, deleteRoom, clearRoom, listRoomClients,
        bind, name_encode;
      pose proof (EncodeFacts.encode_raises room) as Hroom;
      (destruct (encode room) as [payload|e];
       [ eexists _, _; (split; [apply post_refused; exact Hd | reflexivity])
       | split; [reflexivity | by apply Hroom] ]).
  - repeat apply Forall_cons_2; [..|apply Forall_nil_2]; split;
      unfold refused_at_the_prompt, interactive_iteration, try_except, bind,
        log, modify; simpl;
      unfold dispatch, bind, none_or_not_connected, get; simpl;
      unfold bind; simpl;
      try rewrite Hd; simpl;
      unfold add_event; simpl; rewrite <- ?app_assoc; reflexivity.
Qed.

End SpecFacts.

(** * Facts about the capture log *)

Module GrabberFacts.
Import Grabber.

Lemma key_leb_refl (a : list N) : key_leb a a = true.
Proof.
  induction a as [|x a IH]; simpl; [done|].
  rewrite N.ltb_irrefl, N.eqb_refl. exact IH.
Qed.

Lemma key_leb_total (a b : list N) : key_leb a b = true \/ key_leb b a = true.
Proof.
  revert b. induction a as [|x a IH]; intros [|y b]; simpl; auto.
  destruct (N.ltb_spec x y), (N.ltb_spec y x); auto; try lia.
  assert (x = y) as -> by lia. rewrite N.eqb_refl. apply IH.
Qed.

Lemma key_leb_trans (a b c : list N) :
  key_leb a b = true -> key_leb b c = true -> key_leb a c = true.
Proof.
  revert b c. induction a as [|x a IH]; intros [|y b] [|z c]; simpl; try done.
  destruct (N.ltb_spec x y), (N.ltb_spec y z), (N.ltb_spec x z);
    try done; try lia;
    destruct (N.eqb_spec x y), (N.eqb_spec y z), (N.eqb_spec x z);
    try done; try lia.
  apply IH.
Qed.

Lemma key_leb_antisym (a b : list N) :
  key_leb a b = true -> key_leb b a = true -> a = b.
Proof.
  revert b. induction a as [|x a IH]; intros [|y b]; simpl; try done.
  destruct (N.ltb_spec x y), (N.ltb_spec y x),
    (N.eqb_spec x y), (N.eqb_spec y x); try done; try lia.
  subst y. intros ??. f_equal. by apply IH.
Qed.

(** The key is the content: two commands with the same key are the same
    command. *)
Lemma sort_key_inj (a b : Command) : sort_key a = sort_key b -> a = b.
Proof.
  destruct a as [ta da], b as [tb db]. unfold sort_key. simpl.
  intros [= Ht Hd]. f_equal.
  - destruct ta, tb; simpl in Ht; try done; try lia. f_equal. lia.
  - revert db Hd. induction da as [|x da IH]; intros [|y db]; simpl; try done.
    intros [= Hx Hd]. f_equal; [|by apply IH].
    apply (f_equal Byte.of_N) in Hx. rewrite !Byte.of_to_N in Hx. by injection Hx.
Qed.

#[global] Instance command_le_total : Total command_le.
Proof. intros a b. apply key_leb_total. Qed.

#[global] Instance command_le_trans : Transitive command_le.
Proof. intros a b c. apply key_leb_trans. Qed.

#[global] Instance command_le_antisym : AntiSymm (=) command_le.
Proof. intros a b ??. apply sort_key_inj. by apply key_leb_antisym. Qed.

(** Sorting forgets the order of arrival: two sequences with the same
    commands sort to the same sequence. *)
Lemma sorted_of_permutation (l1 l2 : list Command) :
  l1 ≡ₚ l2 -> merge_sort command_le l1 = merge_sort command_le l2.
Proof.
  intros Hp. apply (Sorted_unique command_le).
  - apply Sorted_merge_sort; apply _.
  - apply Sorted_merge_sort; apply _.
  - by rewrite !merge_sort_Permutation.
Qed.

Lemma sort_same_commands (a b : Grabber) :
  same_commands (streams a) (streams b) -> sort a = sort b.
Proof.
  intros Hs. unfold sort. f_equal. apply map_eq. intros id.
  rewrite !lookup_fmap. destruct (Hs id) as [l1 l2 Hp|]; simpl; [|done].
  f_equal. by apply sorted_of_permutation.
Qed.

Lemma sort_lookup (a : Grabber) (id : N) (l : list Command) :
  streams (sort a) !! id = Some l ->
  Sorted command_le l /\ exists l0, streams a !! id = Some l0 /\ l ≡ₚ l0.
Proof.
  unfold sort. simpl. rewrite lookup_fmap.
  destruct (streams a !! id) as [l0|]; simpl; [|done].
  intros [= <-]. split.
  - apply Sorted_merge_sort; apply _.
  - exists l0. split; [done|]. apply merge_sort_Permutation.
Qed.

End GrabberFacts.

(** * Facts about tests/mixer_testcase.py *)

Module TestFacts.
Import MixerTestCase.

Section Runs.
Context {W : Type} {C : Collaborators W}.

(** Case analysis on the outcome of the next call of a collaborator. *)
Ltac next_call :=
  match goal with
  | |- context [perform ?c ?w] =>
      let r := fresh "r" in
      destruct (perform c w) as [? r]; destruct r as [[]|?]
  | |- context [spawn ?w] =>
      let r := fresh "r" in
      destruct (spawn w) as [? r]; destruct r as [?|?]
  | |- context [capture ?h ?p ?n ?w] =>
      let r := fresh "r" in
      destruct (capture h p n w) as [? r]; destruct r as [?|?]
  | |- context [isinstance ?e RuntimeError] =>
      destruct (isinstance e RuntimeError) eqn:?
  end; cbn.

(** The same, keeping the equation of each call. *)
Ltac next_answer :=
  match goal with
  | |- context [perform ?c ?w] =>
      let r := fresh "r" in
      destruct (perform c w) as [? r] eqn:?; destruct r as [[]|?]
  | |- context [spawn ?w] =>
      let r := fresh "r" in
      destruct (spawn w) as [? r] eqn:?; destruct r as [?|?]
  | |- context [capture ?h ?p ?n ?w] =>
      let r := fresh "r" in
      destruct (capture h p n w) as [? r] eqn:?; destruct r as [?|?]
  | |- context [isinstance ?e RuntimeError] =>
      destruct (isinstance e RuntimeError) eqn:?
  end; cbn.

(** The next call of a run gets the answer recorded for it. *)
Ltac replay_step :=
  eexists; split;
    [ unfold respond;
      match goal with
      | H : ?f = (_, _) |- context [?f] => rewrite H
      end; cbn; reflexivity
    | ].

(** C4, as the code has it.  Every run of [assert_matches] that reaches
    the comparison, whatever its verdict, has made exactly these calls,
    each of which returned: both instances leave the session and the
    server of the test is killed; a new server is started; the sender
    joins the room "mixer_grab_sender" in upload mode
    ([keep_room_open=True]) and disconnects, and then that room is
    grabbed from the new server; likewise the receiver with the room
    "mixer_grab_receiver"; the server is killed; and the two streams
    compared are the sorted logs [a] and [b] that these two grabs
    downloaded in this very run.  The result of [assert_matches] is the
    verdict of the comparison. *)
Theorem assert_matches_grabs_the_two_upload_rooms
    (self : TestCase) (w : W) (s r : gmap N (list Command)) (k : option exn) :
  In (Ev (assert_stream_equals s r) k)
     (trace (assert_matches self (entry w)).1) ->
  exists sender receiver others server a b verdict,
    _blenders self = sender :: receiver :: others
    /\ replays w
         (upload_grab_and_compare self sender receiver server a b verdict)
    /\ trace (assert_matches self (entry w)).1
       = events
           (upload_grab_and_compare self sender receiver server a b verdict)
    /\ s = Grabber.streams (Grabber.sort {| Grabber.streams := a |})
    /\ r = Grabber.streams (Grabber.sort {| Grabber.streams := b |})
    /\ raised verdict = k
    /\ (assert_matches self (entry w)).2 = verdict.
Proof.
  unfold assert_matches, _sender, _receiver, grab_and_sort, Grabber_grab,
    extern, called, entry, try_finally, try_except, bind, ret, raise.
  destruct (_blenders self) as [|sender [|receiver others]]; cbn.
  - done.
  - next_answer; intuition discriminate.
  - repeat next_answer; cbn; intros Hin;
      repeat (destruct Hin as [Hin|Hin]; [try discriminate|]);
      try (exfalso; exact Hin).
    all: injection Hin as <- <- <-.
    all: eexists _, _, _, _, _, _, _; split; [reflexivity|].
    all: split; [|repeat split; reflexivity].
    all: cbn [upload_grab_and_compare replays answered];
      repeat replay_step; exact I.
Qed.

(** C7.  In every run of [assert_matches], if a [grab] raised a
    [RuntimeError] (for the sender's room or for the receiver's), the
    test fails with [failureException] carrying the arguments of that
    error; the only call still made is the [kill] of the [finally]
    clause, and only an exception of that [kill] can take the place of
    the failure. *)
Theorem grab_error_is_a_test_failure
    (self : TestCase) (w : W) (h : string) (p : Z) (room_name : string)
    (e : exn) :
  In (Ev (grab h p room_name) (Some e))
     (trace (assert_matches self (entry w)).1) ->
  isinstance e RuntimeError = true ->
  (room_name = "mixer_grab_sender" \/ room_name = "mixer_grab_receiver")
  /\ exists server k,
      last (trace (assert_matches self (entry w)).1) = Some (Ev (kill server) k)
      /\ match k with
         | None =>
             (assert_matches self (entry w)).2
             = Raise (failureException (exn_args e))
         | Some e' => (assert_matches self (entry w)).2 = Raise e'
         end.
Proof.
  unfold assert_matches, _sender, _receiver, grab_and_sort, Grabber_grab,
    extern, called, entry, try_finally, try_except, bind, ret, raise.
  destruct (_blenders self) as [|sender [|receiver others]]; cbn.
  - done.
  - next_call; cbn; intuition discriminate.
  - repeat next_call; cbn; intros Hin He;
      repeat (destruct Hin as [Hin|Hin]; [try discriminate|]);
      try (exfalso; exact Hin);
      try (injection Hin as <- <- <- <-);
      try congruence;
      (split; [auto|]); eexists _, _; (split; [reflexivity|]); reflexivity.
Qed.

(** C5.  What [assert_matches] hands to the comparison are the two
    captured logs after [sort()]: the streams compared are the sorted
    streams of what the two grabs downloaded.  [sort()] orders every
    substream by the content of its commands, keeps its commands, and
    gives the same result for two logs that hold the same commands in
    every substream in different orders of arrival; so the streams
    compared do not depend on the order of arrival within a
    substream. *)
Theorem comparison_is_made_on_sorted_logs (self : TestCase) (w : W) :
  (forall s r k,
     In (Ev (assert_stream_equals s r) k)
        (trace (assert_matches self (entry w)).1) ->
     exists a b server w1 w1' w2 w2',
       capture (host server) (port server) "mixer_grab_sender" w1
         = (w1', Return a) /\
       capture (host server) (port server) "mixer_grab_receiver" w2
         = (w2', Return b) /\
       s = Grabber.streams (Grabber.sort {| Grabber.streams := a |}) /\
       r = Grabber.streams (Grabber.sort {| Grabber.streams := b |}))
  /\ (forall a a' : Grabber.Grabber,
        Grabber.same_commands (Grabber.streams a) (Grabber.streams a') ->
        Grabber.sort a = Grabber.sort a')
  /\ (forall (a : Grabber.Grabber) id l,
        Grabber.streams (Grabber.sort a) !! id = Some l ->
        Sorted Grabber.command_le l
        /\ exists l0, Grabber.streams a !! id = Some l0 /\ l ≡ₚ l0).
Proof.
  split; [|split].
  - unfold assert_matches, _sender, _receiver, grab_and_sort, Grabber_grab,
      extern, called, entry, try_finally, try_except, bind, ret, raise.
    destruct (_blenders self) as [|sender [|receiver others]]; cbn.
    + done.
    + intros s r k. next_call; cbn; intuition discriminate.
    + intros s r k.
      repeat match goal with
        | |- context [capture ?h ?p ?n ?w] =>
            let o := fresh "r" in
            destruct (capture h p n w) as [? o] eqn:?; destruct o as [?|?]; cbn
        | _ => next_call
        end; cbn; intros Hin;
        repeat (destruct Hin as [Hin|Hin]; [try discriminate|]);
        try (exfalso; exact Hin).
      all: injection Hin as <- <- <-.
      all: eexists _, _, _, _, _, _, _; eauto.
  - apply GrabberFacts.sort_same_commands.
  - apply GrabberFacts.sort_lookup.
Qed.

End Runs.
End TestFacts.

(** * Concrete runs *)

Module Runs.
Import Cli Scenario.

(** A one-shot command whose [connect] raises [ServerError]: the error is
    logged, the client is disconnected, the function returns. *)
Example server_error_is_logged_and_client_disconnected :
  let result :=
    process_room_command (Tr := refusing) (localhost "list" []) (entry None) in
  trace result.1 =
    [ Ev (Init "localhost" 12800) None; Ev ThreadStart None;
      Ev Connect (Some (Exn ServerError ["room server busy"]));
      Ev (LoggingError (Exn ServerError ["room server busy"])) None;
      Ev Disconnect None ]
  /\ result.2 = Return tt.
Proof. split; reflexivity. Qed.

(** A one-shot command against a server that is down: the [ConnectError]
    is not a [ServerError] and leaves the function, after [disconnect]. *)
Example connect_error_leaves_after_disconnect :
  let result :=
    process_room_command (Tr := SpecClient.transport false)
      (localhost "delete" ["a"; "b"]) (entry None) in
  trace result.1 =
    [ Ev (Init "localhost" 12800) None; Ev ThreadStart None;
      Ev Connect (Some (Exn ConnectError ["connection refused"]));
      Ev Disconnect None ]
  /\ result.2 = Raise (Exn ConnectError ["connection refused"]).
Proof. split; reflexivity. Qed.

(** The adjacent literals of l.146-147 make one entry "helpexit": the line
    "exit" matches no command, so the shell never reaches l.190. *)
Example exit_is_not_recognised :
  let result :=
    interactive_iteration (Tr := on_spec) (localhost "" []) "exit"
      {| client := Some client_not_connected; trace := [] |} in
  nth_error (trace result.1) 1
    = Some (Ev (Print [Text "Command not recognised : "; Text "exit"; Text "."]
                  true) None)
  /\ result.2 = Return false
  /\ option_map terminate (client result.1) = Some false.
Proof. repeat split; reflexivity. Qed.

(** C2 fails as stated: a consumer that receives [CONNECTION_LOST]
    disconnects the client, prints, and then calls [consume_one] again and
    sleeps; it is back at the loop test with [terminate] still false, and
    however long it runs on its own it does not finish. *)
Lemma consumer_polls_on_after_connection_lost :
  (consume (Tr := on_spec) 8 client_losing_connection).2 =
    [ Ev (ConsumeOne (Some lost)) None;
      Ev Disconnect None;
      Ev (Print [Formatted lost] true) None;
      Ev (Print [Text "> "] true) None;
      Ev (ConsumeOne None) None;
      Ev (Sleep (1 # 10)) None ]
  /\ polls_after_loss (consume (Tr := on_spec) 8 client_losing_connection).2 = true
  /\ consumer (consume (Tr := on_spec) 8 client_losing_connection).1 = at_while
  /\ terminate (consume (Tr := on_spec) 8 client_losing_connection).1 = false
  /\ SpecClient.isConnected
       (super (consume (Tr := on_spec) 8 client_losing_connection).1) = false
  /\ (forall n,
        consumer_running (consume (Tr := on_spec) n client_losing_connection).1
        = true).
Proof.
  repeat split; try reflexivity.
  intros n. apply CliFacts.run_goes_on; try reflexivity.
  induction n as [|n IH]; [reflexivity|exact IH].
Qed.

(** C3 fails as stated: when the constructor returns, and before any
    [connect], the consumer is running; left to itself it already polls
    the transport, which is not connected. *)
Lemma consumer_runs_before_connect :
  exists me,
    CliClient_init (Tr := on_spec) (localhost "list" []) (entry None)
    = ({| client := None;
          trace := [Ev (Init "localhost" 12800) None; Ev ThreadStart None] |},
       Return me)
    /\ consumer_running me = true
    /\ SpecClient.isConnected (super me) = false
    /\ (consume (Tr := on_spec) 2 me).2 = [Ev (ConsumeOne None) None].
Proof. eexists. repeat split; reflexivity. Qed.

Lemma operations_refused_witness :
  SpecClient.isConnected (super client_not_connected) = false
  /\ Forall (refused client_not_connected [])
       [ listRooms (Tr := on_spec);
         listClients (Tr := on_spec);
         listAllClients (Tr := on_spec) ]
  /\ Forall (refused_once_encoded "lobby" client_not_connected [])
       [ deleteRoom (Tr := on_spec) "lobby";
         clearRoom (Tr := on_spec) "lobby";
         listRoomClients (Tr := on_spec) "lobby" ].
Proof.
  split; [reflexivity|].
  destruct (SpecFacts.operations_refused_when_not_connected true
              client_not_connected [] "lobby" (localhost "" []) eq_refl)
    as (Hroster & Hnamed & _).
  split; [exact Hroster | exact Hnamed].
Defined.

Lemma connection_lost_witness :
  consumer client_holding_the_signal = at_if_lost lost
  /\ type lost = CONNECTION_LOST
  /\ terminate client_holding_the_signal = false
  /\ consume_step (Tr := on_spec) client_holding_the_signal =
       (set_consumer (at_print lost)
          (set_super (SpecClient.disconnect (super client_holding_the_signal))
             client_holding_the_signal),
        [Ev Disconnect None]).
Proof.
  split; [reflexivity|]. split; [reflexivity|]. split; [reflexivity|].
  apply (CliFacts.connection_lost_disconnects_and_polling_goes_on
           (Tr := on_spec) client_holding_the_signal lost []);
    reflexivity.
Defined.

(** C6 fails as stated: given the names a, 0xFF and b, a run of the
    batch command [delete] in which every call returns posts the command
    for the first name only; encoding the second name raises
    [UnicodeEncodeError], which leaves the function after [disconnect]. *)
Lemma batch_stops_at_a_name_that_cannot_be_encoded :
  name delete_a_0xFF_b <> []
  /\ all_returned
       (trace (process_room_command (Tr := on_spec) delete_a_0xFF_b
                 (entry None)).1) = true
  /\ trace (process_room_command (Tr := on_spec) delete_a_0xFF_b
              (entry None)).1
     = [ Ev (Init "localhost" 12800) None; Ev ThreadStart None;
         Ev Connect None;
         Ev (AddCommand (mkCommand DELETE_ROOM (utf8 "a"))) None;
         Ev Disconnect None ]
  /\ length (posted
               (trace (process_room_command (Tr := on_spec) delete_a_0xFF_b
                         (entry None)).1))
     <> length (name delete_a_0xFF_b)
  /\ (process_room_command (Tr := on_spec) delete_a_0xFF_b (entry None)).2
     = Raise (Exn UnicodeEncodeError
                ["utf-8"; unencodable_name; "0"; "1";
                 "surrogates not allowed"]).
Proof.
  split; [discriminate|]. split; [reflexivity|]. split; [reflexivity|].
  split; [vm_compute; discriminate|]. reflexivity.
Qed.

Lemma batch_posts_witness :
  In (command (localhost "delete" ["a"; "b"]), DELETE_ROOM)
     [("delete", DELETE_ROOM); ("clear", CLEAR_ROOM);
      ("clients", LIST_ROOM_CLIENTS)]
  /\ name (localhost "delete" ["a"; "b"]) <> []
  /\ Forall2 (fun n payload => encode n = Return payload)
       (name (localhost "delete" ["a"; "b"])) [utf8 "a"; utf8 "b"]
  /\ all_returned
       (trace (process_room_command (Tr := on_spec)
                 (localhost "delete" ["a"; "b"]) (entry None)).1) = true
  /\ posted
       (trace (process_room_command (Tr := on_spec)
                 (localhost "delete" ["a"; "b"]) (entry None)).1)
     = [mkCommand DELETE_ROOM (utf8 "a"); mkCommand DELETE_ROOM (utf8 "b")].
Proof.
  assert (Forall2 (fun n payload => encode n = Return payload)
            (name (localhost "delete" ["a"; "b"])) [utf8 "a"; utf8 "b"])
    as Henc by (repeat constructor).
  split; [left; reflexivity|]. split; [discriminate|]. split; [exact Henc|].
  split; [reflexivity|].
  apply (proj1 (CliFacts.batch_posts_one_command_per_name (Tr := on_spec)
                  (localhost "delete" ["a"; "b"]) None)
           DELETE_ROOM [utf8 "a"; utf8 "b"]).
  - left; reflexivity.
  - discriminate.
  - exact Henc.
  - reflexivity.
Defined.

Lemma terminate_observed_witness :
  terminate client_told_to_stop = true
  /\ count is_ConsumeOne
       (run (Tr := on_spec) (repeat Consumer 5) client_told_to_stop).2 <= 1
  /\ count is_Sleep
       (run (Tr := on_spec) (repeat Consumer 5) client_told_to_stop).2 <= 1
  /\ forallb sleeps_a_tenth
       (run (Tr := on_spec) (repeat Consumer 5) client_told_to_stop).2 = true
  /\ (5 <= count is_Consumer (repeat (@Consumer SpecClient.Client) 5) ->
      consumer (run (Tr := on_spec) (repeat Consumer 5) client_told_to_stop).1
      = finished).
Proof.
  split; [reflexivity|].
  apply (CliFacts.terminate_observed_within_one_round (Tr := on_spec)
           client_told_to_stop (repeat Consumer 5)).
  reflexivity.
Defined.

Lemma empty_batch_witness :
  In (command (localhost "clear" [])) ["delete"; "clear"; "clients"]
  /\ name (localhost "clear" []) = []
  /\ process_room_command (Tr := on_spec) (localhost "clear" []) (entry None)
     = ({| client := None;
           trace := [Ev (Print [Text "Expected one or more room names"] true)
                       None] |},
        Return tt).
Proof.
  split; [right; left; reflexivity|]. split; [reflexivity|].
  apply (CliFacts.empty_batch_only_prints (Tr := on_spec)
           (localhost "clear" []) (entry None)).
  - right; left; reflexivity.
  - reflexivity.
Defined.

End Runs.

(** * Concrete runs of the end-to-end test *)

Module Rehearsal.
Import MixerTestCase Stage.

(** In the rehearsal the two histories differ only in the order of
    arrival. *)
Lemma histories_same_commands :
  Grabber.same_commands (histories 0) (histories 1).
Proof.
  intros id. unfold histories.
  destruct (decide (id = 1%N)) as [->|H1].
  - rewrite !lookup_insert_eq. constructor. apply Permutation_swap.
  - rewrite !lookup_insert_ne by done.
    destruct (decide (id = 2%N)) as [->|H2].
    + rewrite !lookup_singleton_eq. constructor. done.
    + rewrite !lookup_singleton_ne by done. constructor.
Qed.

Lemma assert_matches_witness :
  In (Ev (assert_stream_equals
            (Grabber.streams (Grabber.sort {| Grabber.streams := histories 0 |}))
            (Grabber.streams (Grabber.sort {| Grabber.streams := histories 1 |})))
         None)
     (trace (assert_matches test_case (entry (opening (fun _ => true)))).1)
  /\ exists sender receiver others server a b verdict,
       _blenders test_case = sender :: receiver :: others
       /\ replays (opening (fun _ => true))
            (upload_grab_and_compare test_case sender receiver server a b
               verdict)
       /\ trace (assert_matches test_case (entry (opening (fun _ => true)))).1
          = events
              (upload_grab_and_compare test_case sender receiver server a b
                 verdict)
       /\ Grabber.streams (Grabber.sort {| Grabber.streams := histories 0 |})
          = Grabber.streams (Grabber.sort {| Grabber.streams := a |})
       /\ Grabber.streams (Grabber.sort {| Grabber.streams := histories 1 |})
          = Grabber.streams (Grabber.sort {| Grabber.streams := b |})
       /\ raised verdict = None
       /\ (assert_matches test_case (entry (opening (fun _ => true)))).2
          = verdict.
Proof.
  assert (In (Ev (assert_stream_equals
            (Grabber.streams (Grabber.sort {| Grabber.streams := histories 0 |}))
            (Grabber.streams (Grabber.sort {| Grabber.streams := histories 1 |})))
         None)
     (trace (assert_matches test_case (entry (opening (fun _ => true)))).1))
    as Hin by (vm_compute; do 15 right; left; reflexivity).
  split; [exact Hin|].
  exact (TestFacts.assert_matches_grabs_the_two_upload_rooms
           test_case (opening (fun _ => true)) _ _ _ Hin).
Defined.

(** C4 fails as stated: in a run of [assert_matches] that goes through,
    no instance joins a room named "grab_sender" or "grab_receiver" and no
    such room is grabbed; the rooms are "mixer_grab_sender" and
    "mixer_grab_receiver". *)
Lemma no_room_named_grab_sender :
  (assert_matches test_case (entry (opening (fun _ => true)))).2 = Return tt
  /\ deposited_then_grabbed "grab_sender"
       (trace (assert_matches test_case (entry (opening (fun _ => true)))).1)
     = false
  /\ deposited_then_grabbed "grab_receiver"
       (trace (assert_matches test_case (entry (opening (fun _ => true)))).1)
     = false
  /\ deposited_then_grabbed "mixer_grab_sender"
       (trace (assert_matches test_case (entry (opening (fun _ => true)))).1)
     = true
  /\ deposited_then_grabbed "mixer_grab_receiver"
       (trace (assert_matches test_case (entry (opening (fun _ => true)))).1)
     = true.
Proof. repeat split; reflexivity. Qed.

Lemma grab_error_witness :
  In (Ev (grab "localhost" 12800 "mixer_grab_receiver")
        (Some (Exn RuntimeError ["Grabber: no such room"; "mixer_grab_receiver"])))
     (trace (assert_matches test_case
               (entry (opening (fun r => String.eqb r "mixer_grab_sender")))).1)
  /\ isinstance (Exn RuntimeError ["Grabber: no such room"; "mixer_grab_receiver"])
       RuntimeError = true
  /\ (assert_matches test_case
        (entry (opening (fun r => String.eqb r "mixer_grab_sender")))).2
     = Raise (failureException ["Grabber: no such room"; "mixer_grab_receiver"]).
Proof.
  assert (In (Ev (grab "localhost" 12800 "mixer_grab_receiver")
        (Some (Exn RuntimeError ["Grabber: no such room"; "mixer_grab_receiver"])))
     (trace (assert_matches test_case
               (entry (opening (fun r => String.eqb r "mixer_grab_sender")))).1))
    as Hin.
  { vm_compute. do 13 right. left. reflexivity. }
  split; [exact Hin|]. split; [reflexivity|].
  destruct (TestFacts.grab_error_is_a_test_failure test_case
              (opening (fun r => String.eqb r "mixer_grab_sender"))
              "localhost" 12800 "mixer_grab_receiver"
              (Exn RuntimeError ["Grabber: no such room"; "mixer_grab_receiver"])
              Hin eq_refl) as (_ & srv & k & Hlast & Hk).
  vm_compute in Hlast. injection Hlast as _ <-. exact Hk.
Defined.

Lemma comparison_witness :
  In (Ev (assert_stream_equals
            (Grabber.streams (Grabber.sort {| Grabber.streams := histories 0 |}))
            (Grabber.streams (Grabber.sort {| Grabber.streams := histories 1 |})))
         None)
     (trace (assert_matches test_case (entry (opening (fun _ => true)))).1)
  /\ Grabber.same_commands (histories 0) (histories 1)
  /\ Grabber.sort {| Grabber.streams := histories 0 |}
     = Grabber.sort {| Grabber.streams := histories 1 |}.
Proof.
  split; [vm_compute; do 15 right; left; reflexivity|].
  split; [exact histories_same_commands|].
  apply (proj1 (proj2 (TestFacts.comparison_is_made_on_sorted_logs
                         test_case (opening (fun _ => true))))
           {| Grabber.streams := histories 0 |}
           {| Grabber.streams := histories 1 |}).
  exact histories_same_commands.
Defined.

End Rehearsal.

(** * More facts about cli.py *)

Module CliMoreFacts.
Import Cli CliTraces.

Section OneShot.
Context {T : Type} {Tr : ClientBase T}.

Lemma posted_app (t1 t2 : list event) : posted (t1 ++ t2) = posted t1 ++ posted t2.
Proof.
  induction t1 as [|e t1 IH]; simpl; [done|].
  destruct (ev_call e); simpl; by rewrite ?IH.
Qed.

Lemma raises_app (t1 t2 : list event) : raises (t1 ++ t2) = raises t1 ++ raises t2.
Proof. apply omap_app. Qed.

Lemma filter_all_false {X} (p q : X -> bool) (l : list X) :
  forallb p l = true -> (forall x, p x = true -> q x = false) ->
  List.filter q l = [].
Proof.
  intros Hp Hpq. induction l as [|x l IH]; simpl in *; [done|].
  apply andb_true_iff in Hp as [Hx Hl]. rewrite (Hpq x Hx). by apply IH.
Qed.

Lemma count_all_false {X} (p q : X -> bool) (l : list X) :
  forallb p l = true -> (forall x, p x = true -> q x = false) ->
  count q l = 0.
Proof. intros. unfold count. by rewrite (filter_all_false p q). Qed.

Lemma posts_post (c : Command) : posts (T := T) None [c] (post_command c).
Proof.
  intros s me Hc. rewrite (CliFacts.post_command_Some c s me Hc). simpl.
  eexists [_]. split; [reflexivity|]. split; [by eexists|]. split; [reflexivity|].
  destruct (Client_addCommand c (super me)) as [b [[]|e]]; simpl; [done|].
  left. split; [|done]. reflexivity.
Qed.

Lemma posts_for_each (ty : MessageType) (operation : string -> M (state T) unit)
    (names : list string) :
  (forall n, operation n
             = (do payload <- name_encode n;
                post_command (Command_new ty (Some payload)))) ->
  posts (encoding_error names) (map (mkCommand ty) (encodings names))
    (for_each names operation).
Proof.
  intros Hop. induction names as [|n names IH]; intros s me Hc.
  - exists []. simpl. rewrite app_nil_r. rewrite Hc. repeat split; eauto.
  - assert (for_each (n :: names) operation s
            = match encode n with
              | Return payload =>
                  (post_command (mkCommand ty payload) ;;
                   for_each names operation) s
              | Raise e => (s, Raise e)
              end) as ->.
    { simpl. rewrite Hop. unfold bind, name_encode.
      by destruct (encode n). }
    simpl encodings. simpl encoding_error.
    destruct (encode n) as [payload|x].
    2:{ exists []. simpl. rewrite app_nil_r, Hc. split; [done|].
        split; [by eexists|]. split; [done|]. right. done. }
    unfold bind.
    destruct (posts_post (mkCommand ty payload) s me Hc)
      as (t1 & Et1 & [me1 Hc1] & Ha1 & Hr1).
    destruct (post_command (mkCommand ty payload) s) as [s1 [[]|e]];
      simpl in *.
    + destruct Hr1 as (Hp1 & Hx1 & _).
      destruct (IH s1 me1 Hc1) as (t2 & Et2 & Hc2 & Ha2 & Hr2).
      exists (t1 ++ t2). rewrite Et2, Et1, app_assoc. split; [done|].
      split; [done|]. rewrite forallb_app, Ha1, Ha2. split; [done|].
      destruct (for_each names operation s1).2 as [?|e]; simpl in *.
      * destruct Hr2 as (Hp2 & Hx2 & Hn2).
        rewrite posted_app, raises_app, Hp1, Hp2, Hx1, Hx2. done.
      * destruct Hr2 as [[Hp2 Hx2]|(Hp2 & Hx2 & Hn2)].
        -- left. rewrite posted_app, raises_app, Hp1, Hx1, Hx2. split; [|done].
           by apply (prefix_app [mkCommand ty payload]).
        -- right. rewrite posted_app, raises_app, Hp1, Hp2, Hx1, Hx2. done.
    + destruct Hr1 as [[Hp1 Hx1]|(_ & _ & [=])].
      exists t1. rewrite Et1. split; [done|]. split; [by eexists|].
      split; [done|]. left. split; [|done].
      by apply (prefix_app_r _ [mkCommand ty payload]).
Qed.

Lemma encoding_error_is_no_ServerError (names : list string) (e : exn) :
  encoding_error names = Some e -> isinstance e ServerError = false.
Proof.
  induction names as [|n names IH]; simpl; [done|].
  destruct (encode n) as [payload|x] eqn:En; [exact IH|].
  intros [= <-]. apply EncodeFacts.encode_raises in En.
  unfold isinstance. by rewrite En.
Qed.

Lemma unencodable_is_no_ServerError (args : Namespace) (e : exn) :
  unencodable args = Some e -> isinstance e ServerError = false.
Proof.
  unfold unencodable.
  repeat match goal with
    | |- context [String.eqb (command args) ?c] =>
        destruct (String.eqb (command args) c)
    end; try done; apply encoding_error_is_no_ServerError.
Qed.

(** [client = CliClient(args); client.connect(); rest] entered with
    [client = None]. *)
Lemma session_block (pending : option exn) (args : Namespace)
    (rest : M (state T) unit) (cs : list Command) (s : state T) :
  posts pending cs rest ->
  exists t,
    trace ((client_assign_new args ;; connect ;; rest) s).1 = trace s ++ t
    /\ block_summary pending cs t
         ((client_assign_new args ;; connect ;; rest) s).2.
Proof.
  intros Hrest.
  unfold bind, client_assign_new, bind, CliClient_init, modify, connect.
  destruct (Client_init (host args) (port args)) as [b|e]; simpl.
  - set (me := {| super := b; terminate := false; consumer := at_while |}).
    erewrite CliFacts.super_call_Some by reflexivity. simpl.
    destruct (Client_connect b) as [b1 [[]|e]]; simpl.
    + edestruct (Hrest
          {| client := Some (set_super b1 me);
             trace := ((trace s ++ [Ev (Init (host args) (port args)) None])
                       ++ [Ev ThreadStart None]) ++ [Ev Connect None] |})
        as (t & Et & _ & Ha & Hr); [reflexivity|].
      exists ([Ev (Init (host args) (port args)) None; Ev ThreadStart None;
               Ev Connect None] ++ t).
      split; [rewrite Et; simpl; by rewrite <- !app_assoc|].
      unfold block_summary. rewrite !CliFacts.count_app, !List.filter_app.
      rewrite (count_all_false is_AddCommand is_ThreadStart t Ha)
        by (by intros [[] ?]).
      rewrite (count_all_false is_AddCommand is_Connect t Ha)
        by (by intros [[] ?]).
      rewrite (filter_all_false is_AddCommand is_Disconnect t Ha)
        by (by intros [[] ?]).
      rewrite (filter_all_false is_AddCommand is_LoggingError t Ha)
        by (by intros [[] ?]).
      repeat split; try done; unfold count; simpl; try lia.
    + eexists [_; _; _]. split; [by rewrite <- !app_assoc|].
      unfold block_summary, count. simpl. repeat split; try done; try lia.
      left. split; [apply prefix_nil|done].
  - eexists [_]. split; [done|].
    unfold block_summary, count. simpl. repeat split; try done; try lia.
    left. split; [apply prefix_nil|done].
Qed.

Lemma room_command_block (args : Namespace) (s : state T) :
  exists t,
    trace (room_command args s).1 = trace s ++ t
    /\ block_summary (unencodable args) (requested args) t
         (room_command args s).2.
Proof.
  unfold room_command, requested, unencodable, batch.
  destruct (String.eqb (command args) "list");
    [apply session_block, (posts_post (mkCommand LIST_ROOMS []))|].
  repeat match goal with
    | |- context [String.eqb (command args) ?c] =>
        destruct (String.eqb (command args) c)
    end;
    try (destruct (name args) as [|n names]; simpl negb; cbv iota;
         [ eexists [_]; split; [reflexivity|];
           unfold block_summary, count; simpl; repeat split; try done; lia
         | apply session_block; by apply posts_for_each ]).
  exists []. rewrite app_nil_r. split; [done|].
  unfold block_summary, count. simpl. repeat split; try done; lia.
Qed.

Lemma client_command_block (args : Namespace) (s : state T) :
  exists t,
    trace (client_command args s).1 = trace s ++ t
    /\ block_summary None
         (if String.eqb (command args) "list" then [mkCommand LIST_CLIENTS []]
          else [])
         t (client_command args s).2.
Proof.
  unfold client_command.
  destruct (String.eqb (command args) "list").
  - apply session_block, (posts_post (mkCommand LIST_CLIENTS [])).
  - exists []. rewrite app_nil_r. split; [done|].
    unfold block_summary, count. simpl. repeat split; try done; lia.
Qed.

(** The frame [try ... except ServerError ... finally] around a block. *)
Lemma frame_summary (body : M (state T) unit) (pending : option exn)
    (cs : list Command) :
  (forall e, pending = Some e -> isinstance e ServerError = false) ->
  (forall s, exists t,
      trace (body s).1 = trace s ++ t
      /\ block_summary pending cs t (body s).2) ->
  forall s s' r,
    (modify (set_client None) ;;
     try_finally
       (try_except body (fun e => isinstance e ServerError)
          (fun e => log (LoggingError e) None))
       disconnect_if_client) s = (s', r) ->
    exists t,
      trace s' = trace s ++ t
      /\ swallows_only_ServerError pending t r
      /\ one_session_at_most cs t.
Proof.
  intros Hpending Hbody s s' r'.
  unfold bind at 1. unfold modify at 1. cbv beta iota.
  unfold try_finally, try_except.
  destruct (Hbody (set_client None s)) as (t & Et & H1 & H2 & H3 & H4 & Hr).
  destruct (body (set_client None s)) as [s1 r]. simpl in Et, Hr.
  assert (forall s2 : state T,
             exists td,
               (disconnect_if_client s2).2 = Return tt
               /\ trace (disconnect_if_client s2).1 = trace s2 ++ td
               /\ (td = [] \/ td = [Ev Disconnect None])) as Hfin.
  { intros s2. destruct (client s2) as [me|] eqn:Hc.
    - rewrite (CliFacts.disconnect_if_client_Some s2 me Hc). eexists. eauto.
    - rewrite (CliFacts.disconnect_if_client_None s2 Hc). exists [].
      rewrite app_nil_r. eauto. }
  assert (forall td, td = [] \/ td = [Ev Disconnect None] ->
            posted td = [] /\ raises td = [] /\ count is_ThreadStart td = 0
            /\ count is_Connect td = 0 /\ count is_Disconnect td <= 1
            /\ List.filter is_LoggingError td = []) as Htd.
  { intros td [->| ->]; unfold count; simpl; repeat split; lia. }
  destruct r as [[]|e]; simpl in Hr.
  - destruct (Hfin s1) as (td & Er & Etd & Hd).
    destruct (disconnect_if_client s1) as [s2 r2]. simpl in *. subst r2.
    intros [= <- <-].
    destruct (Htd td Hd) as (P & X & C1 & C2 & C3 & L).
    destruct Hr as (Hp & Hx & ->).
    exists (t ++ td). rewrite Etd, Et, app_assoc. split; [done|].
    unfold swallows_only_ServerError, one_session_at_most.
    rewrite raises_app, Hx, X, posted_app, Hp, P, app_nil_r.
    rewrite List.filter_app, H4, L, !CliFacts.count_app, C1, C2.
    unfold count at 3. rewrite H3. simpl. rewrite ?app_nil_r.
    repeat split; try done; lia.
  - destruct Hr as [[Hp Hx]|(Hp & Hx & ->)].
    + destruct (isinstance e ServerError) eqn:He.
      * unfold log, modify. cbv beta iota.
        destruct (Hfin (add_event (Ev (LoggingError e) None) s1))
          as (td & Er & Etd & Hd).
        destruct (disconnect_if_client _) as [s2 r2]. simpl in *. subst r2.
        intros [= <- <-].
        destruct (Htd td Hd) as (P & X & C1 & C2 & C3 & L).
        exists (t ++ [Ev (LoggingError e) None] ++ td).
        rewrite Etd, Et, <- !app_assoc. split; [done|].
        unfold swallows_only_ServerError, one_session_at_most.
        change ([Ev (LoggingError e) None] ++ td)
          with (Ev (LoggingError e) None :: td).
        replace (t ++ Ev (LoggingError e) None :: td)
          with ((t ++ [Ev (LoggingError e) None]) ++ td)
          by (by rewrite <- app_assoc).
        rewrite !raises_app, Hx, X, !posted_app, P, !List.filter_app, H4, L,
          !CliFacts.count_app, C1, C2.
        unfold count in *. rewrite H3. simpl. rewrite He, ?app_nil_r.
        repeat split; try done; lia.
      * destruct (Hfin s1) as (td & Er & Etd & Hd).
        destruct (disconnect_if_client s1) as [s2 r2]. simpl in *. subst r2.
        intros [= <- <-].
        destruct (Htd td Hd) as (P & X & C1 & C2 & C3 & L).
        exists (t ++ td). rewrite Etd, Et, app_assoc. split; [done|].
        unfold swallows_only_ServerError, one_session_at_most.
        rewrite raises_app, Hx, X, posted_app, P, app_nil_r. simpl.
        rewrite He, List.filter_app, H4, L, !CliFacts.count_app, C1, C2.
        unfold count at 3. rewrite H3. simpl. rewrite ?app_nil_r.
        repeat split; try done; lia.
    + rewrite (Hpending e eq_refl).
      destruct (Hfin s1) as (td & Er & Etd & Hd).
      destruct (disconnect_if_client s1) as [s2 r2]. simpl in *. subst r2.
      intros [= <- <-].
      destruct (Htd td Hd) as (P & X & C1 & C2 & C3 & L).
      exists (t ++ td). rewrite Etd, Et, app_assoc. split; [done|].
      unfold swallows_only_ServerError, one_session_at_most.
      rewrite raises_app, Hx, X, posted_app, Hp, P, app_nil_r. simpl.
      rewrite List.filter_app, H4, L, !CliFacts.count_app, C1, C2.
      unfold count at 3. rewrite H3. simpl. rewrite ?app_nil_r.
      repeat split; try done; lia.
Qed.

(** When every name can be encoded, the commands requested are one per
    name, and nothing is pending. *)
Lemma encodings_all (names : list string) (payloads : list bytes) :
  Forall2 (fun n payload => encode n = Return payload) names payloads ->
  encodings names = payloads /\ encoding_error names = None.
Proof.
  induction 1 as [|n payload names payloads Hn _ [IH1 IH2]]; [done|].
  simpl. rewrite Hn, IH1, IH2. done.
Qed.

(** X1.  A one-shot command that is none of those handled does nothing:
    [process_room_command] with a command other than list, delete, clear
    and clients, and [process_client_command] with a command other than
    list (such as the [disconnect] that the client parser accepts at
    l.236), construct no client, make no call and return. *)
Theorem other_commands_do_nothing (args : Namespace) (s : state T) :
  (~ In (command args) ["list"; "delete"; "clear"; "clients"] ->
   process_room_command args s
   = ({| client := None; trace := trace s |}, Return tt))
  /\ (command args <> "list" ->
      process_client_command args s
      = ({| client := None; trace := trace s |}, Return tt)).
Proof.
  split; intros Hn.
  - unfold process_room_command, room_command.
    repeat match goal with
      | |- context [String.eqb (command args) ?c] =>
          destruct (String.eqb_spec (command args) c) as [E|_];
            [exfalso; apply Hn; rewrite E; simpl; tauto|]
      end.
    reflexivity.
  - unfold process_client_command, client_command.
    destruct (String.eqb_spec (command args) "list") as [E|_]; [done|].
    reflexivity.
Qed.

(** X2.  In every run of [process_room_command] and of
    [process_client_command], whatever the transport does, at most one call
    raises.  If it raised a [ServerError], the error is logged once and the
    function returns; if it raised anything else, nothing is logged and
    that exception leaves the function; if no call raised, nothing is
    logged, and the function returns unless a name of a batch command
    cannot be encoded: then the [UnicodeEncodeError] of the first such
    name leaves the function. *)
Theorem only_ServerError_is_swallowed (args : Namespace) (s : state T) :
  (exists t,
     trace (process_room_command args s).1 = trace s ++ t
     /\ swallows_only_ServerError (unencodable args) t
          (process_room_command args s).2)
  /\ (exists t,
        trace (process_client_command args s).1 = trace s ++ t
        /\ swallows_only_ServerError None t
             (process_client_command args s).2)
  /\ (forall e, unencodable args = Some e ->
        exn_type e = UnicodeEncodeError
        /\ exists n, In n (name args) /\ encode n = Raise e).
Proof.
  split; [|split].
  - destruct (process_room_command args s) as [s' r] eqn:E.
    destruct (frame_summary _ _ _ (unencodable_is_no_ServerError args)
                (room_command_block args) s s' r E)
      as (t & ? & ? & _).
    by exists t.
  - destruct (process_client_command args s) as [s' r] eqn:E.
    destruct (frame_summary _ None _ ltac:(done)
                (client_command_block args) s s' r E)
      as (t & ? & ? & _).
    by exists t.
  - intros e. unfold unencodable.
    assert (encoding_error (name args) = Some e ->
            exn_type e = UnicodeEncodeError
            /\ exists n, In n (name args) /\ encode n = Raise e) as Hnames.
    { generalize (name args). intros names.
      induction names as [|n names IH]; simpl; [done|].
      destruct (encode n) as [payload|x] eqn:En.
      - intros He. destruct (IH He) as (? & n' & ? & ?). eauto.
      - intros [= <-]. split; [by apply EncodeFacts.encode_raises in En|].
        eauto. }
    repeat match goal with
      | |- context [String.eqb (command args) ?c] =>
          destruct (String.eqb (command args) c)
      end; try done.
Qed.

(** X3.  Every run of [process_room_command], failing or not, is one
    session at most: it constructs at most one client, calls [connect] at
    most once and [disconnect] at most once, and the commands it hands to
    [addCommand] are a prefix of the commands requested: one per name, in
    order, up to the first name that cannot be encoded.  It stops at the
    first call that raises, or at that name, and skips nothing before.
    If no call raised, all requested commands were handed over; and when
    every name of a batch command can be encoded, the commands requested
    are one per name. *)
Theorem one_shot_is_one_session_at_most (args : Namespace) (s : state T) :
  (exists t,
     trace (process_room_command args s).1 = trace s ++ t
     /\ one_session_at_most (requested args) t)
  /\ (forall ty payloads,
        In (command args, ty)
           [("delete", DELETE_ROOM); ("clear", CLEAR_ROOM);
            ("clients", LIST_ROOM_CLIENTS)] ->
        Forall2 (fun n payload => encode n = Return payload)
          (name args) payloads ->
        requested args = map (mkCommand ty) payloads).
Proof.
  split.
  - destruct (process_room_command args s) as [s' r] eqn:E.
    destruct (frame_summary _ _ _ (unencodable_is_no_ServerError args)
                (room_command_block args) s s' r E)
      as (t & ? & _ & ?).
    by exists t.
  - intros ty payloads Hin Henc. apply encodings_all in Henc as [Henc _].
    unfold requested. simpl in Hin.
    destruct Hin as [[= Hc <-]|[[= Hc <-]|[[= Hc <-]|[]]]];
      rewrite <- Hc; simpl; by rewrite Henc.
Qed.

End OneShot.
End CliMoreFacts.

(** * Facts about the interactive shell *)

Module ShellFacts.
Import Cli CliTraces.

Section Keeps.
Context {T : Type} {Tr : ClientBase T}.
Variable I : option (CliClient T) -> Prop.
Variable allowed : event -> bool.

Lemma keeps_ret {A} (a : A) : keeps I allowed (ret a).
Proof. intros s Hs. split; [done|]. exists []. by rewrite app_nil_r. Qed.

Lemma keeps_raise {A} (e : exn) : keeps I allowed (raise (A := A) e).
Proof. intros s Hs. split; [done|]. exists []. by rewrite app_nil_r. Qed.

Lemma keeps_name_encode (name : string) : keeps I allowed (name_encode name).
Proof. intros s Hs. split; [done|]. exists []. by rewrite app_nil_r. Qed.

Lemma keeps_bind {A B} (m : M (state T) A) (k : A -> M (state T) B) :
  keeps I allowed m -> (forall a, keeps I allowed (k a)) ->
  keeps I allowed (bind m k).
Proof.
  intros Hm Hk s Hs. unfold bind.
  destruct (Hm s Hs) as (H1 & t1 & E1 & A1).
  destruct (m s) as [s1 [a|e]]; simpl in *.
  - destruct (Hk a s1 H1) as (H2 & t2 & E2 & A2).
    split; [done|]. exists (t1 ++ t2).
    by rewrite E2, E1, app_assoc, forallb_app, A1, A2.
  - split; [done|]. by exists t1.
Qed.

Lemma keeps_try_except {A} (body : M (state T) A) (catches : exn -> bool)
    (handler : exn -> M (state T) A) :
  keeps I allowed body -> (forall e, keeps I allowed (handler e)) ->
  keeps I allowed (try_except body catches handler).
Proof.
  intros Hm Hk s Hs. unfold try_except.
  destruct (Hm s Hs) as (H1 & t1 & E1 & A1).
  destruct (body s) as [s1 [a|e]]; simpl in *.
  - split; [done|]. by exists t1.
  - destruct (catches e).
    + destruct (Hk e s1 H1) as (H2 & t2 & E2 & A2).
      split; [done|]. exists (t1 ++ t2).
      by rewrite E2, E1, app_assoc, forallb_app, A1, A2.
    + split; [done|]. by exists t1.
Qed.

Lemma keeps_for_each {X} (xs : list X) (body : X -> M (state T) unit) :
  (forall x, keeps I allowed (body x)) -> keeps I allowed (for_each xs body).
Proof.
  intros Hb. induction xs as [|x xs IH]; simpl.
  - apply keeps_ret.
  - apply keeps_bind; [apply Hb|]. intros _. apply IH.
Qed.

Lemma keeps_log (c : call) (r : option exn) :
  allowed (Ev c r) = true -> keeps I allowed (log c r).
Proof.
  intros Hc s Hs. split; [done|]. exists [Ev c r]. split; [done|].
  simpl. by rewrite Hc.
Qed.

Lemma keeps_index0 (l : list string) : keeps I allowed (index0 l).
Proof. destruct l; [apply keeps_raise|apply keeps_ret]. Qed.

(** [l[0]] when the list is known not to be empty. *)
Lemma keeps_bind_index0 {B} (l : list string) (w : string) (rest : list string)
    (k : string -> M (state T) B) :
  l = w :: rest -> keeps I allowed (k w) -> keeps I allowed (bind (index0 l) k).
Proof. intros -> Hk s Hs. exact (Hk s Hs). Qed.

Lemma keeps_none_or_not_connected : keeps I allowed none_or_not_connected.
Proof.
  intros s Hs. unfold none_or_not_connected, bind, get.
  destruct (client s) eqn:Hc; simpl; (split; [by rewrite ?Hc|]);
    exists []; by rewrite app_nil_r.
Qed.

Hypothesis allowed_Print : forall text newline, allowed (Ev (Print text newline) None) = true.

Lemma keeps_print (text : list piece) : keeps I allowed (print text).
Proof. by apply keeps_log. Qed.

Lemma keeps_help : keeps I allowed help.
Proof.
  unfold help. apply keeps_bind; [apply keeps_print|]. intros _.
  apply keeps_bind; [|intros _; apply keeps_print].
  apply keeps_for_each. intros c. apply keeps_print.
Qed.

Hypothesis I_None : I None.
Hypothesis I_new :
  forall b, I (Some {| super := b; terminate := false; consumer := at_while |}).
Hypothesis allowed_construction :
  forall e, is_construction e = true -> allowed e = true.

Lemma keeps_client_assign_new (args : Namespace) :
  keeps I allowed (client_assign_new args).
Proof.
  intros s Hs. unfold client_assign_new, bind, CliClient_init, modify.
  destruct (Client_init (host args) (port args)) as [b|e]; simpl.
  - split; [apply I_new|]. eexists [_; _]. split; [by rewrite <- app_assoc|].
    simpl. by rewrite !allowed_construction.
  - split; [done|]. eexists [_]. split; [done|].
    simpl. by rewrite allowed_construction.
Qed.

Hypothesis I_super : forall me b, I (Some me) -> I (Some (set_super b me)).
Hypothesis allowed_but_Connect : forall e, is_Connect e = false -> allowed e = true.

Lemma keeps_super_call {A} (attr : string) (c : call) (f : T -> T * outcome A) :
  (forall r, is_Connect (Ev c r) = false) ->
  keeps I allowed (super_call attr c f).
Proof.
  intros Hc s Hs. destruct (client s) as [me|] eqn:Hme.
  - rewrite (CliFacts.super_call_Some attr c f s me Hme). simpl.
    split; [by apply I_super|]. exists [Ev c (raised (f (super me)).2)].
    split; [done|]. simpl. by rewrite allowed_but_Connect.
  - rewrite (CliFacts.super_call_None attr c f s Hme). simpl.
    split; [by rewrite Hme|]. exists []. by rewrite app_nil_r.
Qed.

(** Every branch of the dispatch but the one of [exit]. *)
Lemma keeps_dispatch (args : Namespace) (command : string)
    (command_args : list string) :
  command <> "exit" ->
  keeps I allowed (dispatch args command command_args).
Proof.
  intros Hexit. unfold dispatch.
  destruct (String.eqb command "connect").
  { apply keeps_bind; [apply keeps_none_or_not_connected|]. intros nc.
    apply keeps_bind; [|intros _; apply keeps_ret].
    destruct nc; [apply keeps_client_assign_new|apply keeps_print]. }
  destruct (String.eqb_spec command "exit"); [done|].
  destruct (String.eqb command "help").
  { apply keeps_bind; [apply keeps_help|intros _; apply keeps_ret]. }
  apply keeps_bind; [apply keeps_none_or_not_connected|]. intros nc.
  apply keeps_bind; [destruct nc; [apply keeps_raise|apply keeps_ret]|].
  intros _. apply keeps_bind; [|intros _; apply keeps_ret].
  unfold listRooms, listRoomClients, listClients, listAllClients, post_command,
    addCommand, joinRoom, leaveRoom, setClientName, disconnect.
  repeat match goal with
    | |- keeps _ _ (if ?b then _ else _) => destruct b
    end;
    try (apply keeps_bind; [apply keeps_index0|intros ?]);
    try (apply keeps_bind; [apply keeps_name_encode|intros ?]);
    try (by apply keeps_super_call);
    try apply keeps_ret.
  apply keeps_bind; [by apply keeps_super_call|]. intros _.
  intros s Hs. split; [exact I_None|]. exists []. by rewrite app_nil_r.
Qed.

(** One line of input. *)
Lemma keeps_iteration (args : Namespace) (user_input : string) :
  keeps I allowed (interactive_iteration args user_input).
Proof.
  unfold interactive_iteration.
  apply keeps_try_except;
    [|intros e; apply keeps_bind; [apply keeps_print|intros _; apply keeps_ret]].
  apply keeps_bind; [by apply keeps_log|]. intros _.
  destruct (split user_input) as [|input_command command_args];
    [apply keeps_ret|].
  remember (List.filter (fun c => String.prefix input_command c) commands)
    as candidates eqn:Hcand.
  destruct candidates as [|c [|c2 rest]].
  - apply keeps_bind; [apply keeps_print|]. intros _.
    apply keeps_bind; [apply keeps_help|intros _; apply keeps_ret].
  - assert (In c commands) as Hin.
    { apply (List.filter_In (fun c => String.prefix input_command c)).
      rewrite <- Hcand. by left. }
    clear Hcand. simpl in Hin.
    destruct Hin as [<-|[<-|[<-|[<-|[<-|[<-|[<-|[<-|[<-|[<-|[]]]]]]]]]]];
      (eapply keeps_bind_index0; [reflexivity|]);
      (apply keeps_bind;
       [destruct (negb _); [apply keeps_print|apply keeps_ret]|]);
      intros _; by apply keeps_dispatch.
  - apply keeps_bind; [apply keeps_print|intros _; apply keeps_ret].
Qed.

End Keeps.

Section Shell.
Context {T : Type} {Tr : ClientBase T}.

Lemma returns_false_bind {A} (m : M (state T) A) (k : A -> M (state T) bool) :
  (forall a, returns_false (k a)) -> returns_false (bind m k).
Proof.
  intros Hk s b. unfold bind. destruct (m s) as [s1 [a|e]]; simpl; [|done].
  apply Hk.
Qed.

Lemma returns_false_bind_index0 (l : list string) (w : string)
    (rest : list string) (k : string -> M (state T) bool) :
  l = w :: rest -> returns_false (k w) -> returns_false (bind (index0 l) k).
Proof. intros -> Hk s b. apply Hk. Qed.

Lemma returns_false_ret : returns_false (T := T) (ret false).
Proof. intros s b [= <-]. done. Qed.

Lemma returns_false_dispatch (args : Namespace) (command : string)
    (command_args : list string) :
  command <> "exit" -> returns_false (dispatch args command command_args).
Proof.
  intros Hexit. unfold dispatch.
  destruct (String.eqb command "connect").
  { apply returns_false_bind. intros nc. apply returns_false_bind. intros _.
    apply returns_false_ret. }
  destruct (String.eqb_spec command "exit"); [done|].
  destruct (String.eqb command "help").
  { apply returns_false_bind. intros _. apply returns_false_ret. }
  do 3 (apply returns_false_bind; intros ?). apply returns_false_ret.
Qed.

Lemma iteration_result (args : Namespace) (user_input : string) (s : state T) :
  (interactive_iteration args user_input s).2 = Return false
  \/ exists e, (interactive_iteration args user_input s).2 = Raise e
               /\ is_Exception e = false.
Proof.
  unfold interactive_iteration.
  match goal with |- context [try_except ?b _ _] => set (body := b) end.
  assert (returns_false body) as Hbody.
  { subst body. apply returns_false_bind. intros _.
    destruct (split user_input) as [|input_command command_args];
      [apply returns_false_ret|].
    remember (List.filter (fun c => String.prefix input_command c) commands)
      as candidates eqn:Hcand.
    destruct candidates as [|c [|c2 rest]].
    - do 2 (apply returns_false_bind; intros ?). apply returns_false_ret.
    - assert (In c commands) as Hin.
      { apply (List.filter_In (fun c => String.prefix input_command c)).
        rewrite <- Hcand. by left. }
      clear Hcand. simpl in Hin.
      destruct Hin as [<-|[<-|[<-|[<-|[<-|[<-|[<-|[<-|[<-|[<-|[]]]]]]]]]]];
        (eapply returns_false_bind_index0; [reflexivity|]);
        apply returns_false_bind; intros _; by apply returns_false_dispatch.
    - apply returns_false_bind; intros ?. apply returns_false_ret. }
  unfold try_except. specialize (Hbody s).
  destruct (body s) as [s1 [b|e]]; simpl in *.
  - left. by rewrite (Hbody b eq_refl).
  - destruct (is_Exception e) eqn:He; [by left|].
    right. by exists e.
Qed.

(** X4.  The shell cannot be left by typing a command.  Whatever the
    line and whatever the transport does, the body of the loop leaves
    [done] false (or is left by an exception that is not an [Exception],
    such as [KeyboardInterrupt]); and it never sets [terminate]: a client
    whose flag is not set before the line, or the one constructed by the
    line, has it not set after.  (The entry for [exit] is fused with the
    one for [help] at l.146-147, so no line resolves to [exit].) *)
Theorem shell_is_never_left_by_a_command
    (args : Namespace) (user_input : string) (s : state T) :
  ((interactive_iteration args user_input s).2 = Return false
   \/ exists e, (interactive_iteration args user_input s).2 = Raise e
                /\ is_Exception e = false)
  /\ (not_told_to_stop (client s) ->
      not_told_to_stop (client (interactive_iteration args user_input s).1)).
Proof.
  split; [apply iteration_result|]. intros Hs.
  apply (keeps_iteration not_told_to_stop (fun _ => true)); try done.
  - by intros b me' [= <-].
  - intros me b Hme me' Heq. injection Heq as Heq. subst me'. simpl.
    by apply Hme.
Qed.

(** X5.  The shell never calls [connect]: whatever the line, no call of
    [connect] is added to the trace.  The only [connect] of the
    interactive loop is the one of l.160; the [connect] command of the
    shell (l.184-188) constructs a new client and leaves it at that. *)
Theorem shell_never_connects
    (args : Namespace) (user_input : string) (s : state T) :
  exists t,
    trace (interactive_iteration args user_input s).1 = trace s ++ t
    /\ existsb is_Connect t = false.
Proof.
  destruct (keeps_iteration (fun _ => True) (fun e => negb (is_Connect e))
              ltac:(done) ltac:(done) ltac:(done) ltac:(by intros [[] ?])
              ltac:(done) ltac:(by intros e; simpl; intros ->)
              args user_input s I)
    as (_ & t & Et & Ht).
  exists t. split; [done|].
  clear Et. induction t as [|e t IH]; simpl in *; [done|].
  apply andb_true_iff in Ht as [He Ht]. apply negb_true_iff in He.
  rewrite He. by apply IH.
Qed.

Lemma quiet_keeps {A} (P : option (CliClient T) -> Prop) (m : M (state T) A) :
  keeps P is_quiet m -> quiet_when P m.
Proof. intros Hm s Hs. by destruct (Hm s Hs) as [_ ?]. Qed.

Lemma quiet_bind {A B} (P : option (CliClient T) -> Prop)
    (m : M (state T) A) (k : A -> M (state T) B) :
  keeps P is_quiet m -> (forall a, quiet_when P (k a)) ->
  quiet_when P (bind m k).
Proof.
  intros Hm Hk s Hs. unfold bind.
  destruct (Hm s Hs) as (H1 & t1 & E1 & A1).
  destruct (m s) as [s1 [a|e]]; simpl in *.
  - destruct (Hk a s1 H1) as (t2 & E2 & A2).
    exists (t1 ++ t2). by rewrite E2, E1, app_assoc, forallb_app, A1, A2.
  - by exists t1.
Qed.

Lemma quiet_bind_index0 {B} (P : option (CliClient T) -> Prop)
    (l : list string) (w : string) (rest : list string)
    (k : string -> M (state T) B) :
  l = w :: rest -> quiet_when P (k w) -> quiet_when P (bind (index0 l) k).
Proof. intros -> Hk s Hs. exact (Hk s Hs). Qed.

Lemma quiet_anyway {A} (P : option (CliClient T) -> Prop) (m : M (state T) A) :
  keeps (fun _ => True) is_quiet m -> quiet_when P m.
Proof. intros Hm s _. by destruct (Hm s I) as [_ ?]. Qed.

(** The guard of l.195-196: entered without a connected client, the last
    branch of the dispatch raises before it calls anything. *)
Lemma quiet_dispatch (args : Namespace) (command : string)
    (command_args : list string) :
  command <> "exit" ->
  quiet_when not_connected (dispatch args command command_args).
Proof.
  intros Hexit. unfold dispatch.
  destruct (String.eqb command "connect").
  { apply quiet_anyway.
    apply keeps_bind; [apply keeps_none_or_not_connected|]. intros nc.
    apply keeps_bind; [|intros _; apply keeps_ret].
    destruct nc; [|by apply keeps_print].
    apply keeps_client_assign_new; [done|].
    intros e He. unfold is_quiet. by rewrite He, orb_true_r. }
  destruct (String.eqb_spec command "exit"); [done|].
  destruct (String.eqb command "help").
  { apply quiet_anyway.
    apply keeps_bind; [by apply keeps_help|intros _; apply keeps_ret]. }
  intros s Hs. exists []. rewrite app_nil_r. split; [|done].
  assert (none_or_not_connected s = (s, Return true)) as E.
  { unfold none_or_not_connected, get, bind, not_connected, ret in *.
    destruct (client s) as [me|]; [by rewrite Hs|done]. }
  unfold bind at 1. rewrite E. unfold bind at 1. reflexivity.
Qed.

(** X6.  Without a connected client the shell asks nothing of the
    server: if [client] is [None] or not connected when a line is read,
    then whatever the line, all that is added to the trace is printing
    and, for the [connect] command, the construction of a client; no
    command is posted and no room call, [connect] or [disconnect] reaches
    the transport. *)
Theorem shell_asks_nothing_without_connection
    (args : Namespace) (user_input : string) (s : state T) :
  not_connected (client s) ->
  exists t,
    trace (interactive_iteration args user_input s).1 = trace s ++ t
    /\ forallb is_quiet t = true.
Proof.
  revert s. change (quiet_when not_connected (interactive_iteration args user_input)).
  unfold interactive_iteration.
  match goal with |- context [try_except ?b _ _] => set (body := b) end.
  assert (quiet_when not_connected body) as Hbody.
  { subst body. apply quiet_bind; [by apply keeps_log|]. intros _.
    destruct (split user_input) as [|input_command command_args];
      [apply quiet_anyway, keeps_ret|].
    remember (List.filter (fun c => String.prefix input_command c) commands)
      as candidates eqn:Hcand.
    destruct candidates as [|c [|c2 rest]].
    - apply quiet_anyway.
      apply keeps_bind; [by apply keeps_print|]. intros _.
      apply keeps_bind; [by apply keeps_help|intros _; apply keeps_ret].
    - assert (In c commands) as Hin.
      { apply (List.filter_In (fun c => String.prefix input_command c)).
        rewrite <- Hcand. by left. }
      clear Hcand. simpl in Hin.
      destruct Hin as [<-|[<-|[<-|[<-|[<-|[<-|[<-|[<-|[<-|[<-|[]]]]]]]]]]];
        (eapply quiet_bind_index0; [reflexivity|]);
        (apply quiet_bind;
         [destruct (negb _); [by apply keeps_print|apply keeps_ret]|]);
        intros _; by apply quiet_dispatch.
    - apply quiet_anyway.
      apply keeps_bind; [by apply keeps_print|intros _; apply keeps_ret]. }
  intros s Hs. unfold try_except.
  destruct (Hbody s Hs) as (t & Et & Ht).
  destruct (body s) as [s1 [b|e]]; simpl in *; [by exists t|].
  destruct (is_Exception e); [|by exists t].
  exists (t ++ [Ev (Print [Text "Exception: "; StrExn e] true) None]).
  unfold bind, print, log, modify, add_event. simpl.
  by rewrite Et, forallb_app, Ht, app_assoc.
Qed.

End Shell.
End ShellFacts.

(** * More facts about the consumer *)

Module ConsumerFacts.
Import Cli CliTraces.

Section Consumer.
Context {T : Type} {Tr : ClientBase T}.

Lemma loss_at_end_app (b : bool) (t1 t2 : list event) :
  loss_at_end b (t1 ++ t2) = loss_at_end (loss_at_end b t1) t2.
Proof.
  unfold loss_at_end. destruct t2 as [|e t2].
  - rewrite app_nil_r. simpl. by destruct (last t1).
  - rewrite last_app. simpl. by destruct (last (e :: t2)).
Qed.

Lemma disconnects_follow_loss_app (b : bool) (t1 t2 : list event) :
  disconnects_follow_loss b (t1 ++ t2)
  = disconnects_follow_loss b t1
    && disconnects_follow_loss (loss_at_end b t1) t2.
Proof.
  revert b. induction t1 as [|e t1 IH]; intros b; simpl.
  - done.
  - rewrite IH, andb_assoc. do 2 f_equal.
    unfold loss_at_end. destruct t1 as [|x t1']; [done|].
    rewrite last_cons_cons.
    destruct (last (x :: t1')) eqn:E; [done|]. by apply last_None in E.
Qed.

(** One step: the calls are those of [consume]; a [disconnect] is made
    only with [CONNECTION_LOST] in hand; what is received is printed; a
    poll that found nothing is followed by a sleep of 0.1 s. *)
Lemma act_step (a : action) (me : CliClient T) :
  forallb is_consumer_call (act a me).2 = true
  /\ disconnects_follow_loss (loss_in_hand (consumer me)) (act a me).2 = true
  /\ loss_at_end (loss_in_hand (consumer me)) (act a me).2
     = loss_in_hand (consumer (act a me).1)
  /\ in_hand (consumer me) ++ received (act a me).2
     = printed (act a me).2 ++ in_hand (consumer (act a me).1)
  /\ count is_ConsumeOne_None (act a me).2 + about_to_sleep (consumer me)
     = count is_Sleep (act a me).2 + about_to_sleep (consumer (act a me).1)
  /\ forallb sleeps_a_tenth (act a me).2 = true.
Proof.
  destruct a as [| |f]; simpl;
    [|unfold loss_at_end, count, received, printed; simpl;
      rewrite ?app_nil_r; by repeat split..].
  unfold consume_step.
  destruct (consumer me) as [| | |c|c| |] eqn:Epc; simpl;
    [destruct (terminate me)
    |destruct (Client_consume_one (super me)) as [b [c|]]
    |
    |destruct (MessageType_eqb (type c) CONNECTION_LOST) eqn:E
    | | |];
    unfold loss_at_end, count, received, printed; simpl;
    rewrite ?Epc, ?E; simpl; rewrite ?app_nil_r; by repeat split.
Qed.

Lemma run_steps (schedule : list action) :
  forall me : CliClient T,
    forallb is_consumer_call (run schedule me).2 = true
    /\ disconnects_follow_loss (loss_in_hand (consumer me)) (run schedule me).2 = true
    /\ loss_at_end (loss_in_hand (consumer me)) (run schedule me).2
       = loss_in_hand (consumer (run schedule me).1)
    /\ in_hand (consumer me) ++ received (run schedule me).2
       = printed (run schedule me).2 ++ in_hand (consumer (run schedule me).1)
    /\ count is_ConsumeOne_None (run schedule me).2 + about_to_sleep (consumer me)
       = count is_Sleep (run schedule me).2
         + about_to_sleep (consumer (run schedule me).1)
    /\ forallb sleeps_a_tenth (run schedule me).2 = true.
Proof.
  induction schedule as [|a schedule IH]; intros me.
  - simpl. rewrite app_nil_r. by repeat split.
  - rewrite CliFacts.run_cons. simpl.
    destruct (act_step a me) as (A1 & D1 & L1 & P1 & S1 & Q1).
    destruct (IH (act a me).1) as (A2 & D2 & L2 & P2 & S2 & Q2).
    rewrite !forallb_app, A1, A2, Q1, Q2, disconnects_follow_loss_app, D1.
    rewrite loss_at_end_app, L1, D2, L2.
    unfold received, printed in *. rewrite !omap_app, !CliFacts.count_app.
    repeat split; try done.
    + by rewrite app_assoc, P1, <- app_assoc, P2, app_assoc.
    + lia.
Qed.

(** X7.  In every schedule, the consumer only calls [consume_one],
    [time.sleep], [print] and [disconnect]; and it calls [disconnect] only
    right after a [consume_one] that returned [CONNECTION_LOST] (for a
    consumer observed from the middle of a round: only with that command
    in hand).  It never disconnects on any other command, and never posts
    or connects. *)
Theorem consumer_disconnects_only_on_connection_lost
    (me : CliClient T) (schedule : list action) :
  forallb is_consumer_call (run schedule me).2 = true
  /\ disconnects_follow_loss (loss_in_hand (consumer me)) (run schedule me).2
     = true.
Proof. destruct (run_steps schedule me) as (? & ? & _). done. Qed.

(** X8.  The consumer prints every command it receives, in the order of
    reception and once: at any point of any schedule, the commands
    received so far (after the one in hand at the start, if any) are the
    commands printed so far followed by the one in hand, if any.  For a
    consumer started by the constructor, what is printed is what was
    received, but for the last command when it is still in hand. *)
Theorem consumer_prints_what_it_receives
    (me : CliClient T) (schedule : list action) :
  in_hand (consumer me) ++ received (run schedule me).2
  = printed (run schedule me).2 ++ in_hand (consumer (run schedule me).1).
Proof. destruct (run_steps schedule me) as (_ & _ & _ & ? & _). done. Qed.

(** X9.  The consumer sleeps exactly after the polls that found nothing:
    in every schedule the number of [consume_one] calls that returned
    [None] (plus one if the consumer was about to sleep at the start) is
    the number of sleeps (plus one if it is about to sleep at the end), and
    every sleep lasts 0.1 second.  It never sleeps after receiving a
    command and never polls twice in a row without sleeping when nothing
    arrived. *)
Theorem consumer_sleeps_after_each_empty_poll
    (me : CliClient T) (schedule : list action) :
  count is_ConsumeOne_None (run schedule me).2 + about_to_sleep (consumer me)
  = count is_Sleep (run schedule me).2
    + about_to_sleep (consumer (run schedule me).1)
  /\ forallb sleeps_a_tenth (run schedule me).2 = true.
Proof. destruct (run_steps schedule me) as (_ & _ & _ & _ & ? & ?). done. Qed.

End Consumer.
End ConsumerFacts.

(** * Facts about starting and stopping the processes *)

Module LifecycleFacts.
Import Lifecycle.
Local Open Scope lifecycle_scope.

Section Runs.
Context {W : Type} `{Processes W}.

Lemma same_attributes_refl (s : state W) : same_attributes s s.
Proof. by repeat split. Qed.

Lemma same_attributes_trans (s1 s2 s3 : state W) :
  same_attributes s1 s2 -> same_attributes s2 s3 -> same_attributes s1 s3.
Proof.
  intros (?&?&?&?) (?&?&?&?). repeat split; congruence.
Qed.

Lemma called_run {A} (c : call) (f : W -> W * outcome A) (v : A -> value)
    (s : state W) :
  trace (called c f v s).1
  = trace s ++ [Ev c (returned_value v (f (world s)).2)]
  /\ same_attributes s (called c f v s).1
  /\ (called c f v s).2 = lift (f (world s)).2.
Proof.
  unfold called. destruct (f (world s)) as [w r]. simpl.
  split; [done|]. split; [by repeat split|done].
Qed.

Lemma follows_one {A} (c : call) (v : A -> value) (r : outcome A) :
  follows [c] [Ev c (returned_value v r)]
    (match lift r with Returns _ => Returns tt | Raises e => Raises e end).
Proof.
  destruct r as [a|e]; simpl.
  - by split.
  - exists e. split; [done|]. exists [], c. by repeat split.
Qed.

Lemma runs_ret (s : state W) : runs s [] (ret tt).
Proof.
  exists []. simpl. rewrite app_nil_r. split; [done|].
  split; [apply same_attributes_refl|]. by split.
Qed.

Lemma runs_extern (c : call) (s : state W) : runs s [c] (extern c).
Proof.
  unfold runs, extern.
  destruct (called_run c (perform c) (fun _ => NoValue) s) as (Ht & Ha & Hr).
  eexists. split; [exact Ht|]. split; [exact Ha|].
  rewrite Hr. pose proof (follows_one c (fun _ : unit => NoValue)
                            (perform c (world s)).2) as F.
  destruct (perform c (world s)).2 as [[]|e]; exact F.
Qed.

Lemma runs_wait (blender : BlenderApp) (timeout : option Q) (s : state W) :
  runs s [wait blender timeout] (do _ <- wait_ blender timeout; ret tt).
Proof.
  unfold runs, wait_, bind.
  destruct (called_run (wait blender timeout) (poll blender timeout)
              ReturnCode s) as (Ht & Ha & Hr).
  destruct (called _ _ _ s) as [s' r] eqn:E. simpl in *.
  pose proof (follows_one (wait blender timeout) ReturnCode
                (poll blender timeout (world s)).2) as F.
  rewrite <- Hr in F.
  destruct r as [a|e]; simpl; eexists; (split; [exact Ht|]); (split; [exact Ha|]);
    exact F.
Qed.

Lemma follows_app (p1 p2 : list call) (t1 t2 : list event) (r : result unit) :
  went_through p1 t1 -> follows p2 t2 r -> follows (p1 ++ p2) (t1 ++ t2) r.
Proof.
  intros [C1 R1] F. destruct r as [a|e]; simpl in *.
  - destruct F as [C2 R2]. split.
    + unfold calls in *. by rewrite map_app, C1, C2.
    + rewrite forallb_app, R1, R2. done.
  - destruct F as (x & -> & before & c & -> & Rb & P).
    exists x. split; [done|]. exists (t1 ++ before), c.
    split; [by rewrite app_assoc|]. split.
    + by rewrite forallb_app, R1, Rb.
    + unfold calls in *. rewrite map_app, C1, <- app_assoc.
      by apply prefix_app.
Qed.

Lemma follows_stopped (p1 p2 : list call) (t : list event) (e : error) :
  follows p1 t (Raises e) -> follows (p1 ++ p2) t (Raises e).
Proof.
  simpl. intros (x & -> & before & c & -> & Rb & P).
  exists x. split; [done|]. exists before, c. repeat split; [done|].
  by apply prefix_app_r.
Qed.

Lemma runs_bind (s : state W) (p1 p2 : list call) (m1 m2 : M (state W) unit) :
  runs s p1 m1 ->
  (forall s', same_attributes s s' -> runs s' p2 m2) ->
  runs s (p1 ++ p2) (m1 ;; m2).
Proof.
  intros (t1 & Ht1 & Ha1 & F1) H2. unfold runs, bind.
  destruct (m1 s) as [s1 [[]|e]] eqn:E1; simpl in *.
  - destruct (H2 s1 Ha1) as (t2 & Ht2 & Ha2 & F2).
    exists (t1 ++ t2). split; [by rewrite Ht2, Ht1, app_assoc|].
    split; [by eapply same_attributes_trans|].
    by apply follows_app.
  - exists t1. split; [done|]. split; [done|].
    by apply (follows_stopped p1 p2 t1 e).
Qed.

Lemma runs_get (s : state W) (plan : list call)
    (k : state W -> M (state W) unit) :
  runs s plan (k s) -> runs s plan (do self <- get; k self).
Proof. done. Qed.

Lemma runs_for_each {X} (f : X -> call) (body : X -> M (state W) unit)
    (xs : list X) :
  (forall x s, runs s [f x] (body x)) ->
  forall s, runs s (map f xs) (for_each xs body).
Proof.
  intros Hb. induction xs as [|x xs IH]; intros s; simpl.
  - apply runs_ret.
  - apply (runs_bind s [f x] (map f xs)); [apply Hb|]. intros s' _. apply IH.
Qed.

Lemma shutdown_runs (s : state W) :
  runs s (shutdown_plan (_blenders s) (_server_process s)) shutdown.
Proof.
  unfold shutdown, shutdown_plan.
  apply runs_get.
  apply runs_bind; [apply runs_for_each; intros; apply runs_extern|].
  intros s1 (_ & S1 & B1 & _). apply runs_get. rewrite B1.
  apply runs_bind; [apply (runs_for_each (fun b => wait b None)); intros; apply runs_wait|].
  intros s2 (_ & S2 & B2 & _). apply runs_get. rewrite B2, B1.
  apply runs_bind; [apply runs_for_each; intros; apply runs_extern|].
  intros s3 (_ & S3 & _ & _). apply runs_get. rewrite S3, S2, S1.
  apply (runs_bind s3 [_] [_]); [apply runs_extern|].
  intros s4 _. apply runs_extern.
Qed.

Lemma prefix_stays_in (P : call -> bool) (A B l : list call) (c : call) :
  l ++ [c] `prefix_of` A ++ B ->
  P c = true ->
  forallb (fun x => negb (P x)) B = true ->
  l ++ [c] `prefix_of` A.
Proof.
  intros Hp Pc HB. revert l Hp.
  induction A as [|a A IH]; intros l Hp; simpl in *.
  - assert (c ∈ B) as Hin.
    { eapply elem_of_prefix; [|exact Hp]. apply elem_of_app. right. by left. }
    rewrite forallb_forall in HB. apply list_elem_of_In, HB in Hin.
    by rewrite Pc in Hin.
  - destruct l as [|x l]; simpl in *.
    + apply prefix_cons_inv_1 in Hp as ->. apply prefix_cons, prefix_nil.
    + pose proof (prefix_cons_inv_1 _ _ _ _ Hp) as ->.
      apply prefix_cons, IH. by apply prefix_cons_inv_2 in Hp.
Qed.

Lemma blender_calls_plan (blenders : list BlenderApp) :
  forallb is_blender_call
    (map quit blenders ++ map (fun b => wait b None) blenders
     ++ map close blenders) = true.
Proof.
  rewrite !forallb_app.
  repeat (apply andb_true_intro; split);
    apply forallb_forall; intros c [b [<- _]]%in_map_iff; done.
Qed.

(** X10.  [shutdown] quits every instance, then waits for every instance,
    then closes every instance, then kills the server, then calls
    unittest's [tearDown], in that order; it stops at the first of these
    calls that raises, with that exception, and changes no attribute. *)
Theorem shutdown_quits_waits_closes_then_kills (s : state W) :
  runs s (shutdown_plan (_blenders s) (_server_process s)) shutdown.
Proof. apply shutdown_runs. Qed.

(** X11.  When [quit], [wait] or [close] of an instance raises in
    [shutdown], nothing but calls to the instances has been made: the
    server is not killed and unittest's [tearDown] is not called. *)
Theorem failed_blender_leaves_server_running (s s' : state W) (e : error) :
  shutdown s = (s', Raises e) ->
  exists before c x,
    e = Known x
    /\ trace s' = trace s ++ before ++ [Ev c (Raise x)]
    /\ forallb returned before = true
    /\ (is_blender_call c = true ->
        forallb is_blender_call (calls before) = true).
Proof.
  intros E. destruct (shutdown_runs s) as (t & Ht & _ & F).
  rewrite E in Ht, F. simpl in Ht, F.
  destruct F as (x & -> & before & c & -> & Rb & P).
  exists before, c, x. repeat split; try done.
  intros Bc. unfold shutdown_plan in P. rewrite !app_assoc in P.
  apply (prefix_stays_in is_blender_call) in P; [|done|done].
  rewrite <- !app_assoc in P.
  pose proof (blender_calls_plan (_blenders s)) as All.
  rewrite forallb_forall in All. apply forallb_forall. intros y Hy.
  apply All, list_elem_of_In. eapply elem_of_prefix; [|exact P].
  apply elem_of_app. left. by apply list_elem_of_In.
Qed.

(** X12.  [tearDown] runs [shutdown] and then unittest's [tearDown],
    which [shutdown] has called already: a [tearDown] that goes through
    calls unittest's [tearDown] twice, after the server was killed; and
    when [shutdown] raises, the second call is not made. *)
Theorem tearDown_calls_unittest_tearDown_twice (s : state W) :
  runs s
    (shutdown_plan (_blenders s) (_server_process s) ++ [TestCase_tearDown])
    tearDown.
Proof.
  unfold tearDown. apply runs_bind; [apply shutdown_runs|].
  intros s' _. apply runs_extern.
Qed.

Lemma connect_from_runs (i : Z) (blenders : list BlenderApp) :
  (0 < i)%Z ->
  forall s : state W,
    runs s
      (concat (map (fun blender =>
                      [sleep 1;
                       connect_and_join_mixer blender
                         [("experimental", experimental_sync s)]])
                 blenders))
      (connect_from i blenders).
Proof.
  revert i. induction blenders as [|b bs IH]; intros i Hi s; simpl.
  - apply runs_ret.
  - apply Z.ltb_lt in Hi as Hi'. rewrite Hi'.
    apply (runs_bind s [sleep 1]); [apply runs_extern|].
    intros s1 (_ & _ & _ & E1). apply runs_get. cbv beta. rewrite E1.
    apply (runs_bind s1 [_]); [apply runs_extern|].
    intros s2 (_ & _ & _ & E2).
    replace (experimental_sync s) with (experimental_sync s2) by congruence.
    apply IH. lia.
Qed.

(** X13.  [connect] joins the instances in the order of [_blenders],
    sleeping one second before each join but the first, and passes the
    synchronisation flag under the keyword [experimental]; it stops at the
    first call that raises.  For [n] instances that is [n] joins and
    [n - 1] sleeps. *)
Theorem connect_joins_in_order_one_second_apart (s : state W) :
  runs s (connect_plan (experimental_sync s) (_blenders s)) connect
  /\ length (List.filter is_sleep
              (connect_plan (experimental_sync s) (_blenders s)))
     = pred (length (_blenders s))
  /\ List.filter is_join
       (connect_plan (experimental_sync s) (_blenders s))
     = map (fun blender =>
              connect_and_join_mixer blender
                [("experimental", experimental_sync s)])
         (_blenders s).
Proof.
  split.
  - unfold connect, connect_plan. apply runs_get.
    destruct (_blenders s) as [|b bs]; simpl; [apply runs_ret|].
    change (bind (ret tt) ?k) with (k tt). simpl.
    apply runs_get.
    apply (runs_bind s [_]); [apply runs_extern|].
    intros s1 (_ & _ & _ & E1). rewrite <- E1.
    apply connect_from_runs. lia.
  - unfold connect_plan. destruct (_blenders s) as [|b bs]; [done|].
    simpl. split; [|f_equal]; induction bs as [|b' bs IH]; simpl;
      congruence.
Qed.

Lemma bind_returns {A B} (m : M (state W) A) (k : A -> M (state W) B)
    (s s' : state W) (a : A) :
  m s = (s', Returns a) -> bind m k s = k a s'.
Proof. unfold bind. by intros ->. Qed.

Lemma bind_raises {A B} (m : M (state W) A) (k : A -> M (state W) B)
    (s s' : state W) (e : error) :
  m s = (s', Raises e) -> bind m k s = (s', Raises e).
Proof. unfold bind. by intros ->. Qed.

Lemma called_cases {A} (c : call) (f : W -> W * outcome A) (v : A -> value)
    (s : state W) :
  (exists s' a,
     called c f v s = (s', Returns a)
     /\ trace s' = trace s ++ [Ev c (Return (v a))]
     /\ same_attributes s s')
  \/ (exists s' x,
        called c f v s = (s', Raises (Known x))
        /\ trace s' = trace s ++ [Ev c (Raise x)]
        /\ same_attributes s s').
Proof.
  unfold called. destruct (f (world s)) as [w [a|x]]; simpl.
  - left. eexists _, a. by repeat split.
  - right. eexists _, x. by repeat split.
Qed.

Lemma getitem_in_range {A} (l : list A) (i : Z) :
  (- Z.of_nat (length l) <= i < Z.of_nat (length l))%Z ->
  getitem l i = l !! Z.to_nat (i `mod` Z.of_nat (length l)).
Proof.
  intros Hi. unfold getitem.
  destruct (Z.leb_spec 0 i) as [H0|H0].
  - by rewrite Z.mod_small by lia.
  - destruct (Z.leb_spec (- Z.of_nat (length l)) i) as [H1|H1]; [|lia].
    f_equal. f_equal.
    rewrite <- (Z.mod_add i 1 (Z.of_nat (length l))) by lia.
    rewrite Z.mod_small by lia. lia.
Qed.

Lemma getitem_out_of_range {A} (l : list A) (i : Z) :
  ~ (- Z.of_nat (length l) <= i < Z.of_nat (length l))%Z ->
  getitem l i = None.
Proof.
  intros Hi. unfold getitem.
  destruct (Z.leb_spec 0 i) as [H0|H0].
  - apply lookup_ge_None. lia.
  - destruct (Z.leb_spec (- Z.of_nat (length l)) i) as [H1|H1]; [lia|done].
Qed.

(** X14.  [send_strings] (and [send_string], which it calls with the
    strings joined by newlines) addresses the instance [_blenders[to]] as
    a Python list does: for [to] in [-n, n) the one string is sent, in one
    call, to the instance at [to mod n], so that [-1] is the last
    instance; for any other [to], [IndexError] is raised and nothing is
    sent. *)
Theorem send_strings_reaches_one_instance_or_none
    (s : state W) (strings : list string) (to : Z) :
  if decide (- Z.of_nat (length (_blenders s)) <= to
             < Z.of_nat (length (_blenders s)))%Z
  then exists blender,
         _blenders s !! Z.to_nat (to `mod` Z.of_nat (length (_blenders s)))
         = Some blender
         /\ runs s [send_string blender (String.concat newline strings)]
              (send_strings strings (Some to))
  else send_strings strings (Some to) s = (s, Raises list_index_out_of_range).
Proof.
  unfold send_strings, send_string_, blender_at.
  destruct (decide _) as [Hin|Hout].
  - pose proof (getitem_in_range (_blenders s) to Hin) as G.
    destruct (_blenders s !! _) as [b|] eqn:L.
    + exists b. split; [done|].
      match goal with
      | |- runs s _ ?m =>
          assert (m s = extern (send_string b (String.concat newline strings)) s)
            as Heq by (unfold bind, get; simpl; by rewrite G)
      end.
      unfold runs. rewrite Heq. apply runs_extern.
    + apply lookup_ge_None in L.
      assert (0 <= to `mod` Z.of_nat (length (_blenders s))
              < Z.of_nat (length (_blenders s)))%Z
        by (apply Z.mod_pos_bound; lia).
      lia.
  - unfold bind. simpl. by rewrite (getitem_out_of_range _ _ Hout).
Qed.

(** X16.  The class name generated for a parameter set tells the value of
    [experimental_sync] and nothing else: for a given test class, two
    parameter sets get the same name exactly when they agree on that
    flag, whatever their number and their other parameters. *)
Theorem class_name_tells_the_flag_only
    (test_class : string) (num num' : Z) (params params' : gmap string param)
    (b b' : bool) :
  params !! "experimental_sync" = Some (PBool b) ->
  params' !! "experimental_sync" = Some (PBool b') ->
  get_class_name test_class num params = get_class_name test_class num' params'
  <-> b = b'.
Proof.
  intros E E'. unfold get_class_name. rewrite E, E'. simpl. split.
  - intros [= Heq]. apply String.app_inj in Heq. apply String.app_inj in Heq.
    by destruct b, b'.
  - by intros ->.
Qed.

Lemma blender_at_Some (i : Z) (s : state W) (blender : BlenderApp) :
  getitem (_blenders s) i = Some blender ->
  blender_at i s = (s, Returns blender).
Proof. unfold blender_at, bind, get. simpl. by intros ->. Qed.

Lemma ending_of_next_round (sender receiver : BlenderApp) (fuel k : nat)
    (ending : list event) (r : result (option unit)) :
  ending_of sender receiver fuel k ending r ->
  ending_of sender receiver (S fuel) (S (S k)) ending r.
Proof.
  unfold ending_of, polled, role. simpl Nat.even.
  destruct r as [[[]|]|e]; [done| |done].
  intros [-> ->]. split; [lia|done].
Qed.

(** X15.  [assert_user_success] polls the sender and the receiver in
    turn, the sender first, each with a timeout of 0.2 second, for as long
    as both are found running.  When one is found to have exited, the
    other one is killed, and the method returns if the return code is 0
    and fails with a message that names the instance and gives the code in
    decimal and in hexadecimal otherwise.  It ends in no other way, but by
    an exception of [wait] or [kill]; a run of [fuel] rounds that is still
    looping has made [2 * fuel] polls which all found the process
    running. *)
Theorem assert_user_success_outcomes
    (fuel : nat) (s s' : state W) (r : result (option unit))
    (sender receiver : BlenderApp) (others : list BlenderApp) :
  _blenders s = sender :: receiver :: others ->
  assert_user_success fuel s = (s', r) ->
  exists k ending,
    k <= 2 * fuel
    /\ trace s' = trace s ++ polls sender receiver k ++ ending
    /\ ending_of sender receiver fuel k ending r.
Proof.
  revert s. induction fuel as [|fuel IH]; intros s B E.
  { injection E as <- <-. exists 0, []. simpl. rewrite app_nil_r. by repeat split. }
  cbn [assert_user_success] in E. unfold _sender, _receiver in E.
  rewrite (bind_returns _ _ s s sender) in E
    by (apply blender_at_Some; by rewrite B).
  destruct (called_cases (wait sender (Some (2 # 10)))
              (poll sender (Some (2 # 10))) ReturnCode s)
    as [(s1 & rc & E1 & T1 & A1)|(s1 & x & E1 & T1 & A1)]; fold (wait_ sender (Some (2 # 10))) in E1.
  2:{ rewrite (bind_raises _ _ _ _ _ E1) in E. injection E as <- <-.
      exists 0, [Ev (wait sender (Some (2 # 10))) (Raise x)].
      split; [lia|]. split; [done|]. left. by exists x. }
  rewrite (bind_returns _ _ _ _ _ E1) in E.
  assert (_blenders s1 = sender :: receiver :: others) as B1
    by (destruct A1 as (_ & _ & -> & _); done).
  destruct rc as [rc|].
  { rewrite (bind_returns _ _ s1 s1 receiver) in E
      by (apply blender_at_Some; by rewrite B1).
    destruct (called_cases (kill receiver) (perform (kill receiver))
                (fun _ => NoValue) s1)
      as [(s2 & [] & E2 & T2 & A2)|(s2 & x & E2 & T2 & A2)];
      fold (extern (kill receiver)) in E2.
    2:{ rewrite (bind_raises _ _ _ _ _ E2) in E. injection E as <- <-.
        exists 0, [exit_seen sender rc; Ev (kill receiver) (Raise x)].
        split; [lia|]. split; [by rewrite T2, T1, <- app_assoc|].
        right. left. by exists rc, x. }
    rewrite (bind_returns _ _ _ _ _ E2) in E.
    exists 0, [exit_seen sender rc; Ev (kill receiver) (Return NoValue)].
    split; [lia|].
    destruct (Z.eqb_spec rc 0) as [->|Hrc]; simpl in E; injection E as <- <-.
    - split; [by rewrite T2, T1, <- app_assoc|]. done.
    - split; [by rewrite T2, T1, <- app_assoc|].
      right. right. by exists rc. }
  rewrite (bind_returns _ _ s1 s1 receiver) in E
    by (apply blender_at_Some; by rewrite B1).
  destruct (called_cases (wait receiver (Some (2 # 10)))
              (poll receiver (Some (2 # 10))) ReturnCode s1)
    as [(s2 & rc & E2 & T2 & A2)|(s2 & x & E2 & T2 & A2)];
    fold (wait_ receiver (Some (2 # 10))) in E2.
  2:{ rewrite (bind_raises _ _ _ _ _ E2) in E. injection E as <- <-.
      exists 1, [Ev (wait receiver (Some (2 # 10))) (Raise x)].
      split; [lia|]. split; [by rewrite T2, T1, <- app_assoc|].
      left. by exists x. }
  rewrite (bind_returns _ _ _ _ _ E2) in E.
  assert (_blenders s2 = sender :: receiver :: others) as B2
    by (destruct A2 as (_ & _ & -> & _); done).
  destruct rc as [rc|].
  { rewrite (bind_returns _ _ s2 s2 sender) in E
      by (apply blender_at_Some; by rewrite B2).
    destruct (called_cases (kill sender) (perform (kill sender))
                (fun _ => NoValue) s2)
      as [(s3 & [] & E3 & T3 & A3)|(s3 & x & E3 & T3 & A3)];
      fold (extern (kill sender)) in E3.
    2:{ rewrite (bind_raises _ _ _ _ _ E3) in E. injection E as <- <-.
        exists 1, [exit_seen receiver rc; Ev (kill sender) (Raise x)].
        split; [lia|]. split; [by rewrite T3, T2, T1, <- !app_assoc|].
        right. left. by exists rc, x. }
    rewrite (bind_returns _ _ _ _ _ E3) in E.
    exists 1, [exit_seen receiver rc; Ev (kill sender) (Return NoValue)].
    split; [lia|].
    destruct (Z.eqb_spec rc 0) as [->|Hrc]; simpl in E; injection E as <- <-.
    - split; [by rewrite T3, T2, T1, <- !app_assoc|]. done.
    - split; [by rewrite T3, T2, T1, <- !app_assoc|].
      right. right. by exists rc. }
  destruct (IH s2 B2 E) as (k & ending & Hk & T & F).
  exists (S (S k)), ending. split; [lia|].
  split; [by rewrite T, T2, T1, <- !app_assoc|].
  by apply ending_of_next_round.
Qed.

Lemma window_args_eq (i n : nat) (blenderdesc : BlenderDesc) :
  window_args (Z.of_nat i) (1920 / Z.of_nat n) blenderdesc
  = ["--window-geometry"; pretty (Z.of_nat i * (1920 / Z.of_nat n))%Z;
     "0"; "960"; "1080"] ++ option_list (load_file blenderdesc).
Proof. unfold window_args. by destruct (load_file blenderdesc). Qed.

Lemma completed_app (join : bool) (t1 t2 : list event) :
  completed join (t1 ++ t2) = completed join t1 ++ completed join t2.
Proof. apply omap_app. Qed.

(** The loop of [setUp], from the index [i] on. *)
Lemma start_blenders_runs (n : nat) (join : bool)
    (blenderdescs : list BlenderDesc) :
  forall (i : nat) (s s' : state W) (r : result unit),
    start_blenders (Z.of_nat i) (1920 / Z.of_nat n) join blenderdescs s
    = (s', r) ->
    exists t,
      trace s' = trace s ++ t
      /\ _log_level s' = _log_level s
      /\ _server_process s' = _server_process s
      /\ experimental_sync s' = experimental_sync s
      /\ _blenders s' = _blenders s ++ completed join t
      /\ match r with
         | Returns _ =>
             forallb returned t = true
             /\ length (completed join t) = length blenderdescs
             /\ calls t
                = concat (imap (fun j =>
                                  start_plan (_log_level s)
                                    (experimental_sync s) join n (i + j))
                            (zip blenderdescs (completed join t)))
         | Raises e =>
             exists before c x,
               e = Known x
               /\ t = before ++ [Ev c (Raise x)]
               /\ forallb returned before = true
         end.
Proof.
  induction blenderdescs as [|d rest IH]; intros i s s' r E.
  { injection E as <- <-. exists []. simpl. rewrite !app_nil_r. by repeat split. }
  cbn [start_blenders] in E. rewrite window_args_eq in E.
  unfold BlenderApp_ in E.
  destruct (called_cases
              (BlenderApp_new (python_port + Z.of_nat i)
                 (ptvsd_port + Z.of_nat i) (wait_for_debugger d))
              (launch (python_port + Z.of_nat i) (ptvsd_port + Z.of_nat i)
                 (wait_for_debugger d)) Started s)
    as [(s1 & b & E1 & T1 & (L1 & P1 & B1 & X1))|(s1 & x & E1 & T1 & (L1 & P1 & B1 & X1))].
  2:{ rewrite (bind_raises _ _ _ _ _ E1) in E. injection E as <- <-.
      eexists. split; [exact T1|]. rewrite B1. simpl. rewrite app_nil_r.
      repeat split; try done. eexists [], _, x; by repeat split. }
  rewrite (bind_returns _ _ _ _ _ E1) in E.
  rewrite (bind_returns _ _ s1 s1 s1) in E by done.
  destruct (called_cases (set_log_level b (_log_level s1))
              (perform (set_log_level b (_log_level s1))) (fun _ => NoValue) s1)
    as [(s2 & [] & E2 & T2 & (L2 & P2 & B2 & X2))|(s2 & x & E2 & T2 & (L2 & P2 & B2 & X2))];
    fold (extern (set_log_level b (_log_level s1))) in E2.
  2:{ rewrite (bind_raises _ _ _ _ _ E2) in E. injection E as <- <-.
      eexists. split; [by rewrite T2, T1, <- app_assoc|].
      rewrite B2, B1. simpl. rewrite app_nil_r.
      repeat split; try congruence. eexists [_], _, x; by repeat split. }
  rewrite (bind_returns _ _ _ _ _ E2) in E.
  match type of E with
  | bind (extern ?c) _ _ = _ =>
      destruct (called_cases c (perform c) (fun _ => NoValue) s2)
        as [(s3 & [] & E3 & T3 & (L3 & P3 & B3 & X3))|(s3 & x & E3 & T3 & (L3 & P3 & B3 & X3))];
      fold (extern c) in E3
  end.
  2:{ rewrite (bind_raises _ _ _ _ _ E3) in E. injection E as <- <-.
      eexists. split; [by rewrite T3, T2, T1, <- !app_assoc|].
      rewrite B3, B2, B1. simpl. rewrite app_nil_r.
      repeat split; try congruence. eexists [_; _], _, x; by repeat split. }
  rewrite (bind_returns _ _ _ _ _ E3) in E.
  destruct join.
  - unfold bind at 1 in E. rewrite (bind_returns get _ s3 s3 s3) in E by done.
    cbv beta in E.
    match type of E with
    | context [extern ?c s3] =>
        destruct (called_cases c (perform c) (fun _ => NoValue) s3)
          as [(s4 & [] & E4 & T4 & (L4 & P4 & B4 & X4))|(s4 & x & E4 & T4 & (L4 & P4 & B4 & X4))];
        fold (extern c) in E4
    end.
    2:{ rewrite E4 in E. injection E as <- <-.
        eexists. split; [by rewrite T4, T3, T2, T1, <- !app_assoc|].
        rewrite B4, B3, B2, B1. simpl. rewrite app_nil_r.
        repeat split; try congruence. eexists [_; _; _], _, x; by repeat split. }
    rewrite E4 in E. unfold bind at 1, append, modify in E. cbv beta iota in E.
    replace (Z.of_nat i + 1)%Z with (Z.of_nat (S i)) in E by lia.
    apply IH in E as (t & T & L & P & X & B & F). simpl in *.
    eexists. split; [by rewrite T, T4, T3, T2, T1, <- !app_assoc|].
    rewrite B, B4, B3, B2, B1, L, P, X. simpl. rewrite <- app_assoc. simpl.
    repeat split; try congruence.
    destruct r as [[]|e].
    + destruct F as (R & Len & C). repeat split; [done|by rewrite Len|].
      rewrite C, L1, X3, X2, X1, Nat.add_0_r. do 4 f_equal.
      f_equal. apply imap_ext. intros j [d' b'] _. simpl.
      replace (i + S j) with (S (i + j)) by lia.
      by rewrite L4, L3, L2, L1, X4, X3, X2, X1.
    + destruct F as (before & c & x & -> & -> & R).
      eexists (_ :: _ :: _ :: _ :: before), c, x. by repeat split.
  - unfold bind at 1, ret in E. cbv beta iota in E.
    unfold bind at 1, append, modify in E. cbv beta iota in E.
    replace (Z.of_nat i + 1)%Z with (Z.of_nat (S i)) in E by lia.
    apply IH in E as (t & T & L & P & X & B & F). simpl in *.
    eexists. split; [by rewrite T, T3, T2, T1, <- !app_assoc|].
    rewrite B, B3, B2, B1, L, P, X. simpl. rewrite <- app_assoc. simpl.
    repeat split; try congruence.
    destruct r as [[]|e].
    + destruct F as (R & Len & C). repeat split; [done|by rewrite Len|].
      rewrite C, L1, Nat.add_0_r. do 3 f_equal.
      f_equal. apply imap_ext. intros j [d' b'] _. simpl.
      replace (i + S j) with (S (i + j)) by lia.
      by rewrite L3, L2, L1.
    + destruct F as (before & c & x & -> & -> & R).
      eexists (_ :: _ :: _ :: before), c, x. by repeat split.
Qed.

(** The [try] block of [setUp]. *)
Lemma setUp_body_runs (blenderdescs : list BlenderDesc)
    (server_args : option (list string)) (join : bool)
    (s s' : state W) (r : result unit) :
  (do self <- get;
   extern (start (_server_process self) server_args) ;;
   do window_width <- window_width_for blenderdescs;
   start_blenders 0 window_width join blenderdescs) s = (s', r) ->
  exists t,
    trace s' = trace s ++ t
    /\ _log_level s' = _log_level s
    /\ _server_process s' = _server_process s
    /\ experimental_sync s' = experimental_sync s
    /\ _blenders s' = _blenders s ++ completed join t
    /\ match r with
       | Returns _ =>
           blenderdescs <> []
           /\ forallb returned t = true
           /\ length (completed join t) = length blenderdescs
           /\ calls t
              = start (_server_process s) server_args
                :: concat (imap (start_plan (_log_level s)
                                   (experimental_sync s) join
                                   (length blenderdescs))
                             (zip blenderdescs (completed join t)))
       | Raises e =>
           raised_in t e
           /\ (e = ZeroDivisionError ->
               blenderdescs = []
               /\ calls t = [start (_server_process s) server_args])
       end.
Proof.
  intros E. rewrite (bind_returns get _ s s s) in E by done.
  destruct (called_cases (start (_server_process s) server_args)
              (perform (start (_server_process s) server_args))
              (fun _ => NoValue) s)
    as [(s1 & [] & E1 & T1 & (L1 & P1 & B1 & X1))|(s1 & x & E1 & T1 & (L1 & P1 & B1 & X1))];
    fold (extern (start (_server_process s) server_args)) in E1.
  2:{ rewrite (bind_raises _ _ _ _ _ E1) in E. injection E as <- <-.
      eexists. split; [exact T1|]. rewrite B1. simpl. rewrite app_nil_r.
      repeat split; try done.
      left. eexists [], _, x. by repeat split. }
  rewrite (bind_returns _ _ _ _ _ E1) in E.
  destruct blenderdescs as [|d rest].
  { injection E as <- <-. eexists. split; [exact T1|]. rewrite B1. simpl.
    rewrite app_nil_r. repeat split; try done. by right. }
  unfold window_width_for in E.
  rewrite (bind_returns _ _ s1 s1 (1920 / Z.of_nat (length (d :: rest)))%Z) in E
    by done.
  change 0%Z with (Z.of_nat 0) in E.
  apply start_blenders_runs in E as (t & T & L & P & X & B & F).
  exists (Ev (start (_server_process s) server_args) (Return NoValue) :: t).
  split; [by rewrite T, T1, <- app_assoc|].
  rewrite B, B1, L, P, X. repeat split; try congruence.
  destruct r as [[]|e].
  - destruct F as (R & Len & C). repeat split; try done.
    unfold calls in *. simpl map. rewrite C. f_equal. f_equal.
    change (completed join (?e :: t)) with (completed join t).
    apply imap_ext. intros j [d' b'] _. simpl. by rewrite L1, X1.
  - destruct F as (before & c & x & -> & -> & R). split; [|done].
    left. eexists (_ :: before), c, x. by repeat split.
Qed.

Lemma handler_never_returns (e : error) (s : state W) :
  exists e', ((shutdown ;; raise (A := unit) e) s).2 = Raises e'.
Proof.
  unfold bind. destruct (shutdown s) as [s' [[]|e']]; simpl; by eexists.
Qed.

(** X17.  A [setUp] that returns has called unittest's [setUp], started
    the server with [server_args], and then, for each description in
    turn, created an instance on the ports [8081 + i] and [5688 + i], set
    its log level to [_log_level], set it up with the window geometry
    [i * (1920 div n)], 0, 960, 1080 followed by the file to load if
    there is one, and joined it with [experimental_sync] when [join] is
    set; all these calls returned; the instances were appended to
    [_blenders] in that order.  The sequence of descriptions was not
    empty. *)
Theorem setUp_starts_the_instances_side_by_side
    (blenderdescs : list BlenderDesc) (server_args : option (list string))
    (join : bool) (s s' : state W) :
  setUp blenderdescs server_args join s = (s', Returns tt) ->
  blenderdescs <> []
  /\ exists instances t,
       length instances = length blenderdescs
       /\ _blenders s' = _blenders s ++ instances
       /\ trace s' = trace s ++ t
       /\ went_through
            (TestCase_setUp
             :: start (_server_process s) server_args
             :: concat (imap (start_plan (_log_level s) (experimental_sync s)
                                join (length blenderdescs))
                          (zip blenderdescs instances)))
            t.
Proof.
  intros E. unfold setUp in E.
  destruct (called_cases TestCase_setUp (perform TestCase_setUp)
              (fun _ => NoValue) s)
    as [(s1 & [] & E1 & T1 & (L1 & P1 & B1 & X1))|(s1 & x & E1 & T1 & A1)];
    fold (extern TestCase_setUp) in E1.
  2:{ by rewrite (bind_raises _ _ _ _ _ E1) in E. }
  rewrite (bind_returns _ _ _ _ _ E1) in E. unfold try_except in E.
  match type of E with
  | (match ?body s1 with _ => _ end) = _ =>
      destruct (body s1) as [s2 [[]|e]] eqn:Eb
  end.
  2:{ destruct (is_Exception e); [|done].
      destruct (handler_never_returns e s2) as [e' He'].
      rewrite E in He'. done. }
  injection E as <-.
  apply setUp_body_runs in Eb as (t & T & L & P & X & B & (Hne & R & Len & C)).
  split; [done|]. exists (completed join t), (Ev TestCase_setUp (Return NoValue) :: t).
  split; [done|]. split; [congruence|].
  split; [by rewrite T, T1, <- app_assoc|].
  split; [|done]. unfold calls in *. simpl. rewrite C. by rewrite P1, L1, X1.
Qed.

(** X18.  [setUp] of an empty sequence of descriptions never returns:
    the server is started first, then the division by the number of
    descriptions raises; when every call returns, the run is unittest's
    [setUp], the start of the server and a whole [shutdown], and it ends
    with [ZeroDivisionError]. *)
Theorem setUp_of_no_instance_raises
    (server_args : option (list string)) (join : bool) (s : state W) :
  exists e t,
    (setUp [] server_args join s).2 = Raises e
    /\ trace (setUp [] server_args join s).1 = trace s ++ t
    /\ (forallb returned t = true ->
        e = ZeroDivisionError
        /\ calls t
           = [TestCase_setUp; start (_server_process s) server_args]
             ++ shutdown_plan (_blenders s) (_server_process s)).
Proof.
  unfold setUp.
  destruct (called_cases TestCase_setUp (perform TestCase_setUp)
              (fun _ => NoValue) s)
    as [(s1 & [] & E1 & T1 & (L1 & P1 & B1 & X1))|(s1 & x & E1 & T1 & A1)];
    fold (extern TestCase_setUp) in E1.
  2:{ rewrite (bind_raises _ _ _ _ _ E1). simpl.
      eexists _, _. split; [done|]. split; [exact T1|]. done. }
  rewrite (bind_returns _ _ _ _ _ E1). unfold try_except.
  rewrite (bind_returns get _ s1 s1 s1) by done.
  destruct (called_cases (start (_server_process s1) server_args)
              (perform (start (_server_process s1) server_args))
              (fun _ => NoValue) s1)
    as [(s2 & [] & E2 & T2 & (L2 & P2 & B2 & X2))|(s2 & x & E2 & T2 & (L2 & P2 & B2 & X2))];
    fold (extern (start (_server_process s1) server_args)) in E2.
  - rewrite (bind_returns _ _ _ _ _ E2). simpl.
    destruct (shutdown_runs s2) as (t & T & _ & F).
    unfold bind. destruct (shutdown s2) as [s3 [[]|e]]; simpl in *.
    + eexists _, (_ :: _ :: t). split; [done|].
      split; [by rewrite T, T2, T1, <- !app_assoc|].
      intros _. split; [done|]. destruct F as [C _].
      unfold calls in *. simpl. by rewrite C, B2, B1, P2, P1.
    + eexists _, (_ :: _ :: t). split; [done|].
      split; [by rewrite T, T2, T1, <- !app_assoc|].
      destruct F as (x & -> & before & c & -> & _).
      simpl. rewrite forallb_app. simpl. by rewrite andb_false_r.
  - rewrite (bind_raises _ _ _ _ _ E2).
    destruct (is_Exception (Known x)).
    + destruct (shutdown_runs s2) as (t & T & _ & F).
      unfold bind. destruct (shutdown s2) as [s3 [[]|e]]; simpl in *.
      * eexists _, (_ :: _ :: t). split; [done|].
        split; [by rewrite T, T2, T1, <- !app_assoc|]. done.
      * eexists _, (_ :: _ :: t). split; [done|].
        split; [by rewrite T, T2, T1, <- !app_assoc|]. done.
    + simpl. eexists _, [_; _]. split; [done|].
      split; [by rewrite T2, T1, <- !app_assoc|]. done.
Qed.

(** X19.  When [setUp] raises, either unittest's [setUp] raised and
    nothing else was called, or the [try] block raised.  In that case an
    instance is in [_blenders] exactly when the last call of its start
    returned, so that the instance whose start raised is not; for a cause
    that is an [Exception], [shutdown] is then run on these instances and
    the server, and [setUp] raises the cause again if [shutdown] goes
    through, and the exception of [shutdown] otherwise; for any other
    cause nothing is shut down. *)
Theorem setUp_failure_shuts_down_what_was_started
    (blenderdescs : list BlenderDesc) (server_args : option (list string))
    (join : bool) (s s' : state W) (e : error) :
  setUp blenderdescs server_args join s = (s', Raises e) ->
  (exists x,
     e = Known x
     /\ trace s' = trace s ++ [Ev TestCase_setUp (Raise x)]
     /\ _blenders s' = _blenders s)
  \/ exists body cause down,
       trace s'
       = trace s ++ Ev TestCase_setUp (Return NoValue) :: body ++ down
       /\ _blenders s' = _blenders s ++ completed join body
       /\ raised_in body cause
       /\ if is_Exception cause
          then exists r,
                 follows (shutdown_plan (_blenders s') (_server_process s))
                   down r
                 /\ e = match r with
                        | Returns _ => cause
                        | Raises e' => e'
                        end
          else down = [] /\ e = cause.
Proof.
  intros E. unfold setUp in E.
  destruct (called_cases TestCase_setUp (perform TestCase_setUp)
              (fun _ => NoValue) s)
    as [(s1 & [] & E1 & T1 & (L1 & P1 & B1 & X1))|(s1 & x & E1 & T1 & (L1 & P1 & B1 & X1))];
    fold (extern TestCase_setUp) in E1.
  2:{ rewrite (bind_raises _ _ _ _ _ E1) in E. injection E as <- <-.
      left. by exists x. }
  right. rewrite (bind_returns _ _ _ _ _ E1) in E. unfold try_except in E.
  match type of E with
  | (match ?body s1 with _ => _ end) = _ =>
      destruct (body s1) as [s2 [[]|cause]] eqn:Eb
  end; [done|].
  apply setUp_body_runs in Eb as (body & T & L & P & X & B & (Hr & _)).
  destruct (is_Exception cause) eqn:Ex.
  - destruct (shutdown_runs s2) as (down & Td & (_ & Pd & Bd & _) & F).
    unfold bind in E. destruct (shutdown s2) as [s3 r] eqn:Es.
    simpl in Td, Pd, Bd, F.
    exists body, cause, down.
    assert (s' = s3 /\ e = match r with Returns _ => cause | Raises e' => e' end)
      as [-> ->] by (destruct r as [[]|e']; by injection E as <- <-).
    split; [by rewrite Td, T, T1, <- !app_assoc|].
    split; [congruence|]. split; [done|]. rewrite Ex.
    exists r. split; [|done]. by rewrite Bd, <- P1, <- P.
  - injection E as <- <-. exists body, cause, [].
    split; [by rewrite T, T1, app_nil_r, <- app_assoc|].
    split; [congruence|]. split; [done|]. by rewrite Ex.
Qed.

End Runs.
End LifecycleFacts.

(** * Concrete runs for the facts above *)

Module MoreRuns.
Import Cli CliTraces Scenario.

Lemma other_commands_witness :
  ~ In (command (localhost "disconnect" []))
      ["list"; "delete"; "clear"; "clients"]
  /\ command (localhost "disconnect" []) <> "list"
  /\ process_room_command (Tr := on_spec) (localhost "disconnect" [])
       (entry None)
     = ({| client := None; trace := [] |}, Return tt)
  /\ process_client_command (Tr := on_spec) (localhost "disconnect" [])
       (entry None)
     = ({| client := None; trace := [] |}, Return tt).
Proof.
  assert (~ In (command (localhost "disconnect" []))
            ["list"; "delete"; "clear"; "clients"]) as Hroom.
  { simpl. intros [H|[H|[H|[H|[]]]]]; discriminate H. }
  assert (command (localhost "disconnect" []) <> "list") as Hclient
    by discriminate.
  destruct (CliMoreFacts.other_commands_do_nothing (Tr := on_spec)
              (localhost "disconnect" []) (entry None)) as [R C].
  split; [exact Hroom|]. split; [exact Hclient|].
  split; [exact (R Hroom)|exact (C Hclient)].
Defined.

Lemma shell_is_never_left_witness :
  not_told_to_stop (client (entry (Some client_not_connected)))
  /\ (interactive_iteration (Tr := on_spec) (localhost "" []) "exit"
        (entry (Some client_not_connected))).2 = Return false
  /\ not_told_to_stop
       (client (interactive_iteration (Tr := on_spec) (localhost "" []) "exit"
                  (entry (Some client_not_connected))).1).
Proof.
  assert (not_told_to_stop (client (entry (Some client_not_connected))))
    as Hs by (intros me [= <-]; reflexivity).
  destruct (ShellFacts.shell_is_never_left_by_a_command (Tr := on_spec)
              (localhost "" []) "exit" (entry (Some client_not_connected)))
    as [_ K].
  split; [exact Hs|]. split; [vm_compute; reflexivity|exact (K Hs)].
Defined.

Lemma shell_asks_nothing_witness :
  not_connected (Tr := on_spec) (client (entry (Some client_not_connected)))
  /\ exists t,
       trace (interactive_iteration (Tr := on_spec) (localhost "" [])
                "listrooms" (entry (Some client_not_connected))).1
       = trace (entry (Some client_not_connected)) ++ t
       /\ forallb is_quiet t = true.
Proof.
  assert (not_connected (Tr := on_spec)
            (client (entry (Some client_not_connected)))) as Hs
    by reflexivity.
  split; [exact Hs|].
  exact (ShellFacts.shell_asks_nothing_without_connection (Tr := on_spec)
           (localhost "" []) "listrooms" (entry (Some client_not_connected))
           Hs).
Defined.

Lemma only_ServerError_witness :
  unencodable delete_a_0xFF_b
  = Some (Exn UnicodeEncodeError
            ["utf-8"; unencodable_name; "0"; "1"; "surrogates not allowed"])
  /\ (exists t,
        trace (process_room_command (Tr := on_spec) delete_a_0xFF_b
                 (entry None)).1
        = trace (entry (T := SpecClient.Client) None) ++ t
        /\ swallows_only_ServerError (unencodable delete_a_0xFF_b) t
             (process_room_command (Tr := on_spec) delete_a_0xFF_b
                (entry None)).2)
  /\ exn_type (Exn UnicodeEncodeError
                 ["utf-8"; unencodable_name; "0"; "1";
                  "surrogates not allowed"]) = UnicodeEncodeError
  /\ exists n,
       In n (name delete_a_0xFF_b)
       /\ encode n
          = Raise (Exn UnicodeEncodeError
                     ["utf-8"; unencodable_name; "0"; "1";
                      "surrogates not allowed"]).
Proof.
  assert (unencodable delete_a_0xFF_b
          = Some (Exn UnicodeEncodeError
                    ["utf-8"; unencodable_name; "0"; "1";
                     "surrogates not allowed"])) as Hname by reflexivity.
  destruct (CliMoreFacts.only_ServerError_is_swallowed (Tr := on_spec)
              delete_a_0xFF_b (entry None)) as (Hroom & _ & Hpending).
  split; [exact Hname|]. split; [exact Hroom|]. exact (Hpending _ Hname).
Defined.

Lemma one_session_witness :
  In (command (localhost "delete" ["a"; "b"]), DELETE_ROOM)
     [("delete", DELETE_ROOM); ("clear", CLEAR_ROOM);
      ("clients", LIST_ROOM_CLIENTS)]
  /\ Forall2 (fun n payload => encode n = Return payload)
       (name (localhost "delete" ["a"; "b"])) [utf8 "a"; utf8 "b"]
  /\ requested (localhost "delete" ["a"; "b"])
     = map (mkCommand DELETE_ROOM) [utf8 "a"; utf8 "b"]
  /\ exists t,
       trace (process_room_command (Tr := on_spec)
                (localhost "delete" ["a"; "b"]) (entry None)).1
       = trace (entry (T := SpecClient.Client) None) ++ t
       /\ one_session_at_most (requested (localhost "delete" ["a"; "b"])) t.
Proof.
  assert (In (command (localhost "delete" ["a"; "b"]), DELETE_ROOM)
            [("delete", DELETE_ROOM); ("clear", CLEAR_ROOM);
             ("clients", LIST_ROOM_CLIENTS)]) as Hin by (left; reflexivity).
  assert (Forall2 (fun n payload => encode n = Return payload)
            (name (localhost "delete" ["a"; "b"])) [utf8 "a"; utf8 "b"])
    as Henc by (repeat constructor).
  destruct (CliMoreFacts.one_shot_is_one_session_at_most (Tr := on_spec)
              (localhost "delete" ["a"; "b"]) (entry None))
    as (Hrun & Hall).
  split; [exact Hin|]. split; [exact Henc|].
  split; [exact (Hall _ _ Hin Henc) | exact Hrun].
Defined.

End MoreRuns.

Module LifecycleRuns.
Import Lifecycle Backstage.

Lemma failed_blender_witness :
  shutdown (running (quit_fails 1) [])
  = ((shutdown (running (quit_fails 1) [])).1, Raises (Known refused))
  /\ exists before c x,
       Known refused = Known x
       /\ trace (shutdown (running (quit_fails 1) [])).1
          = trace (running (quit_fails 1) []) ++ before ++ [Ev c (Raise x)]
       /\ forallb returned before = true
       /\ (is_blender_call c = true ->
           forallb is_blender_call (calls before) = true).
Proof.
  assert (shutdown (running (quit_fails 1) [])
          = ((shutdown (running (quit_fails 1) [])).1, Raises (Known refused)))
    as E by (vm_compute; reflexivity).
  split; [exact E|].
  exact (LifecycleFacts.failed_blender_leaves_server_running _ _ _ E).
Defined.

Lemma assert_user_success_witness :
  _blenders (running nothing_fails [None; None; Some 3%Z]) = [0; 1]
  /\ assert_user_success 5 (running nothing_fails [None; None; Some 3%Z])
     = ((assert_user_success 5
           (running nothing_fails [None; None; Some 3%Z])).1,
        Raises (Known (Exn AssertionError ["sender return code 3 (0x3)"])))
  /\ exists k ending,
       k <= 2 * 5
       /\ trace (assert_user_success 5
                   (running nothing_fails [None; None; Some 3%Z])).1
          = trace (running nothing_fails [None; None; Some 3%Z])
            ++ polls 0 1 k ++ ending
       /\ ending_of 0 1 5 k ending
            (Raises (Known (Exn AssertionError ["sender return code 3 (0x3)"]))).
Proof.
  assert (assert_user_success 5 (running nothing_fails [None; None; Some 3%Z])
          = ((assert_user_success 5
                (running nothing_fails [None; None; Some 3%Z])).1,
             Raises (Known (Exn AssertionError ["sender return code 3 (0x3)"]))))
    as E by (vm_compute; reflexivity).
  split; [reflexivity|]. split; [exact E|].
  exact (LifecycleFacts.assert_user_success_outcomes 5
           (running nothing_fails [None; None; Some 3%Z]) _ _ 0 1 []
           eq_refl E).
Defined.

Lemma class_name_witness :
  ({[ "experimental_sync" := PBool true ]} : gmap string param)
    !! "experimental_sync" = Some (PBool true)
  /\ ({[ "experimental_sync" := PBool true; "vrtist" := PInt 1 ]}
        : gmap string param) !! "experimental_sync" = Some (PBool true)
  /\ (get_class_name "TestCase" 0 {[ "experimental_sync" := PBool true ]}
      = get_class_name "TestCase" 1
          {[ "experimental_sync" := PBool true; "vrtist" := PInt 1 ]}
      <-> true = true).
Proof.
  split; [vm_compute; reflexivity|]. split; [vm_compute; reflexivity|].
  apply (LifecycleFacts.class_name_tells_the_flag_only "TestCase" 0 1
           {[ "experimental_sync" := PBool true ]}
           {[ "experimental_sync" := PBool true; "vrtist" := PInt 1 ]}
           true true); vm_compute; reflexivity.
Defined.

Lemma setUp_witness :
  setUp_default (constructed nothing_fails)
  = ((setUp_default (constructed nothing_fails)).1, Returns tt)
  /\ [BlenderDesc_new; BlenderDesc_new] <> []
  /\ exists instances t,
       length instances = 2
       /\ _blenders (setUp_default (constructed nothing_fails)).1
          = [] ++ instances
       /\ trace (setUp_default (constructed nothing_fails)).1 = [] ++ t
       /\ went_through
            (TestCase_setUp
             :: start server None
             :: concat (imap (start_plan INFO false true 2)
                          (zip [BlenderDesc_new; BlenderDesc_new] instances)))
            t.
Proof.
  assert (setUp [BlenderDesc_new; BlenderDesc_new] None true
            (constructed nothing_fails)
          = ((setUp_default (constructed nothing_fails)).1, Returns tt))
    as E by (vm_compute; reflexivity).
  split; [exact E|].
  exact (LifecycleFacts.setUp_starts_the_instances_side_by_side _ _ _ _ _ E).
Defined.

Lemma setUp_failure_witness :
  setUp_default (constructed (setup_fails 1))
  = ((setUp_default (constructed (setup_fails 1))).1, Raises (Known refused))
  /\ ((exists x,
         Known refused = Known x
         /\ trace (setUp_default (constructed (setup_fails 1))).1
            = [] ++ [Ev TestCase_setUp (Raise x)]
         /\ _blenders (setUp_default (constructed (setup_fails 1))).1 = [])
      \/ exists body cause down,
           trace (setUp_default (constructed (setup_fails 1))).1
           = [] ++ Ev TestCase_setUp (Return NoValue) :: body ++ down
           /\ _blenders (setUp_default (constructed (setup_fails 1))).1
              = [] ++ completed true body
           /\ raised_in body cause
           /\ if is_Exception cause
              then exists r,
                     follows
                       (shutdown_plan
                          (_blenders
                             (setUp_default (constructed (setup_fails 1))).1)
                          server)
                       down r
                     /\ Known refused = match r with
                                        | Returns _ => cause
                                        | Raises e' => e'
                                        end
              else down = [] /\ Known refused = cause).
Proof.
  assert (setUp [BlenderDesc_new; BlenderDesc_new] None true
            (constructed (setup_fails 1))
          = ((setUp_default (constructed (setup_fails 1))).1,
             Raises (Known refused)))
    as E by (vm_compute; reflexivity).
  split; [exact E|].
  exact (LifecycleFacts.setUp_failure_shuts_down_what_was_started
           _ _ _ _ _ _ E).
Defined.

End LifecycleRuns.
